(** * WaterNet: seismic damage assessment of a water distribution network

    A shallow embedding of the notebook [main.ipynb]: fragility-curve
    sampling of tank and pump damage states, the damage-application loops,
    the pipeline leak computation and the serviceability evaluation.

    Conventions.
    - A Python [float] is read as a real number ([R]); a Python [int] is a
      [Z]; a Python [str] is a [string].
    - A Python [dict] (and a pandas [Series] used through [.get], [.items]
      and label lookup) is an insertion-ordered association list.
    - An exception is a value [inl e] of the result type [res].
    - The two pseudo-random sources the notebook draws from (Python's
      [random] module and numpy's global generator) are explicit states that
      every drawing function takes and returns.
    - The library functions the notebook calls but does not define (scipy's
      normal distribution function, the generators, wntr's morphing and leak
      operations, wntr's expected demand) are the fields of the class
      [Collaborators]. *)

From Stdlib Require Import Reals Lra Lia ZArith List String Bool.
From Stdlib Require Import DecimalString DecimalZ DecimalPos.
Import ListNotations.

Local Open Scope R_scope.

(** ** Python values and containers *)

Module Py.

(** The exceptions the notebook's own statements can raise. *)
Inductive exn : Type :=
| KeyError
| IndexError
| ValueError
| AttributeError
| RuntimeError.

Definition res (A : Type) : Type := (exn + A)%type.

Definition ret {A : Type} (a : A) : res A := inr a.

Definition raise {A : Type} (e : exn) : res A := inl e.

Definition bind {A B : Type} (m : res A) (k : A -> res B) : res B :=
  match m with
  | inl e => inl e
  | inr a => k a
  end.

Section Dict.
Context {K V : Type}.
Variable eqb : K -> K -> bool.

(** Lookup of the value stored under [k], if any. *)
Fixpoint dict_find (d : list (K * V)) (k : K) : option V :=
  match d with
  | [] => None
  | (k', v) :: rest => if eqb k' k then Some v else dict_find rest k
  end.

(** [d[k] = v]: an existing key keeps its position, a new key goes
    last. *)
Fixpoint dict_set (d : list (K * V)) (k : K) (v : V) : list (K * V) :=
  match d with
  | [] => [(k, v)]
  | (k', v') :: rest =>
      if eqb k' k then (k', v) :: rest else (k', v') :: dict_set rest k v
  end.

(** [d.get(k, default)]. *)
Definition dict_get (d : list (K * V)) (k : K) (default : V) : V :=
  match dict_find d k with
  | Some v => v
  | None => default
  end.

(** [d[k]], which raises [KeyError] on a missing key. *)
Definition dict_getitem (d : list (K * V)) (k : K) : res V :=
  match dict_find d k with
  | Some v => ret v
  | None => raise KeyError
  end.

Definition dict_keys (d : list (K * V)) : list K := map fst d.
End Dict.

(** [series.iloc[i]]: positional access, negative positions count from the
    end, a position out of range raises [IndexError]. *)
Definition iloc {A : Type} (l : list A) (i : Z) : res A :=
  let n := Z.of_nat (List.length l) in
  let pos := if (0 <=? i)%Z then i else (n + i)%Z in
  if ((0 <=? pos)%Z && (pos <? n)%Z)%bool then
    match nth_error l (Z.to_nat pos) with
    | Some a => ret a
    | None => raise IndexError
    end
  else raise IndexError.


(** The built-in [min(a, b)]: [b] when [b < a], otherwise [a]. *)
Definition py_min (a b : R) : R := if Rlt_dec b a then b else a.

(** [int(x)] on a float: truncation toward zero. *)
Definition py_int (x : R) : Z :=
  if Rle_dec 0 x then Int_part x else (- Int_part (- x))%Z.

(** [str(n)] on an int: its decimal numeral. *)
Definition py_str (n : Z) : string := NilZero.string_of_int (Z.to_int n).

(** [int(s)] on a string holding a decimal numeral; anything else raises
    [ValueError]. *)
Definition int_of_str (s : string) : res Z :=
  match NilZero.int_of_string s with
  | Some d => ret (Z.of_int d)
  | None => raise ValueError
  end.

(** [series.mean()]. *)
Definition mean (l : list R) : R :=
  fold_right Rplus 0 l / INR (List.length l).

End Py.

Import Py.

Notation "x <- m ;; k" := (Py.bind m (fun x => k))
  (at level 61, m at next level, right associativity).
Notation "' pat <- m ;; k" := (Py.bind m (fun x => match x with pat => k end))
  (at level 61, pat pattern, m at next level, right associativity).

(** The first component of a result that is a pair. *)
Definition res_fst {A B : Type} (r : res (A * B)) : res A :=
  match r with
  | inl e => inl e
  | inr (a, _) => inr a
  end.

(** [for x in l: body], threading the mutable state [S] and stopping at the
    first exception. *)
Fixpoint for_each {A S : Type} (body : A -> S -> res S) (l : list A) (st : S)
  : res S :=
  match l with
  | [] => ret st
  | a :: rest => st' <- body a st ;; for_each body rest st'
  end.

(** ** The network model

    The part of wntr's [WaterNetworkModel] the notebook reads and writes:
    two name-indexed registries, of nodes and of links, in insertion
    order. *)

Record Tank : Type := mkTank {
  init_level : R;
  tank_elevation : R
}.

Record Junction : Type := mkJunction {
  junction_elevation : R;
  (** area, start time and end time of the leak, once one was added *)
  junction_leak : option (R * R * R)
}.

Inductive Node : Type :=
| NJunction (j : Junction)
| NTank (t : Tank)
| NReservoir.

Record Pipe : Type := mkPipe {
  pipe_length : R;
  diameter : R
}.

Record Pump : Type := mkPump {
  base_speed : R
}.

Inductive Link : Type :=
| LPipe (p : Pipe)
| LPump (p : Pump)
| LValve.

Record WaterNetworkModel : Type := mkNetwork {
  nodes : list (string * Node);
  links : list (string * Link)
}.

Definition is_tank (n : Node) : bool :=
  match n with NTank _ => true | _ => false end.

Definition is_junction (n : Node) : bool :=
  match n with NJunction _ => true | _ => false end.

Definition is_pump (l : Link) : bool :=
  match l with LPump _ => true | _ => false end.

Definition is_pipe (l : Link) : bool :=
  match l with LPipe _ => true | _ => false end.

Definition names_where {A : Type} (p : A -> bool) (reg : list (string * A))
  : list string :=
  map fst (filter (fun kv => p (snd kv)) reg).

Definition node_name_list (wn : WaterNetworkModel) : list string :=
  map fst (nodes wn).

Definition tank_name_list (wn : WaterNetworkModel) : list string :=
  names_where is_tank (nodes wn).

Definition junction_name_list (wn : WaterNetworkModel) : list string :=
  names_where is_junction (nodes wn).

Definition pump_name_list (wn : WaterNetworkModel) : list string :=
  names_where is_pump (links wn).

Definition pipe_name_list (wn : WaterNetworkModel) : list string :=
  names_where is_pipe (links wn).

(** [wn.get_node(name)] and [wn.get_link(name)]. *)
Definition get_node (wn : WaterNetworkModel) (name : string) : res Node :=
  dict_getitem String.eqb (nodes wn) name.

Definition get_link (wn : WaterNetworkModel) (name : string) : res Link :=
  dict_getitem String.eqb (links wn) name.

(** [name in l] on a list of names. *)
Definition name_in (name : string) (l : list string) : bool :=
  existsb (String.eqb name) l.

(** Attribute reads; an attribute the object does not have raises
    [AttributeError]. *)
Definition node_init_level (n : Node) : res R :=
  match n with NTank t => ret (init_level t) | _ => raise AttributeError end.

Definition node_elevation (n : Node) : res R :=
  match n with
  | NTank t => ret (tank_elevation t)
  | NJunction j => ret (junction_elevation j)
  | NReservoir => raise AttributeError
  end.

Definition link_diameter (l : Link) : res R :=
  match l with LPipe p => ret (diameter p) | _ => raise AttributeError end.

(** [tank.init_level = v], on the tank object registered under [name]. *)
Definition set_init_level (wn : WaterNetworkModel) (name : string) (v : R)
  : WaterNetworkModel :=
  match dict_find String.eqb (nodes wn) name with
  | Some (NTank t) =>
      mkNetwork
        (dict_set String.eqb (nodes wn) name (NTank (mkTank v (tank_elevation t))))
        (links wn)
  | _ => wn
  end.

(** [wn.query_link_attribute('length', link_type=wntr.network.Pipe)]: the
    lengths of the pipes, in registry order. *)
Fixpoint pipe_lengths (reg : list (string * Link)) : list R :=
  match reg with
  | [] => []
  | (_, LPipe p) :: rest => pipe_length p :: pipe_lengths rest
  | _ :: rest => pipe_lengths rest
  end.

(** What the hydraulic simulation returns: per node, the series of heads and
    of demands over the horizon. *)
Record SimulationResults : Type := mkResults {
  node_head : string -> list R;
  node_demand : string -> list R
}.

(** ** Library functions the notebook calls *)

Class Collaborators : Type := {
  (** scipy's standard normal distribution function *)
  ndtr : R -> R;
  (** Python's [random] module: its state and [random.random()] *)
  py_rng : Type;
  random_random : py_rng -> R * py_rng;
  (** numpy's global generator: its state, [np.random.uniform()] and the
      draw [poisson.rvs(mu=...)] makes once it has accepted the mean *)
  np_rng : Type;
  np_random_uniform : np_rng -> R * np_rng;
  poisson_rvs : R -> np_rng -> Z * np_rng;
  (** [wntr.morph.split_pipe(wn, pipe, new_pipe, new_junction)] *)
  split_pipe :
    WaterNetworkModel -> string -> string -> string -> res WaterNetworkModel;
  (** [node.add_leak(wn, area, start_time, end_time)] on the node named *)
  add_leak :
    WaterNetworkModel -> string -> R -> R -> R -> res WaterNetworkModel;
  (** [wntr.metrics.expected_demand(wn)[node]] *)
  expected_demand : WaterNetworkModel -> string -> list R;
  (** [wntr.sim.WNTRSimulator(wn).run_sim()] *)
  run_sim : WaterNetworkModel -> res SimulationResults
}.

(** What the proofs assume of the generators: a uniform draw lies in
    [0, 1). *)
Class CollaboratorsLaws (E : Collaborators) : Prop := {
  random_random_range : forall s, 0 <= fst (random_random s) < 1;
  np_random_uniform_range : forall s, 0 <= fst (np_random_uniform s) < 1
}.

(** ** Section 3-3 and 3-4: fragility sampling *)

Section Fragility.
Context {E : Collaborators}.

(** [lognorm.cdf(x, s=s, scale=scale)]: zero off the support [x > 0]. *)
Definition lognorm_cdf (x s scale : R) : R :=
  if Rle_dec x 0 then 0 else ndtr (ln (x / scale) / s).

(** [random.uniform(a, b)]. *)
Definition random_uniform (a b : R) (s : py_rng) : R * py_rng :=
  let (x, s') := random_random s in (a + (b - a) * x, s').

Definition tanks_damage_state_params : list (string * (R * R)) :=
  [ ("Minor"%string, (0.18, 0.5)); ("Moderate"%string, (0.55, 0.5));
    ("Extensive"%string, (1.15, 0.6)); ("Complete"%string, (1.50, 0.6)) ].

Definition tank_operational_levels : list (string * R) :=
  [ ("None"%string, 1.0); ("Minor"%string, 0.9); ("Moderate"%string, 0.8);
    ("Extensive"%string, 0.6); ("Complete"%string, 0.0) ].

Definition pump_damage_state_params : list (string * (R * R)) :=
  [ ("Minor"%string, (0.15, 0.75)); ("Moderate"%string, (0.36, 0.65));
    ("Extensive"%string, (0.77, 0.65)); ("Complete"%string, (1.5, 0.8)) ].

Definition pump_operational_levels : list (string * R) :=
  [ ("None"%string, 1.0); ("Minor"%string, 0.9); ("Moderate"%string, 0.8);
    ("Extensive"%string, 0.6); ("Complete"%string, 0.0) ].

(** The first loop of [determine_*_damage_state]: the probability stored
    for each state is its exceedance probability minus the exceedance
    probability of the state before it. *)
Fixpoint state_probabilities (pga : R) (params : list (string * (R * R)))
    (previous_probability : R) (probabilities : list (string * R))
  : list (string * R) :=
  match params with
  | [] => probabilities
  | (state, (median, beta)) :: rest =>
      let exceedance_probability := 1 - lognorm_cdf pga beta median in
      state_probabilities pga rest exceedance_probability
        (dict_set String.eqb probabilities state
           (exceedance_probability - previous_probability))
  end.

(** The second loop: the first state whose cumulative probability reaches
    the random number, [damage_state] when none does. *)
Fixpoint select_state (random_number : R) (items : list (string * R))
    (cumulative_probability : R) (damage_state : string) : string :=
  match items with
  | [] => damage_state
  | (state, probability) :: rest =>
      let cumulative_probability := cumulative_probability + probability in
      if Rle_dec random_number cumulative_probability then state
      else select_state random_number rest cumulative_probability damage_state
  end.

(** The body shared by [determine_tank_damage_state] and
    [determine_pump_damage_state], which differ in the parameter table they
    read and in nothing else. *)
Definition determine_damage_state (params : list (string * (R * R)))
    (pga : R) (s : py_rng) : string * py_rng :=
  let probabilities := state_probabilities pga params 0 [] in
  let (random_number, s') := random_uniform 0 1 s in
  (select_state random_number probabilities 0 "None"%string, s').

Definition determine_tank_damage_state (pga : R) (s : py_rng)
  : string * py_rng :=
  determine_damage_state tanks_damage_state_params pga s.

Definition determine_pump_damage_state (pga : R) (s : py_rng)
  : string * py_rng :=
  determine_damage_state pump_damage_state_params pga s.

(** The entries the first loop stores, one per row of the table, when the
    states of the table are distinct. *)
Fixpoint probability_steps (pga : R) (params : list (string * (R * R)))
    (previous_probability : R) : list (string * R) :=
  match params with
  | [] => []
  | (state, (median, beta)) :: rest =>
      let exceedance_probability := 1 - lognorm_cdf pga beta median in
      (state, exceedance_probability - previous_probability)
        :: probability_steps pga rest exceedance_probability
  end.

(** The first state of the table, in table order, whose exceedance
    probability is at least the random number; "None" when there is none. *)
Fixpoint first_exceeding (pga random_number : R)
    (params : list (string * (R * R))) : string :=
  match params with
  | [] => "None"%string
  | (state, (median, beta)) :: rest =>
      if Rle_dec random_number (1 - lognorm_cdf pga beta median) then state
      else first_exceeding pga random_number rest
  end.

End Fragility.

(** ** Section 3-3 and 3-4: applying the damage to tanks and pumps *)

Section DamageApplication.
Context {E : Collaborators}.

(** [original_tank_levels = {tank_name: wn.get_node(tank_name).init_level
    for tank_name in wn.tank_name_list}]. *)
Definition original_tank_levels_step (wn : WaterNetworkModel)
    (tank_name : string) (levels : list (string * R))
  : res (list (string * R)) :=
  tank <- get_node wn tank_name ;;
  level <- node_init_level tank ;;
  ret (dict_set String.eqb levels tank_name level).

Definition original_tank_levels (wn : WaterNetworkModel)
  : res (list (string * R)) :=
  for_each (original_tank_levels_step wn) (tank_name_list wn) [].

(** The body of the tank loop. The state is the network (whose tank object
    the body writes) and Python's generator. *)
Definition tank_step (tanks_pga : list (string * R)) (tank_name : string)
    (st : WaterNetworkModel * py_rng) : res (WaterNetworkModel * py_rng) :=
  let (wn, s) := st in
  tank <- get_node wn tank_name ;;
  let pga_value := dict_get String.eqb tanks_pga tank_name 0 in
  let (damage_state, s') := determine_tank_damage_state pga_value s in
  let operational_level :=
    dict_get String.eqb tank_operational_levels damage_state 1.0 in
  level <- node_init_level tank ;;
  ret (set_init_level wn tank_name (level * operational_level), s').

Definition damage_tanks (tanks_pga : list (string * R))
    (wn : WaterNetworkModel) (s : py_rng)
  : res (WaterNetworkModel * py_rng) :=
  for_each (tank_step tanks_pga) (tank_name_list wn) (wn, s).

(** The body of the pump loop. The state is the network, the dictionary
    [pump_performance] and Python's generator; the assignment to
    [pump.base_speed] is commented out in the notebook, so the body writes
    [pump_performance] only. *)
Definition pump_step (pumps_pga : list (string * R)) (pump_name : string)
    (st : WaterNetworkModel * list (string * R) * py_rng)
  : res (WaterNetworkModel * list (string * R) * py_rng) :=
  let '(wn, pump_performance, s) := st in
  pump <- get_link wn pump_name ;;
  let pga_value := dict_get String.eqb pumps_pga pump_name 0 in
  let (damage_state, s') := determine_pump_damage_state pga_value s in
  let operational_level :=
    dict_get String.eqb pump_operational_levels damage_state 1.0 in
  ret (wn, dict_set String.eqb pump_performance pump_name operational_level,
       s').

Definition damage_pumps (pumps_pga : list (string * R))
    (wn : WaterNetworkModel) (s : py_rng)
  : res (WaterNetworkModel * list (string * R) * py_rng) :=
  for_each (pump_step pumps_pga) (pump_name_list wn) (wn, [], s).

(** The values the loop variable [damage_state] takes, pump by pump (a
    reading of the pump loop that keeps what the loop forgets). *)
Fixpoint sampled_pump_states (pumps_pga : list (string * R))
    (names : list string) (s : py_rng) : list (string * string) :=
  match names with
  | [] => []
  | pump_name :: rest =>
      let pga_value := dict_get String.eqb pumps_pga pump_name 0 in
      let (damage_state, s') := determine_pump_damage_state pga_value s in
      (pump_name, damage_state) :: sampled_pump_states pumps_pga rest s'
  end.

End DamageApplication.

(** ** Section 3-5: pipelines *)

Section Pipelines.
Context {E : Collaborators}.

Definition leak_start_time : R := 0 * 3600.
Definition leak_end_time : R := 24 * 3600.

(** [link_length]: the pipe lengths, feet converted to metres. *)
Definition link_length (wn : WaterNetworkModel) : list R :=
  map (fun l => l * 0.3048) (pipe_lengths (links wn)).

(** [poisson.rvs(mu=mu)]: scipy checks the mean first and raises
    [ValueError] on a negative one, without drawing. *)
Definition poisson_draw (mu : R) (s : np_rng) : res (Z * np_rng) :=
  if Rlt_dec mu 0 then raise ValueError else ret (poisson_rvs mu s).

(** [num_damages]: one Poisson draw per item of [RR], in the order of
    [RR.items()]. *)
Definition num_damages_step (lengths : list R) (item : Z * R)
    (st : list (Z * Z) * np_rng) : res (list (Z * Z) * np_rng) :=
  let (pipe, repair_rate) := item in
  let (num_damages, s) := st in
  len <- iloc lengths pipe ;;
  drawn <- poisson_draw (repair_rate * len) s ;;
  let (damage, s') := drawn in
  ret (dict_set Z.eqb num_damages pipe damage, s').

Definition num_damages (RR : list (Z * R)) (lengths : list R) (s : np_rng)
  : res (list (Z * Z) * np_rng) :=
  for_each (num_damages_step lengths) RR ([], s).

(** The Poisson draws in the order they are made: one per item of [RR], of
    mean repair rate x the length at the position of the pipe, each from the
    generator state the draw before it left; and the generator state after
    the last of them. The list ends at the first item that raises. *)
Fixpoint poisson_draws (lengths : list R) (RR : list (Z * R)) (s : np_rng)
  : list (Z * Z) * np_rng :=
  match RR with
  | [] => ([], s)
  | (pipe, repair_rate) :: rest =>
      match iloc lengths pipe with
      | inr len =>
          if Rlt_dec (repair_rate * len) 0 then ([], s)
          else
            let (damage, s') := poisson_rvs (repair_rate * len) s in
            let (draws, s'') := poisson_draws lengths rest s' in
            ((pipe, damage) :: draws, s'')
      | inl _ => ([], s)
      end
  end.

(** [(int(0.85 * damage), int(0.15 * damage))]. *)
Definition split_damage (damage : Z) : Z * Z :=
  (py_int (0.85 * IZR damage), py_int (0.15 * IZR damage)).

(** [leaks_breaks]: a comprehension over the items of a dictionary, whose
    keys are distinct. *)
Definition leaks_breaks (num_damages : list (Z * Z)) : list (Z * (Z * Z)) :=
  map (fun kv => (fst kv, split_damage (snd kv))) num_damages.

(** [diameters], keyed by [int(pipe_name)]. *)
Definition diameters_step (wn : WaterNetworkModel) (pipe_name : string)
    (diameters : list (Z * R)) : res (list (Z * R)) :=
  pipe <- int_of_str pipe_name ;;
  link <- get_link wn pipe_name ;;
  d <- link_diameter link ;;
  ret (dict_set Z.eqb diameters pipe d).

Definition diameters (wn : WaterNetworkModel) : res (list (Z * R)) :=
  for_each (diameters_step wn) (pipe_name_list wn) [].

(** [np.pi * (d / 2) ** 2]. *)
Definition cross_section (d : R) : R := PI * (d / 2) ^ 2.

Definition areas (diameters : list (Z * R)) : list (Z * R) :=
  map (fun kv => (fst kv, cross_section (snd kv))) diameters.

(** [min((0.03 * leaks + 0.2 * breaks) * areas[pipe], areas[pipe])]. *)
Definition orifice_area (leaks breaks : Z) (area : R) : R :=
  py_min ((0.03 * IZR leaks + 0.2 * IZR breaks) * area) area.

Definition orifice_areas_step (areas : list (Z * R))
    (item : Z * (Z * Z)) (orifice_areas : list (Z * R))
  : res (list (Z * R)) :=
  let '(pipe, (leaks, breaks)) := item in
  area <- dict_getitem Z.eqb areas pipe ;;
  ret (dict_set Z.eqb orifice_areas pipe (orifice_area leaks breaks area)).

Definition orifice_areas (areas : list (Z * R))
    (leaks_breaks : list (Z * (Z * Z))) : res (list (Z * R)) :=
  for_each (orifice_areas_step areas) leaks_breaks [].

(** [pf = 1 - np.exp(-RR[int(pipe)] * link_length.iloc[int(pipe)])]. *)
Definition failure_probability (RR : list (Z * R)) (lengths : list R)
    (pipe : Z) : res R :=
  repair_rate <- dict_getitem Z.eqb RR pipe ;;
  len <- iloc lengths pipe ;;
  ret (1 - exp (- repair_rate * len)).

(** What the loop does to a pipe that failed: split it and add the leak
    to the new junction. *)
Definition insert_leak (pipe : Z) (orifice_area : R)
    (wn : WaterNetworkModel) : res WaterNetworkModel :=
  let leak_name := ("Leak_" ++ py_str pipe)%string in
  wn' <- split_pipe wn (py_str pipe) (py_str pipe ++ "_A")%string leak_name ;;
  leak_node <- get_node wn' leak_name ;;
  add_leak wn' leak_name orifice_area leak_start_time leak_end_time.

(** The body of the last loop of the cell. *)
Definition leak_step (RR : list (Z * R)) (lengths : list R)
    (item : Z * R) (st : WaterNetworkModel * np_rng)
  : res (WaterNetworkModel * np_rng) :=
  let (pipe, orifice_area) := item in
  let (wn, s) := st in
  pf <- failure_probability RR lengths pipe ;;
  let (u, s') := np_random_uniform s in
  if Rlt_dec u pf then
    wn' <- insert_leak pipe orifice_area wn ;;
    ret (wn', s')
  else ret (wn, s').

(** The whole cell. [link_length], [diameters] and [areas] are computed
    once, from the network as it is before any pipe is split. *)
Definition damage_pipelines (RR : list (Z * R)) (wn : WaterNetworkModel)
    (s : np_rng) : res (WaterNetworkModel * np_rng) :=
  let lengths := link_length wn in
  '(damages, s1) <- num_damages RR lengths s ;;
  ds <- diameters wn ;;
  oas <- orifice_areas (areas ds) (leaks_breaks damages) ;;
  for_each (leak_step RR lengths) oas (wn, s1).

(** The pipes the last loop marks as failed, with their orifice areas, in
    loop order: the uniform draws are the ones the loop makes, one per
    item. *)
Fixpoint failed_items (RR : list (Z * R)) (lengths : list R)
    (items : list (Z * R)) (s : np_rng) : list (Z * R) :=
  match items with
  | [] => []
  | (pipe, orifice_area) :: rest =>
      let (u, s') := np_random_uniform s in
      match failure_probability RR lengths pipe with
      | inr pf =>
          if Rlt_dec u pf
          then (pipe, orifice_area) :: failed_items RR lengths rest s'
          else failed_items RR lengths rest s'
      | inl _ => []
      end
  end.

(** The ungated insertion: split and leak every item of the list. *)
Definition insert_leaks (items : list (Z * R)) (wn : WaterNetworkModel)
  : res WaterNetworkModel :=
  for_each (fun item wn0 => insert_leak (fst item) (snd item) wn0) items wn.

End Pipelines.

(** ** Section 3-6: serviceability *)

(** The quotient of a numpy float by a float. Dividing by zero raises
    nothing: numpy warns and yields [inf] or [nan], read here as
    [NotFinite]. *)
Inductive quotient : Type :=
| Finite (r : R)
| NotFinite.

Definition np_divide (a b : R) : quotient :=
  if Req_dec_T b 0 then NotFinite else Finite (a / b).

Section Serviceability.
Context {E : Collaborators}.

(** The body of the loop over [wn.node_name_list]. *)
Definition node_step (wn : WaterNetworkModel) (results : SimulationResults)
    (original_tank_levels : list (string * R)) (node_name : string)
    (serviceability : list (string * quotient))
  : res (list (string * quotient)) :=
  if name_in node_name (tank_name_list wn) then
    node <- get_node wn node_name ;;
    elevation <- node_elevation node ;;
    let new_tanks_level := mean (node_head results node_name) - elevation in
    original <- dict_getitem String.eqb original_tank_levels node_name ;;
    ret (dict_set String.eqb serviceability node_name
           (np_divide new_tanks_level original))
  else if name_in node_name (junction_name_list wn) then
    let satisfied_demand := mean (node_demand results node_name) in
    let required_demand := mean (expected_demand wn node_name) in
    if Req_dec_T required_demand 0 then ret serviceability
    else
      ret (dict_set String.eqb serviceability node_name
             (np_divide satisfied_demand required_demand))
  else ret serviceability.

(** The body of the loop over [wn.pump_name_list]. *)
Definition pump_serviceability_step (pump_performance : list (string * R))
    (pump_name : string) (serviceability : list (string * quotient))
  : res (list (string * quotient)) :=
  level <- dict_getitem String.eqb pump_performance pump_name ;;
  ret (dict_set String.eqb serviceability pump_name (Finite level)).

Definition serviceability (wn : WaterNetworkModel)
    (results : SimulationResults)
    (original_tank_levels : list (string * R))
    (pump_performance : list (string * R))
  : res (list (string * quotient)) :=
  after_nodes <-
    for_each (node_step wn results original_tank_levels)
      (node_name_list wn) [] ;;
  for_each (pump_serviceability_step pump_performance)
    (pump_name_list wn) after_nodes.

(** The notebook from section 3-3 on, for the intensity maps and the
    repair rates the attenuation models returned. *)
Definition notebook (wn : WaterNetworkModel)
    (tanks_pga pumps_pga : list (string * R)) (RR : list (Z * R))
    (s_py : py_rng) (s_np : np_rng) : res (list (string * quotient)) :=
  levels <- original_tank_levels wn ;;
  '(wn1, s_py1) <- damage_tanks tanks_pga wn s_py ;;
  '(wn2, pump_performance, s_py2) <- damage_pumps pumps_pga wn1 s_py1 ;;
  '(wn3, s_np1) <- damage_pipelines RR wn2 s_np ;;
  results <- run_sim wn3 ;;
  serviceability wn3 results levels pump_performance.

End Serviceability.

(** A network is well formed when no two nodes and no two links share a
    name, as in wntr's registries. *)
Definition well_formed (wn : WaterNetworkModel) : Prop :=
  NoDup (map fst (nodes wn)) /\ NoDup (map fst (links wn)).

(** Every tank of the network has an original level on record. *)
Definition levels_cover_tanks (wn : WaterNetworkModel)
    (levels : list (string * R)) : Prop :=
  forall t, In t (tank_name_list wn) ->
    exists v, dict_find String.eqb levels t = Some v.

(** Every pump of the network has an operational level on record. *)
Definition performance_covers_pumps (wn : WaterNetworkModel)
    (pump_performance : list (string * R)) : Prop :=
  forall p, In p (pump_name_list wn) ->
    exists v, dict_find String.eqb pump_performance p = Some v.

(** The values of the table [pump_operational_levels]. *)
Definition table_level (v : R) : Prop :=
  v = 1.0 \/ v = 0.9 \/ v = 0.8 \/ v = 0.6 \/ v = 0.0.

(** ** A replayed run

    Collaborators that replay recorded draws, for running the model on
    concrete scenarios. *)

Module Replay.

(** A stand-in for the standard normal distribution function: increasing
    from 0 to 1, with value one half at the origin. *)
Definition normal_cdf (x : R) : R := 1 / 2 + x / (2 * (1 + Rabs x)).

(** A recorded uniform draw; an entry outside [0, 1) is replayed as 0. *)
Definition unit_draw (x : R) : R :=
  if Rle_dec 0 x then if Rlt_dec x 1 then x else 0 else 0.

Definition next_uniform (tape : list R) : R * list R :=
  match tape with
  | [] => (0, [])
  | x :: rest => (unit_draw x, rest)
  end.

(** numpy's generator: the recorded uniform draws and the recorded Poisson
    counts. *)
Record np_tape : Type := mkTape {
  uniforms : list R;
  counts : list Z
}.

Definition uniform (t : np_tape) : R * np_tape :=
  let (u, rest) := next_uniform (uniforms t) in (u, mkTape rest (counts t)).

Definition poisson (mu : R) (t : np_tape) : Z * np_tape :=
  match counts t with
  | [] => (0%Z, t)
  | k :: rest => (Z.max 0 k, mkTape (uniforms t) rest)
  end.

(** Splitting a pipe adds the new junction to the nodes and the new pipe,
    with half of the length, to the links. *)
Definition split (wn : WaterNetworkModel)
    (pipe new_pipe new_junction : string) : res WaterNetworkModel :=
  match dict_find String.eqb (links wn) pipe with
  | Some (LPipe p) =>
      match dict_find String.eqb (links wn) new_pipe,
            dict_find String.eqb (nodes wn) new_junction with
      | None, None =>
          let half := mkPipe (pipe_length p * 0.5) (diameter p) in
          ret (mkNetwork
                 (nodes wn ++ [(new_junction, NJunction (mkJunction 0 None))])
                 (dict_set String.eqb (links wn) pipe (LPipe half)
                    ++ [(new_pipe, LPipe half)]))
      | _, _ => raise RuntimeError
      end
  | Some _ => raise RuntimeError
  | None => raise KeyError
  end.

Definition leak (wn : WaterNetworkModel) (name : string)
    (area start_time end_time : R) : res WaterNetworkModel :=
  match dict_find String.eqb (nodes wn) name with
  | Some (NJunction j) =>
      ret (mkNetwork
             (dict_set String.eqb (nodes wn) name
                (NJunction
                   (mkJunction (junction_elevation j)
                      (Some (area, start_time, end_time)))))
             (links wn))
  | Some _ => raise AttributeError
  | None => raise KeyError
  end.

Definition results : SimulationResults :=
  mkResults (fun _ => [1]) (fun _ => [1]).

(** A small network: a junction, a tank with the given initial level, a
    pipe and a pump. *)
Definition network (level : R) : WaterNetworkModel :=
  mkNetwork
    [ ("J1"%string, NJunction (mkJunction 50 None));
      ("T1"%string, NTank (mkTank level 100)) ]
    [ ("0"%string, LPipe (mkPipe 1000 0.3));
      ("P2"%string, LPump (mkPump 1)) ].

(** The same network with a second pipe. *)
Definition twin_network : WaterNetworkModel :=
  mkNetwork
    [ ("J1"%string, NJunction (mkJunction 50 None));
      ("T1"%string, NTank (mkTank 10 100)) ]
    [ ("0"%string, LPipe (mkPipe 1000 0.3));
      ("1"%string, LPipe (mkPipe 2000 0.3));
      ("P2"%string, LPump (mkPump 1)) ].

Definition collaborators : Collaborators := {|
  ndtr := normal_cdf;
  py_rng := list R;
  random_random := next_uniform;
  np_rng := np_tape;
  np_random_uniform := uniform;
  poisson_rvs := poisson;
  split_pipe := split;
  add_leak := leak;
  expected_demand := fun _ _ => [1];
  run_sim := fun _ => ret results
|}.

End Replay.

(** * Properties *)

(** ** Dictionaries and loops *)

Section DictFacts.
Context {K V : Type}.
Variable eqb : K -> K -> bool.
Hypothesis eqb_eq : forall a b, eqb a b = true <-> a = b.

Lemma eqb_refl (k : K) : eqb k k = true.
Proof. apply eqb_eq. reflexivity. Qed.

Lemma eqb_neq (a b : K) : a <> b -> eqb a b = false.
Proof.
  intros Hab. destruct (eqb a b) eqn:Heq; [| reflexivity].
  apply eqb_eq in Heq. contradiction.
Qed.

Lemma dict_find_set_same (d : list (K * V)) (k : K) (v : V) :
  dict_find eqb (dict_set eqb d k v) k = Some v.
Proof.
  induction d as [| [k' v'] rest IH]; simpl.
  - rewrite eqb_refl. reflexivity.
  - destruct (eqb k' k) eqn:Heq; simpl; rewrite Heq; [reflexivity | exact IH].
Qed.

Lemma dict_find_set_other (d : list (K * V)) (k k0 : K) (v : V) :
  k <> k0 -> dict_find eqb (dict_set eqb d k v) k0 = dict_find eqb d k0.
Proof.
  intros Hk. induction d as [| [k' v'] rest IH]; simpl.
  - rewrite eqb_neq by assumption. reflexivity.
  - destruct (eqb k' k) eqn:Heq; simpl.
    + apply eqb_eq in Heq. subst k'. rewrite eqb_neq by assumption. reflexivity.
    + destruct (eqb k' k0); [reflexivity | exact IH].
Qed.

Lemma dict_find_in_keys (d : list (K * V)) (k : K) :
  In k (map fst d) -> exists v, dict_find eqb d k = Some v.
Proof.
  induction d as [| [k' v'] rest IH]; simpl; [contradiction |].
  intros [Hk | Hk].
  - subst k'. rewrite eqb_refl. eauto.
  - destruct (eqb k' k); eauto.
Qed.

Lemma dict_find_nodup (d : list (K * V)) (k : K) (v : V) :
  NoDup (map fst d) -> In (k, v) d -> dict_find eqb d k = Some v.
Proof.
  induction d as [| [k' v'] rest IH]; simpl; [contradiction |].
  intros Hnd [Hin | Hin].
  - injection Hin as -> ->. rewrite eqb_refl. reflexivity.
  - inversion Hnd as [| ? ? Hnotin Hnd']; subst.
    destruct (eqb k' k) eqn:Heq.
    + apply eqb_eq in Heq. subst k'. exfalso. apply Hnotin.
      apply (in_map fst) in Hin. exact Hin.
    + exact (IH Hnd' Hin).
Qed.

End DictFacts.

Lemma bind_inr {A B : Type} (m : res A) (k : A -> res B) (b : B) :
  Py.bind m k = inr b -> exists a, m = inr a /\ k a = inr b.
Proof.
  destruct m as [e | a]; simpl; [discriminate | eauto].
Qed.

Lemma for_each_invariant {A S : Type} (P : S -> Prop) (body : A -> S -> res S)
    (l : list A) :
  (forall a st st', In a l -> P st -> body a st = inr st' -> P st') ->
  forall st r, P st -> for_each body l st = inr r -> P r.
Proof.
  induction l as [| a rest IH]; intros Hbody st r Hst Hrun; simpl in Hrun.
  - injection Hrun as <-. exact Hst.
  - apply bind_inr in Hrun as (st' & Hstep & Hrest).
    apply (IH (fun a0 s0 s1 Hin => Hbody a0 s0 s1 (or_intror Hin)) st' r);
      [| exact Hrest].
    apply (Hbody a st st'); [left; reflexivity | exact Hst | exact Hstep].
Qed.

Lemma for_each_succeeds {A S : Type} (P : S -> Prop) (body : A -> S -> res S)
    (l : list A) :
  (forall a st, In a l -> P st -> exists st', body a st = inr st' /\ P st') ->
  forall st, P st -> exists r, for_each body l st = inr r /\ P r.
Proof.
  induction l as [| a rest IH]; intros Hbody st Hst; simpl.
  - exists st. split; [reflexivity | exact Hst].
  - destruct (Hbody a st (or_introl eq_refl) Hst) as (st' & Hstep & Hst').
    rewrite Hstep. simpl.
    apply IH; [| exact Hst'].
    intros a0 s0 Hin. apply Hbody. right. exact Hin.
Qed.

(** ** Fragility sampling *)

Section FragilityFacts.
Context {E : Collaborators}.

Lemma lognorm_cdf_off_support (x s scale : R) :
  x <= 0 -> lognorm_cdf x s scale = 0.
Proof.
  intros Hx. unfold lognorm_cdf. destruct (Rle_dec x 0); [reflexivity | contradiction].
Qed.

Lemma select_state_first (u : R) (state : string) (p : R)
    (rest : list (string * R)) (c : R) (d : string) :
  u <= c + p -> select_state u ((state, p) :: rest) c d = state.
Proof.
  intros Hu. simpl. destruct (Rle_dec u (c + p)); [reflexivity | contradiction].
Qed.

Lemma random_uniform_unit `{L : !CollaboratorsLaws E} (s : py_rng) :
  0 <= fst (random_uniform 0 1 s) < 1.
Proof.
  unfold random_uniform. pose proof (random_random_range s) as H.
  destruct (random_random s) as [x s']. simpl in *. lra.
Qed.

Lemma state_probabilities_nonpositive (pga : R) params prev acc :
  pga <= 0 ->
  state_probabilities pga params prev acc = state_probabilities 0 params prev acc.
Proof.
  intros Hx. revert prev acc.
  induction params as [| [state [median beta]] rest IH]; intros prev acc.
  - reflexivity.
  - simpl. rewrite (lognorm_cdf_off_support pga), (lognorm_cdf_off_support 0) by lra.
    apply IH.
Qed.

Lemma tank_probabilities_at_zero :
  state_probabilities 0 tanks_damage_state_params 0 [] =
  [("Minor"%string, 1 - 0 - 0); ("Moderate"%string, 1 - 0 - (1 - 0));
   ("Extensive"%string, 1 - 0 - (1 - 0)); ("Complete"%string, 1 - 0 - (1 - 0))].
Proof.
  unfold tanks_damage_state_params. cbn [state_probabilities].
  rewrite !lognorm_cdf_off_support by lra. reflexivity.
Qed.

Lemma pump_probabilities_at_zero :
  state_probabilities 0 pump_damage_state_params 0 [] =
  [("Minor"%string, 1 - 0 - 0); ("Moderate"%string, 1 - 0 - (1 - 0));
   ("Extensive"%string, 1 - 0 - (1 - 0)); ("Complete"%string, 1 - 0 - (1 - 0))].
Proof.
  unfold pump_damage_state_params. cbn [state_probabilities].
  rewrite !lognorm_cdf_off_support by lra. reflexivity.
Qed.

Lemma determine_damage_state_nonpositive (params : list (string * (R * R))) (pga : R) s :
  pga <= 0 -> determine_damage_state params pga s = determine_damage_state params 0 s.
Proof.
  intros Hx. unfold determine_damage_state.
  rewrite state_probabilities_nonpositive by assumption. reflexivity.
Qed.

Lemma nonpositive_samples_minor `{L : !CollaboratorsLaws E}
    (params : list (string * (R * R))) (pga : R) (s : py_rng) :
  pga <= 0 ->
  state_probabilities 0 params 0 [] =
    [("Minor"%string, 1 - 0 - 0); ("Moderate"%string, 1 - 0 - (1 - 0));
     ("Extensive"%string, 1 - 0 - (1 - 0));
     ("Complete"%string, 1 - 0 - (1 - 0))] ->
  fst (determine_damage_state params pga s) = "Minor"%string.
Proof.
  intros Hx Hprob.
  rewrite (determine_damage_state_nonpositive _ pga) by assumption.
  unfold determine_damage_state. rewrite Hprob.
  pose proof (random_uniform_unit s) as Hu.
  destruct (random_uniform 0 1 s) as [u s']. cbn [fst] in *.
  apply select_state_first. lra.
Qed.

(** C1, on the code: at every intensity that is zero or negative both
    samplers return "Minor", whatever the uniform draw, so "None" is never
    returned there. The lognormal distribution function is zero off its
    support, the exceedance probability computed for "Minor" is then one,
    and every draw of [random.uniform(0, 1)] is at most one. *)
Theorem nonpositive_intensity_samples_minor `{L : !CollaboratorsLaws E}
    (pga : R) (s : py_rng) :
  pga <= 0 ->
  fst (determine_tank_damage_state pga s) = "Minor"%string /\
  fst (determine_pump_damage_state pga s) = "Minor"%string.
Proof.
  intros Hx. split.
  - apply nonpositive_samples_minor;
      [exact Hx | apply tank_probabilities_at_zero].
  - apply nonpositive_samples_minor;
      [exact Hx | apply pump_probabilities_at_zero].
Qed.

(** C4, as amended: a negative intensity is not rejected. Each sampler
    returns, with the generator state it leaves, exactly what it returns at
    intensity zero from the same generator state. *)
Theorem negative_intensity_is_read_as_zero (pga : R) (s : py_rng) :
  pga < 0 ->
  determine_tank_damage_state pga s = determine_tank_damage_state 0 s /\
  determine_pump_damage_state pga s = determine_pump_damage_state 0 s.
Proof.
  intros Hx. split; apply determine_damage_state_nonpositive; lra.
Qed.
End FragilityFacts.

Lemma replay_laws : CollaboratorsLaws Replay.collaborators.
Proof.
  assert (Hu : forall x, 0 <= Replay.unit_draw x < 1).
  { intros x. unfold Replay.unit_draw.
    destruct (Rle_dec 0 x); [destruct (Rlt_dec x 1) |]; lra. }
  assert (Hn : forall t, 0 <= fst (Replay.next_uniform t) < 1).
  { intros [| x rest]; simpl; [lra | apply Hu]. }
  split; intros s; simpl.
  - apply Hn.
  - unfold Replay.uniform. specialize (Hn (Replay.uniforms s)).
    destruct (Replay.next_uniform (Replay.uniforms s)); simpl in *. exact Hn.
Qed.

Lemma nonpositive_intensity_samples_minor_witness :
  0 <= 0 /\
  fst (@determine_tank_damage_state Replay.collaborators 0 [0.5]) = "Minor"%string /\
  fst (@determine_pump_damage_state Replay.collaborators 0 [0.5]) = "Minor"%string.
Proof.
  split; [lra |].
  apply (@nonpositive_intensity_samples_minor Replay.collaborators replay_laws 0 [0.5]).
  lra.
Defined.

(** ** Pipeline arithmetic *)

Lemma py_min_is_Rmin (a b : R) : py_min a b = Rmin a b.
Proof.
  unfold py_min, Rmin. destruct (Rlt_dec b a), (Rle_dec a b); lra.
Qed.

Lemma py_min_le_r (a b : R) : py_min a b <= b.
Proof. rewrite py_min_is_Rmin. apply Rmin_r. Qed.

Lemma py_int_floor (x : R) (z : Z) :
  IZR z <= x < IZR z + 1 -> 0 <= x -> py_int x = z.
Proof.
  intros Hz Hx. unfold py_int. destruct (Rle_dec 0 x); [| contradiction].
  symmetry. apply Int_part_spec. lra.
Qed.

Lemma scaled_floor (p count : Z) :
  (0 <= p)%Z -> (0 <= count)%Z ->
  IZR (p * count / 100) <= IZR p / 100 * IZR count < IZR (p * count / 100) + 1.
Proof.
  intros Hp Hc.
  pose proof (Z.mul_div_le (p * count) 100 ltac:(lia)) as Hlo.
  pose proof (Z.mul_succ_div_gt (p * count) 100 ltac:(lia)) as Hhi.
  apply IZR_le in Hlo. apply IZR_lt in Hhi.
  rewrite !mult_IZR in Hlo, Hhi. unfold Z.succ in Hhi.
  rewrite plus_IZR in Hhi. lra.
Qed.

(** C8: for a damage count that is not negative, [leaks] is the floor of
    0.85 times the count and [breaks] the floor of 0.15 times the count
    (truncation, not rounding); their sum is at most the count and neither is
    negative. *)
Theorem split_damage_truncates (count : Z) :
  (0 <= count)%Z ->
  let (leaks, breaks) := split_damage count in
  IZR leaks <= 0.85 * IZR count < IZR leaks + 1 /\
  IZR breaks <= 0.15 * IZR count < IZR breaks + 1 /\
  leaks = (85 * count / 100)%Z /\ breaks = (15 * count / 100)%Z /\
  (leaks + breaks <= count)%Z /\ (0 <= leaks)%Z /\ (0 <= breaks)%Z.
Proof.
  intros Hc. unfold split_damage.
  pose proof (scaled_floor 85 count ltac:(lia) Hc) as H85.
  pose proof (scaled_floor 15 count ltac:(lia) Hc) as H15.
  assert (Hc' : 0 <= IZR count) by (apply IZR_le; exact Hc).
  rewrite (py_int_floor (0.85 * IZR count) (85 * count / 100)) by lra.
  rewrite (py_int_floor (0.15 * IZR count) (15 * count / 100)) by lra.
  repeat split; try lra; try reflexivity.
  - pose proof (Z.mul_div_le (85 * count) 100 ltac:(lia)).
    pose proof (Z.mul_div_le (15 * count) 100 ltac:(lia)). lia.
  - apply Z.div_pos; lia.
  - apply Z.div_pos; lia.
Qed.

Lemma split_damage_truncates_witness :
  (0 <= 3)%Z /\
  let (leaks, breaks) := split_damage 3 in
  IZR leaks <= 0.85 * IZR 3 < IZR leaks + 1 /\
  IZR breaks <= 0.15 * IZR 3 < IZR breaks + 1 /\
  leaks = (85 * 3 / 100)%Z /\ breaks = (15 * 3 / 100)%Z /\
  (leaks + breaks <= 3)%Z /\ (0 <= leaks)%Z /\ (0 <= breaks)%Z.
Proof.
  split; [lia | apply (split_damage_truncates 3); lia].
Defined.

Lemma split_damage_of_three : split_damage 3 = (2%Z, 0%Z).
Proof.
  unfold split_damage. f_equal; apply py_int_floor; lra.
Qed.

(** C7: for leak and break counts that are not negative and a positive
    diameter, the orifice area is the minimum of
    [(0.03 * leaks + 0.2 * breaks) * A] and [A], hence at most [A], the full
    cross-sectional area [pi * (d / 2) ^ 2]. *)
Theorem orifice_area_capped (leaks breaks : Z) (d : R) :
  (0 <= leaks)%Z -> (0 <= breaks)%Z -> 0 < d ->
  orifice_area leaks breaks (cross_section d) =
    Rmin ((0.03 * IZR leaks + 0.2 * IZR breaks) * (PI * (d / 2) ^ 2))
         (PI * (d / 2) ^ 2) /\
  orifice_area leaks breaks (cross_section d) <= PI * (d / 2) ^ 2.
Proof.
  intros _ _ _. unfold orifice_area, cross_section. split.
  - apply py_min_is_Rmin.
  - apply py_min_le_r.
Qed.

Lemma orifice_area_capped_witness :
  (0 <= 40)%Z /\ (0 <= 7)%Z /\ 0 < 0.3 /\
  orifice_area 40 7 (cross_section 0.3) =
    Rmin ((0.03 * IZR 40 + 0.2 * IZR 7) * (PI * (0.3 / 2) ^ 2))
         (PI * (0.3 / 2) ^ 2) /\
  orifice_area 40 7 (cross_section 0.3) <= PI * (0.3 / 2) ^ 2.
Proof.
  split; [lia | split; [lia | split; [lra |]]].
  apply (orifice_area_capped 40 7 0.3); [lia | lia | lra].
Defined.

(** ** Registries *)

Lemma string_eqb_eq (a b : string) : String.eqb a b = true <-> a = b.
Proof. apply String.eqb_eq. Qed.

Lemma names_where_in {A : Type} (p : A -> bool) (reg : list (string * A))
    (name : string) :
  In name (names_where p reg) -> In name (map fst reg).
Proof.
  unfold names_where. intros Hin. apply in_map_iff in Hin as ([k v] & <- & Hin).
  apply filter_In in Hin as [Hin _]. apply in_map_iff. exists (k, v). auto.
Qed.

Lemma names_where_find {A : Type} (p : A -> bool) (reg : list (string * A))
    (name : string) :
  NoDup (map fst reg) -> In name (names_where p reg) ->
  exists a, dict_find String.eqb reg name = Some a /\ p a = true.
Proof.
  unfold names_where. intros Hnd Hin.
  apply in_map_iff in Hin as ([k v] & <- & Hin).
  apply filter_In in Hin as [Hin Hp]. exists v. split; [| exact Hp].
  apply (dict_find_nodup String.eqb string_eqb_eq); assumption.
Qed.

Lemma name_in_true (name : string) (l : list string) :
  name_in name l = true <-> In name l.
Proof.
  unfold name_in. rewrite existsb_exists. split.
  - intros (x & Hin & Heq). apply String.eqb_eq in Heq. subst. exact Hin.
  - intros Hin. exists name. split; [exact Hin | apply String.eqb_refl].
Qed.

Lemma get_link_of_pump (wn : WaterNetworkModel) (name : string) :
  In name (pump_name_list wn) -> exists l, get_link wn name = inr l.
Proof.
  intros Hin. apply names_where_in in Hin.
  destruct (dict_find_in_keys String.eqb string_eqb_eq (links wn) name Hin)
    as [l Hl].
  exists l. unfold get_link, dict_getitem. rewrite Hl. reflexivity.
Qed.

(** ** The pump loop *)

Lemma pump_level_in_table (damage_state : string) :
  table_level (dict_get String.eqb pump_operational_levels damage_state 1.0).
Proof.
  unfold table_level, dict_get, pump_operational_levels. cbn [dict_find].
  repeat match goal with
         | |- context [String.eqb ?a damage_state] =>
             destruct (String.eqb a damage_state)
         end; auto 6.
Qed.

Lemma pump_level_moderate :
  dict_get String.eqb pump_operational_levels "Moderate"%string 1.0 = 0.8.
Proof. reflexivity. Qed.

Section PumpLoop.
Context {E : Collaborators}.
Variable pumps_pga : list (string * R).

Lemma pump_loop_run (wn : WaterNetworkModel) (names : list string) :
  (forall n, In n names -> In n (pump_name_list wn)) ->
  forall pp s,
  exists pp' s',
    for_each (pump_step pumps_pga) names (wn, pp, s) = inr (wn, pp', s') /\
    (forall n, ~ In n names ->
       dict_find String.eqb pp' n = dict_find String.eqb pp n) /\
    (forall n, In n names -> exists v, dict_find String.eqb pp' n = Some v) /\
    (forall n v, dict_find String.eqb pp' n = Some v ->
       dict_find String.eqb pp n = Some v \/ table_level v) /\
    (NoDup names ->
     forall n ds, In (n, ds) (sampled_pump_states pumps_pga names s) ->
       dict_find String.eqb pp' n =
       Some (dict_get String.eqb pump_operational_levels ds 1.0)).
Proof.
  induction names as [| name rest IH]; intros Hsub pp s.
  - exists pp, s. simpl. repeat split; auto; try contradiction.
  - destruct (get_link_of_pump wn name (Hsub name (or_introl eq_refl)))
      as [l Hl].
    simpl for_each. unfold pump_step at 1. rewrite Hl. simpl Py.bind.
    simpl sampled_pump_states.
    destruct (determine_pump_damage_state
                (dict_get String.eqb pumps_pga name 0) s) as [ds0 s0].
    simpl Py.bind.
    set (level := dict_get String.eqb pump_operational_levels ds0 1.0).
    destruct (IH (fun n Hn => Hsub n (or_intror Hn))
                 (dict_set String.eqb pp name level) s0)
      as (pp' & s' & Hrun & Hout & Hin & Hval & Hsam).
    exists pp', s'. split; [exact Hrun |]. repeat split.
    + intros n Hn. rewrite Hout by (intros H; apply Hn; right; exact H).
      apply (dict_find_set_other String.eqb string_eqb_eq).
      intros ->. apply Hn. left. reflexivity.
    + intros n [-> | Hn]; [| apply Hin; exact Hn].
      destruct (in_dec string_dec n rest) as [Hr | Hr]; [apply Hin; exact Hr |].
      rewrite (Hout n Hr).
      rewrite (dict_find_set_same String.eqb string_eqb_eq). eauto.
    + intros n v Hv. destruct (Hval n v Hv) as [Hset | Ht]; [| right; exact Ht].
      destruct (string_dec name n) as [-> | Hne].
      * rewrite (dict_find_set_same String.eqb string_eqb_eq) in Hset.
        injection Hset as <-. right. apply pump_level_in_table.
      * rewrite (dict_find_set_other String.eqb string_eqb_eq) in Hset
          by exact Hne.
        left. exact Hset.
    + intros Hnd n ds [Heq | Hrest].
      * injection Heq as <- <-. inversion Hnd as [| ? ? Hnotin _]; subst.
        rewrite (Hout name Hnotin).
        apply (dict_find_set_same String.eqb string_eqb_eq).
      * inversion Hnd as [| ? ? _ Hnd']; subst. apply Hsam; assumption.
Qed.

Lemma damage_pumps_run (wn : WaterNetworkModel) (s : py_rng) :
  exists pp s',
    damage_pumps pumps_pga wn s = inr (wn, pp, s') /\
    (forall n, In n (pump_name_list wn) ->
       exists v, dict_find String.eqb pp n = Some v) /\
    (forall n v, dict_find String.eqb pp n = Some v -> table_level v) /\
    (NoDup (pump_name_list wn) ->
     forall n ds,
       In (n, ds) (sampled_pump_states pumps_pga (pump_name_list wn) s) ->
       dict_find String.eqb pp n =
       Some (dict_get String.eqb pump_operational_levels ds 1.0)).
Proof.
  destruct (pump_loop_run wn (pump_name_list wn) (fun n H => H) [] s)
    as (pp & s' & Hrun & _ & Hin & Hval & Hsam).
  exists pp, s'. repeat split; auto.
  intros n v Hv. destruct (Hval n v Hv) as [Hnil | Ht]; [discriminate | exact Ht].
Qed.
End PumpLoop.

(** ** The serviceability loops *)

Section ServiceabilityFacts.
Context {E : Collaborators}.
Variable wn : WaterNetworkModel.
Variable results : SimulationResults.
Variable levels : list (string * R).
Variable pump_performance : list (string * R).

Lemma tank_node_found (name : string) :
  well_formed wn -> In name (tank_name_list wn) ->
  exists t, get_node wn name = inr (NTank t).
Proof.
  intros [Hnd _] Hin.
  destruct (names_where_find is_tank (nodes wn) name Hnd Hin) as (n & Hn & Hp).
  destruct n as [j | t |]; try discriminate.
  exists t. unfold get_node, dict_getitem. rewrite Hn. reflexivity.
Qed.

Lemma node_step_of_tank (name : string) (original : R)
    (sv : list (string * quotient)) :
  well_formed wn -> In name (tank_name_list wn) ->
  dict_find String.eqb levels name = Some original ->
  exists t, get_node wn name = inr (NTank t) /\
    node_step wn results levels name sv =
    inr (dict_set String.eqb sv name
           (np_divide (mean (node_head results name) - tank_elevation t)
              original)).
Proof.
  intros Hwf Hin Hlevel.
  destruct (tank_node_found name Hwf Hin) as [t Ht].
  exists t. split; [exact Ht |].
  unfold node_step. apply name_in_true in Hin. rewrite Hin, Ht.
  unfold dict_getitem. rewrite Hlevel. reflexivity.
Qed.

Lemma node_step_succeeds (name : string) (sv : list (string * quotient)) :
  well_formed wn -> levels_cover_tanks wn levels ->
  exists sv', node_step wn results levels name sv = inr sv'.
Proof.
  intros Hwf Hcover.
  destruct (name_in name (tank_name_list wn)) eqn:Htank.
  - apply name_in_true in Htank. destruct (Hcover name Htank) as [v Hv].
    destruct (node_step_of_tank name v sv Hwf Htank Hv) as (t & _ & Hstep).
    eauto.
  - unfold node_step. rewrite Htank.
    destruct (name_in name (junction_name_list wn)); [| eauto].
    destruct (Req_dec_T _ 0); eauto.
Qed.

Lemma node_step_other (name other : string)
    (sv sv' : list (string * quotient)) :
  other <> name -> node_step wn results levels other sv = inr sv' ->
  dict_find String.eqb sv' name = dict_find String.eqb sv name.
Proof.
  intros Hne. unfold node_step.
  destruct (name_in other (tank_name_list wn)).
  - intros H. apply bind_inr in H as (n & _ & H).
    apply bind_inr in H as (e & _ & H).
    apply bind_inr in H as (o & _ & H). injection H as <-.
    apply (dict_find_set_other String.eqb string_eqb_eq). exact Hne.
  - destruct (name_in other (junction_name_list wn)).
    + destruct (Req_dec_T _ 0); intros H; injection H as <-;
        [reflexivity |].
      apply (dict_find_set_other String.eqb string_eqb_eq). exact Hne.
    + intros H. injection H as <-. reflexivity.
Qed.

Lemma node_loop_succeeds (names : list string)
    (sv : list (string * quotient)) :
  well_formed wn -> levels_cover_tanks wn levels ->
  exists sv', for_each (node_step wn results levels) names sv = inr sv'.
Proof.
  intros Hwf Hcover.
  destruct (for_each_succeeds (fun _ => True) (node_step wn results levels)
              names) with (st := sv) as (r & Hr & _); [| exact I | eauto].
  intros a st _ _. destruct (node_step_succeeds a st Hwf Hcover) as [st' H].
  eauto.
Qed.

Lemma node_loop_entry (name : string) (q : quotient) (names : list string) :
  NoDup names -> In name names ->
  (forall sv, node_step wn results levels name sv =
              inr (dict_set String.eqb sv name q)) ->
  forall sv m,
    for_each (node_step wn results levels) names sv = inr m ->
    dict_find String.eqb m name = Some q.
Proof.
  intros Hnd Hin Hstep.
  induction names as [| a rest IH]; [contradiction |].
  intros sv m Hrun. simpl in Hrun.
  apply bind_inr in Hrun as (sv1 & Hfirst & Hrest).
  inversion Hnd as [| ? ? Hnotin Hnd']; subst.
  destruct Hin as [-> | Hin].
  - rewrite Hstep in Hfirst. injection Hfirst as <-.
    apply (for_each_invariant
             (fun d => dict_find String.eqb d name = Some q)
             (node_step wn results levels) rest) with
      (st := dict_set String.eqb sv name q); [| | exact Hrest].
    + intros a st st' Ha Hst Hbody.
      rewrite (node_step_other name a st st'); [exact Hst | | exact Hbody].
      intros ->. contradiction.
    + apply (dict_find_set_same String.eqb string_eqb_eq).
  - apply (IH Hnd' Hin sv1 m Hrest).
Qed.

(** The loop over the pumps. *)
Lemma pump_serviceability_other (name other : string)
    (sv sv' : list (string * quotient)) :
  other <> name ->
  pump_serviceability_step pump_performance other sv = inr sv' ->
  dict_find String.eqb sv' name = dict_find String.eqb sv name.
Proof.
  intros Hne H. unfold pump_serviceability_step in H.
  apply bind_inr in H as (v & _ & H). injection H as <-.
  apply (dict_find_set_other String.eqb string_eqb_eq). exact Hne.
Qed.

Lemma pump_serviceability_loop_succeeds (names : list string)
    (sv : list (string * quotient)) :
  (forall n, In n names ->
     exists v, dict_find String.eqb pump_performance n = Some v) ->
  exists m,
    for_each (pump_serviceability_step pump_performance) names sv = inr m.
Proof.
  intros Hpp.
  destruct (for_each_succeeds (fun _ => True)
              (pump_serviceability_step pump_performance) names)
    with (st := sv) as (r & Hr & _); [| exact I | eauto].
  intros a st Ha _. destruct (Hpp a Ha) as [v Hv].
  unfold pump_serviceability_step, dict_getitem. rewrite Hv. simpl. eauto.
Qed.

Lemma pump_serviceability_loop_entry (name : string) (names : list string) :
  In name names ->
  forall sv m,
    for_each (pump_serviceability_step pump_performance) names sv = inr m ->
    exists v, dict_find String.eqb pump_performance name = Some v /\
              dict_find String.eqb m name = Some (Finite v).
Proof.
  induction names as [| a rest IH]; [contradiction |].
  intros Hin sv m Hrun. simpl in Hrun.
  apply bind_inr in Hrun as (sv1 & Hfirst & Hrest).
  destruct (in_dec string_dec name rest) as [Hr | Hr].
  - apply (IH Hr sv1 m Hrest).
  - destruct Hin as [-> | Hin]; [| contradiction].
    unfold pump_serviceability_step, dict_getitem in Hfirst.
    destruct (dict_find String.eqb pump_performance name) as [v |] eqn:Hv;
      [| discriminate].
    simpl in Hfirst. injection Hfirst as <-.
    exists v. split; [reflexivity |].
    apply (for_each_invariant
             (fun d => dict_find String.eqb d name = Some (Finite v))
             (pump_serviceability_step pump_performance) rest) with
      (st := dict_set String.eqb sv name (Finite v)); [| | exact Hrest].
    + intros a st st' Ha Hst Hbody.
      rewrite (pump_serviceability_other name a st st');
        [exact Hst | | exact Hbody].
      intros ->. contradiction.
    + apply (dict_find_set_same String.eqb string_eqb_eq).
Qed.

Lemma pump_serviceability_loop_frame (name : string) (names : list string) :
  ~ In name names ->
  forall sv m,
    for_each (pump_serviceability_step pump_performance) names sv = inr m ->
    dict_find String.eqb m name = dict_find String.eqb sv name.
Proof.
  intros Hnotin sv m Hrun.
  apply (for_each_invariant
           (fun d => dict_find String.eqb d name = dict_find String.eqb sv name)
           (pump_serviceability_step pump_performance) names) with (st := sv);
    [| reflexivity | exact Hrun].
  intros a st st' Ha Hst Hbody.
  rewrite (pump_serviceability_other name a st st');
    [exact Hst | | exact Hbody].
  intros ->. contradiction.
Qed.

Lemma serviceability_succeeds :
  well_formed wn -> levels_cover_tanks wn levels ->
  performance_covers_pumps wn pump_performance ->
  exists m, serviceability wn results levels pump_performance = inr m.
Proof.
  intros Hwf Hcover Hpp. unfold serviceability.
  destruct (node_loop_succeeds (node_name_list wn) [] Hwf Hcover) as [sv Hsv].
  rewrite Hsv. simpl.
  apply pump_serviceability_loop_succeeds. exact Hpp.
Qed.

Lemma serviceability_pump_entry (name : string)
    (m : list (string * quotient)) :
  In name (pump_name_list wn) ->
  serviceability wn results levels pump_performance = inr m ->
  exists v, dict_find String.eqb pump_performance name = Some v /\
            dict_find String.eqb m name = Some (Finite v).
Proof.
  intros Hin Hrun. unfold serviceability in Hrun.
  apply bind_inr in Hrun as (sv & _ & Hrun).
  apply (pump_serviceability_loop_entry name _ Hin sv m Hrun).
Qed.
End ServiceabilityFacts.

(** ** The tank loop *)

Lemma set_tank_keeps_names (reg : list (string * Node)) (name : string)
    (t t' : Tank) :
  dict_find String.eqb reg name = Some (NTank t) ->
  map fst (dict_set String.eqb reg name (NTank t')) = map fst reg /\
  names_where is_tank (dict_set String.eqb reg name (NTank t')) =
  names_where is_tank reg.
Proof.
  unfold names_where.
  induction reg as [| [k n] rest IH]; simpl; [discriminate |].
  destruct (String.eqb k name) eqn:Heq.
  - intros [= ->]. simpl. split; reflexivity.
  - intros Hfind. destruct (IH Hfind) as [IH1 IH2]. simpl.
    split; [f_equal; exact IH1 |].
    destruct (is_tank n); simpl; [f_equal |]; exact IH2.
Qed.

Lemma set_init_level_keeps (wn : WaterNetworkModel) (name : string) (v : R) :
  map fst (nodes (set_init_level wn name v)) = map fst (nodes wn) /\
  tank_name_list (set_init_level wn name v) = tank_name_list wn /\
  links (set_init_level wn name v) = links wn.
Proof.
  unfold set_init_level, tank_name_list.
  destruct (dict_find String.eqb (nodes wn) name) as [[j | t |] |] eqn:Hfind;
    try (repeat split; reflexivity).
  simpl. destruct (set_tank_keeps_names (nodes wn) name t
                     (mkTank v (tank_elevation t)) Hfind) as [H1 H2].
  repeat split; assumption.
Qed.

Section TankLoop.
Context {E : Collaborators}.
Variable tanks_pga : list (string * R).

Lemma tank_step_runs (wn : WaterNetworkModel) (name : string) (s : py_rng) :
  well_formed wn -> In name (tank_name_list wn) ->
  exists t, get_node wn name = inr (NTank t) /\
    tank_step tanks_pga name (wn, s) =
    inr (set_init_level wn name
           (init_level t *
            dict_get String.eqb tank_operational_levels
              (fst (determine_tank_damage_state
                      (dict_get String.eqb tanks_pga name 0) s)) 1.0),
         snd (determine_tank_damage_state
                (dict_get String.eqb tanks_pga name 0) s)).
Proof.
  intros Hwf Hin. destruct (tank_node_found wn name Hwf Hin) as [t Ht].
  exists t. split; [exact Ht |].
  unfold tank_step. rewrite Ht. simpl Py.bind.
  destruct (determine_tank_damage_state _ s) as [ds s']. reflexivity.
Qed.

Lemma damage_tanks_succeeds (wn : WaterNetworkModel) (s : py_rng) :
  well_formed wn ->
  exists wn' s', damage_tanks tanks_pga wn s = inr (wn', s') /\
    well_formed wn' /\ tank_name_list wn' = tank_name_list wn /\
    links wn' = links wn.
Proof.
  intros Hwf. unfold damage_tanks.
  destruct (for_each_succeeds
              (fun st : WaterNetworkModel * py_rng =>
                 well_formed (fst st) /\
                 tank_name_list (fst st) = tank_name_list wn /\
                 links (fst st) = links wn)
              (tank_step tanks_pga) (tank_name_list wn))
    with (st := (wn, s)) as ([wn' s'] & Hrun & Hwf' & Hnames & Hlinks).
  - intros name [wn0 s0] Hin (Hwf0 & Hnames0 & Hlinks0). simpl in *.
    rewrite <- Hnames0 in Hin.
    destruct (tank_step_runs wn0 name s0 Hwf0 Hin) as (t & _ & Hstep).
    eexists. split; [exact Hstep |]. simpl.
    destruct (set_init_level_keeps wn0 name
                (init_level t *
                 dict_get String.eqb tank_operational_levels
                   (fst (determine_tank_damage_state
                           (dict_get String.eqb tanks_pga name 0) s0)) 1.0))
      as (Hk & Ht & Hl).
    repeat split.
    + unfold well_formed in *. rewrite Hk. apply Hwf0.
    + rewrite Hl. apply Hwf0.
    + rewrite Ht. exact Hnames0.
    + rewrite Hl. exact Hlinks0.
  - simpl. auto.
  - exists wn', s'. simpl in *. auto.
Qed.
End TankLoop.

(** ** The pipeline cell *)

Lemma poisson_draw_accepts {E : Collaborators} (mu : R) (s : np_rng) :
  0 <= mu -> poisson_draw mu s = inr (poisson_rvs mu s).
Proof.
  intros Hmu. unfold poisson_draw. destruct (Rlt_dec mu 0); [lra | reflexivity].
Qed.


Lemma dict_set_keys_in {K V : Type} (eqb : K -> K -> bool)
    (d : list (K * V)) (k x : K) (v : V) :
  (forall a b, eqb a b = true <-> a = b) ->
  In x (map fst (dict_set eqb d k v)) <-> x = k \/ In x (map fst d).
Proof.
  intros Heqb. induction d as [| [k' v'] rest IH]; simpl.
  - intuition.
  - destruct (eqb k' k) eqn:Heq; simpl.
    + apply Heqb in Heq. subst k'. intuition.
    + rewrite IH. intuition.
Qed.

Section PipelineFacts.
Context {E : Collaborators}.
Variable RR : list (Z * R).
Variable lengths : list R.

Lemma num_damages_loop (items : list (Z * R)) :
  forall nd s nd' s',
    for_each (num_damages_step lengths) items (nd, s) = inr (nd', s') ->
    (forall pipe, In pipe (map fst items) ->
       exists len, iloc lengths pipe = inr len) /\
    (forall pipe, In pipe (map fst nd') <->
       In pipe (map fst items) \/ In pipe (map fst nd)).
Proof.
  induction items as [| [pipe rate] rest IH]; intros nd s nd' s' Hrun.
  - simpl in Hrun. injection Hrun as <- <-. simpl. intuition.
  - simpl in Hrun. apply bind_inr in Hrun as ([nd1 s1] & Hstep & Hrest).
    unfold num_damages_step in Hstep.
    apply bind_inr in Hstep as (len & Hlen & Hstep).
    apply bind_inr in Hstep as ([damage s0] & _ & Hstep).
    injection Hstep as <- <-.
    destruct (IH _ _ _ _ Hrest) as [Hpos Hkeys]. split.
    + intros p [<- | Hp]; [eauto | apply Hpos; exact Hp].
    + intros p. rewrite Hkeys.
      rewrite (dict_set_keys_in Z.eqb nd pipe p damage Z.eqb_eq).
      simpl. intuition.
Qed.

Lemma leaks_breaks_keys (nd : list (Z * Z)) :
  map fst (leaks_breaks nd) = map fst nd.
Proof.
  unfold leaks_breaks. rewrite map_map. reflexivity.
Qed.

Lemma orifice_areas_loop (ar : list (Z * R)) (items : list (Z * (Z * Z))) :
  forall oas oas',
    for_each (orifice_areas_step ar) items oas = inr oas' ->
    forall pipe, In pipe (map fst oas') ->
      In pipe (map fst items) \/ In pipe (map fst oas).
Proof.
  induction items as [| [pipe [leaks breaks]] rest IH]; intros oas oas' Hrun.
  - simpl in Hrun. injection Hrun as <-. auto.
  - simpl in Hrun. apply bind_inr in Hrun as (oas1 & Hstep & Hrest).
    unfold orifice_areas_step in Hstep.
    apply bind_inr in Hstep as (area & _ & Hstep). injection Hstep as <-.
    intros p Hp. destruct (IH _ _ Hrest p Hp) as [Hin | Hin].
    + left. right. exact Hin.
    + apply (dict_set_keys_in Z.eqb oas pipe p _ Z.eqb_eq) in Hin.
      simpl. intuition.
Qed.

(** Every orifice area stored is at most the area stored for the pipe. *)
Lemma orifice_areas_within_areas (ar : list (Z * R))
    (items : list (Z * (Z * Z))) (oas : list (Z * R)) :
  orifice_areas ar items = inr oas ->
  forall pipe a, dict_find Z.eqb oas pipe = Some a ->
    exists area, dict_find Z.eqb ar pipe = Some area /\ a <= area.
Proof.
  unfold orifice_areas. intros Hrun.
  apply (for_each_invariant
           (fun d : list (Z * R) =>
              forall pipe a, dict_find Z.eqb d pipe = Some a ->
                exists area, dict_find Z.eqb ar pipe = Some area /\ a <= area)
           (orifice_areas_step ar) items) with (st := []);
    [| intros ? ? [=] | exact Hrun].
  intros [pipe [leaks breaks]] st st' _ Hst Hstep p a Hfind.
  unfold orifice_areas_step, dict_getitem in Hstep.
  destruct (dict_find Z.eqb ar pipe) as [area |] eqn:Harea; [| discriminate].
  simpl in Hstep. injection Hstep as <-.
  destruct (Z.eq_dec pipe p) as [-> | Hne].
  - rewrite (dict_find_set_same Z.eqb Z.eqb_eq) in Hfind.
    injection Hfind as <-. exists area. split; [exact Harea |].
    unfold orifice_area. apply py_min_le_r.
  - rewrite (dict_find_set_other Z.eqb Z.eqb_eq) in Hfind by exact Hne.
    apply Hst. exact Hfind.
Qed.

Lemma failure_probability_defined (pipe : Z) :
  In pipe (map fst RR) -> (exists len, iloc lengths pipe = inr len) ->
  exists pf, failure_probability RR lengths pipe = inr pf.
Proof.
  intros Hin [len Hlen].
  destruct (dict_find_in_keys Z.eqb Z.eqb_eq RR pipe Hin) as [rate Hrate].
  unfold failure_probability, dict_getitem. rewrite Hrate. simpl.
  rewrite Hlen. simpl. eauto.
Qed.

(** The gated loop over all the items is the ungated insertion over the
    items marked failed. *)
Lemma leak_loop_is_insertion_at_failed (items : list (Z * R)) :
  (forall pipe, In pipe (map fst items) ->
     exists pf, failure_probability RR lengths pipe = inr pf) ->
  forall wn s,
    res_fst (for_each (leak_step RR lengths) items (wn, s)) =
    insert_leaks (failed_items RR lengths items s) wn.
Proof.
  unfold insert_leaks.
  induction items as [| [pipe area] rest IH]; intros Hpf wn s.
  - reflexivity.
  - destruct (Hpf pipe (or_introl eq_refl)) as [pf Hp].
    simpl for_each. simpl failed_items. unfold leak_step at 1.
    rewrite Hp. simpl Py.bind.
    destruct (np_random_uniform s) as [u s1].
    destruct (Rlt_dec u pf) as [Hfail | Hok].
    + simpl for_each.
      destruct (insert_leak pipe area wn) as [e | wn1]; simpl; [reflexivity |].
      apply IH. intros p Hin. apply Hpf. right. exact Hin.
    + simpl Py.bind. apply IH. intros p Hin. apply Hpf. right. exact Hin.
Qed.

Lemma leak_step_of_unfailed_pipe (pipe : Z) (area pf : R)
    (wn : WaterNetworkModel) (s : np_rng) :
  failure_probability RR lengths pipe = inr pf ->
  ~ fst (np_random_uniform s) < pf ->
  leak_step RR lengths (pipe, area) (wn, s) =
  inr (wn, snd (np_random_uniform s)).
Proof.
  intros Hp Hu. unfold leak_step. rewrite Hp. simpl Py.bind.
  destruct (np_random_uniform s) as [u s1]. simpl in *.
  destruct (Rlt_dec u pf); [contradiction | reflexivity].
Qed.
End PipelineFacts.

Section DictOrder.
Context {K V : Type}.
Variable eqb : K -> K -> bool.
Hypothesis eqb_eq : forall a b, eqb a b = true <-> a = b.

Lemma dict_set_in (d : list (K * V)) (k p : K) (v a : V) :
  In (p, a) (dict_set eqb d k v) -> (p = k /\ a = v) \/ In (p, a) d.
Proof.
  induction d as [| [k' v'] rest IH]; simpl.
  - intros [[= <- <-] | []]. left. split; reflexivity.
  - destruct (eqb k' k) eqn:Heq; simpl.
    + apply eqb_eq in Heq. subst k'.
      intros [[= <- <-] | Hin]; [left; split; reflexivity | right; right; exact Hin].
    + intros [Hin | Hin]; [right; left; exact Hin |].
      destruct (IH Hin) as [H | H]; [left; exact H | right; right; exact H].
Qed.

Lemma dict_set_nodup (d : list (K * V)) (k : K) (v : V) :
  NoDup (map fst d) -> NoDup (map fst (dict_set eqb d k v)).
Proof.
  induction d as [| [k' v'] rest IH]; simpl; intros Hnd.
  - constructor; [intros [] | constructor].
  - inversion Hnd as [| ? ? Hnotin Hnd']; subst.
    destruct (eqb k' k) eqn:Heq; simpl; [exact Hnd |].
    constructor; [| apply IH; exact Hnd'].
    intros Hin. apply (dict_set_keys_in eqb rest k k' v eqb_eq) in Hin.
    destruct Hin as [-> | Hin]; [| contradiction].
    rewrite (eqb_refl eqb eqb_eq) in Heq. discriminate.
Qed.
End DictOrder.

Section DrawFacts.
Context {E : Collaborators}.
Variable lengths : list R.

(** Folding the draws into a dictionary, as the comprehension does. *)
Lemma num_damages_loop_draws (items : list (Z * R)) :
  forall nd s nd' s',
    for_each (num_damages_step lengths) items (nd, s) = inr (nd', s') ->
    map fst (fst (poisson_draws lengths items s)) = map fst items /\
    snd (poisson_draws lengths items s) = s' /\
    (forall pipe,
       dict_find Z.eqb nd' pipe =
       match dict_find Z.eqb (rev (fst (poisson_draws lengths items s))) pipe
       with
       | Some damage => Some damage
       | None => dict_find Z.eqb nd pipe
       end) /\
    (forall i pipe rate,
       nth_error items i = Some (pipe, rate) ->
       exists len s0,
         iloc lengths pipe = inr len /\ 0 <= rate * len /\
         nth_error (fst (poisson_draws lengths items s)) i =
         Some (pipe, fst (poisson_rvs (rate * len) s0))).
Proof.
  induction items as [| [pipe rate] rest IH]; intros nd s nd' s' Hrun.
  - simpl in Hrun. injection Hrun as <- <-. simpl.
    repeat split; auto. intros [| i] p r H; discriminate.
  - cbn [for_each] in Hrun.
    apply bind_inr in Hrun as ([nd1 s1] & Hstep & Hrest).
    unfold num_damages_step in Hstep.
    apply bind_inr in Hstep as (len & Hlen & Hstep).
    apply bind_inr in Hstep as ([damage s0] & Hdraw & Hstep).
    injection Hstep as <- <-.
    unfold poisson_draw in Hdraw.
    cbn [poisson_draws]. rewrite Hlen.
    destruct (Rlt_dec (rate * len) 0) as [Hneg | Hpos]; [discriminate |].
    injection Hdraw as Hdraw. rewrite Hdraw.
    destruct (IH _ _ _ _ Hrest) as (Hkeys & Hstate & Hfind & Hnth).
    destruct (poisson_draws lengths rest s0) as [draws s2] eqn:Hd.
    cbn [fst snd] in *. split; [simpl; f_equal; exact Hkeys |].
    split; [exact Hstate |]. split.
    + intros p. rewrite Hfind. cbn [rev].
      change ((pipe, damage) :: draws) with ([(pipe, damage)] ++ draws).
      destruct (dict_find Z.eqb (rev draws) p) as [d |] eqn:Hrev.
      * assert (H : dict_find Z.eqb (rev draws ++ [(pipe, damage)]) p = Some d).
        { clear - Hrev. induction (rev draws) as [| [k v] l IHl]; simpl in *;
            [discriminate |].
          destruct (Z.eqb k p); [exact Hrev | apply IHl; exact Hrev]. }
        rewrite H. reflexivity.
      * assert (H : dict_find Z.eqb (rev draws ++ [(pipe, damage)]) p =
                    if Z.eqb pipe p then Some damage else None).
        { clear - Hrev. induction (rev draws) as [| [k v] l IHl]; simpl in *;
            [reflexivity |].
          destruct (Z.eqb k p); [discriminate | apply IHl; exact Hrev]. }
        rewrite H. destruct (Z.eqb pipe p) eqn:Heq.
        -- apply Z.eqb_eq in Heq. subst p.
           apply (dict_find_set_same Z.eqb Z.eqb_eq).
        -- apply (dict_find_set_other Z.eqb Z.eqb_eq).
           intros ->. rewrite Z.eqb_refl in Heq. discriminate.
    + intros [| i] p r Hi.
      * injection Hi as <- <-. exists len, s. split; [exact Hlen |].
        split; [lra |]. simpl. rewrite Hdraw. reflexivity.
      * simpl. apply (Hnth i p r Hi).
Qed.

Lemma num_damages_loop_nodup (items : list (Z * R)) :
  forall nd s nd' s',
    NoDup (map fst nd) ->
    for_each (num_damages_step lengths) items (nd, s) = inr (nd', s') ->
    NoDup (map fst nd').
Proof.
  intros nd s nd' s' Hnd Hrun.
  change nd' with (fst (nd', s')).
  apply (for_each_invariant
           (fun st : list (Z * Z) * np_rng => NoDup (map fst (fst st)))
           (num_damages_step lengths) items) with (st := (nd, s));
    [| exact Hnd | exact Hrun].
  intros [pipe rate] [nd0 s0] st' _ Hst Hstep. unfold num_damages_step in Hstep.
  apply bind_inr in Hstep as (len & _ & Hstep).
  apply bind_inr in Hstep as ([damage s1] & _ & Hstep).
  injection Hstep as <-. cbn [fst] in *.
  apply (dict_set_nodup Z.eqb Z.eqb_eq). exact Hst.
Qed.
End DrawFacts.

Lemma orifice_areas_entries (ar : list (Z * R)) (items : list (Z * (Z * Z)))
    (oas : list (Z * R)) :
  orifice_areas ar items = inr oas ->
  forall pipe a, In (pipe, a) oas ->
    exists leaks breaks area,
      In (pipe, (leaks, breaks)) items /\
      dict_find Z.eqb ar pipe = Some area /\
      a = orifice_area leaks breaks area.
Proof.
  unfold orifice_areas. intros Hrun.
  assert (Hgen : forall l acc r,
             for_each (orifice_areas_step ar) l acc = inr r ->
             forall pipe a, In (pipe, a) r ->
               In (pipe, a) acc \/
               exists leaks breaks area,
                 In (pipe, (leaks, breaks)) l /\
                 dict_find Z.eqb ar pipe = Some area /\
                 a = orifice_area leaks breaks area).
  { induction l as [| [p [lk bk]] rest IH]; intros acc r Hr pipe a Hin.
    - simpl in Hr. injection Hr as <-. left. exact Hin.
    - cbn [for_each] in Hr. apply bind_inr in Hr as (acc1 & Hstep & Hrest).
      unfold orifice_areas_step, dict_getitem in Hstep.
      destruct (dict_find Z.eqb ar p) as [area |] eqn:Harea; [| discriminate].
      simpl in Hstep. injection Hstep as <-.
      destruct (IH _ _ Hrest pipe a Hin) as [Hacc | (l0 & b0 & a0 & Hi & Ha & He)].
      + apply (dict_set_in Z.eqb Z.eqb_eq) in Hacc.
        destruct Hacc as [[-> ->] | Hacc]; [| left; exact Hacc].
        right. exists lk, bk, area. split; [left; reflexivity | auto].
      + right. exists l0, b0, a0. split; [right; exact Hi | auto]. }
  intros pipe a Hin. destruct (Hgen items [] oas Hrun pipe a Hin) as [[] | H].
  exact H.
Qed.

Lemma areas_lookup_some (ds : list (Z * R)) (pipe : Z) (area : R) :
  dict_find Z.eqb (areas ds) pipe = Some area ->
  exists d, dict_find Z.eqb ds pipe = Some d /\ area = cross_section d.
Proof.
  unfold areas. induction ds as [| [k d] rest IH]; simpl; [discriminate |].
  destruct (Z.eqb k pipe); [intros [= <-]; eauto | exact IH].
Qed.

(** C2, as amended: a Poisson damage count is drawn for every item of [RR],
    failed or not, before any failure draw is made: the draws are those of
    [poisson_draws], one per item and in the order of the items, each of mean
    repair rate x length, the count kept for a pipe is the last one drawn for
    it, and the failure draws start from the generator state the last
    Poisson draw left. Every orifice area comes from the count and the
    diameter of its pipe. The network that comes back is the one obtained by
    inserting a leak at exactly the pipes whose uniform draw is below their
    failure probability, and the iteration of a pipe that is not marked
    failed returns the network it was given, whatever its orifice area, hence
    whatever its damage count. *)
Theorem leaks_only_at_failed_pipes {E : Collaborators} (RR : list (Z * R))
    (wn wn' : WaterNetworkModel) (s s' : np_rng) :
  damage_pipelines RR wn s = inr (wn', s') ->
  exists damages s1 ds oas,
    num_damages RR (link_length wn) s = inr (damages, s1) /\
    map fst (fst (poisson_draws (link_length wn) RR s)) = map fst RR /\
    snd (poisson_draws (link_length wn) RR s) = s1 /\
    (forall i pipe rate,
       nth_error RR i = Some (pipe, rate) ->
       exists len s0,
         iloc (link_length wn) pipe = inr len /\ 0 <= rate * len /\
         nth_error (fst (poisson_draws (link_length wn) RR s)) i =
         Some (pipe, fst (poisson_rvs (rate * len) s0))) /\
    (forall pipe, In pipe (map fst RR) ->
       exists damage,
         dict_find Z.eqb damages pipe = Some damage /\
         dict_find Z.eqb (rev (fst (poisson_draws (link_length wn) RR s)))
           pipe = Some damage) /\
    diameters wn = inr ds /\
    orifice_areas (areas ds) (leaks_breaks damages) = inr oas /\
    (forall pipe area, In (pipe, area) oas ->
       exists damage d,
         dict_find Z.eqb damages pipe = Some damage /\
         dict_find Z.eqb ds pipe = Some d /\
         area = orifice_area (fst (split_damage damage))
                  (snd (split_damage damage)) (cross_section d)) /\
    for_each (leak_step RR (link_length wn)) oas (wn, s1) = inr (wn', s') /\
    insert_leaks (failed_items RR (link_length wn) oas s1) wn = inr wn' /\
    (forall pipe area pf wn0 s0,
       failure_probability RR (link_length wn) pipe = inr pf ->
       ~ fst (np_random_uniform s0) < pf ->
       leak_step RR (link_length wn) (pipe, area) (wn0, s0) =
       inr (wn0, snd (np_random_uniform s0))).
Proof.
  intros Hrun. unfold damage_pipelines in Hrun.
  apply bind_inr in Hrun as ([damages s1] & Hnd & Hrun).
  apply bind_inr in Hrun as (ds & Hds & Hrun).
  apply bind_inr in Hrun as (oas & Hoas & Hrun).
  exists damages, s1, ds, oas.
  destruct (num_damages_loop (link_length wn) RR _ _ _ _ Hnd) as [Hpos Hkeys].
  destruct (num_damages_loop_draws (link_length wn) RR _ _ _ _ Hnd)
    as (Hdkeys & Hstate & Hfind & Hnth).
  pose proof (num_damages_loop_nodup (link_length wn) RR [] s damages s1
                (NoDup_nil Z) Hnd) as Hnodup.
  split; [exact Hnd |]. split; [exact Hdkeys |]. split; [exact Hstate |].
  split; [exact Hnth |]. split.
  { intros pipe Hin.
    assert (Hrev : exists damage,
               dict_find Z.eqb
                 (rev (fst (poisson_draws (link_length wn) RR s))) pipe =
               Some damage).
    { apply (dict_find_in_keys Z.eqb Z.eqb_eq).
      rewrite map_rev, Hdkeys. apply in_rev. rewrite rev_involutive. exact Hin. }
    destruct Hrev as [damage Hrev]. exists damage.
    split; [| exact Hrev]. rewrite Hfind, Hrev. reflexivity. }
  split; [exact Hds |]. split; [exact Hoas |]. split.
  { intros pipe area Hin.
    destruct (orifice_areas_entries _ _ _ Hoas pipe area Hin)
      as (leaks & breaks & a & Hitem & Harea & ->).
    unfold leaks_breaks in Hitem. apply in_map_iff in Hitem.
    destruct Hitem as ([p damage] & Heq & Hitem). cbn [fst snd] in Heq.
    assert (Hp : p = pipe) by congruence.
    assert (Hsplit : split_damage damage = (leaks, breaks)) by congruence.
    subst p. clear Heq.
    destruct (areas_lookup_some ds pipe a Harea) as (d & Hd & ->).
    exists damage, d.
    split; [apply (dict_find_nodup Z.eqb Z.eqb_eq); assumption |].
    split; [exact Hd |]. rewrite Hsplit. reflexivity. }
  split; [exact Hrun |]. split.
  - rewrite <- (leak_loop_is_insertion_at_failed RR (link_length wn)).
    + rewrite Hrun. reflexivity.
    + intros pipe Hin.
      destruct (orifice_areas_loop _ _ _ _ Hoas pipe Hin) as [Hlb | []].
      rewrite leaks_breaks_keys in Hlb. apply Hkeys in Hlb as [Hlb | []].
      apply failure_probability_defined; [exact Hlb | apply Hpos; exact Hlb].
  - intros pipe area pf wn0 s0. apply leak_step_of_unfailed_pipe.
Qed.

(** ** The replayed run *)

Lemma replay_network_well_formed (level : R) :
  well_formed (Replay.network level).
Proof.
  split; simpl; repeat constructor; simpl; intuition discriminate.
Qed.

Lemma replay_unit_draw (x : R) : 0 <= x < 1 -> Replay.unit_draw x = x.
Proof.
  intros Hx. unfold Replay.unit_draw.
  destruct (Rle_dec 0 x); [destruct (Rlt_dec x 1) |]; lra.
Qed.

Lemma ln_lower_bound : 0.1875 < ln 2.4.
Proof.
  rewrite <- (ln_exp 0.1875). apply ln_increasing; [apply exp_pos |].
  pose proof (exp_ineq1_le (- 0.1875)) as Hlow.
  pose proof (exp_plus 0.1875 (- 0.1875)) as Hinv.
  replace (0.1875 + - 0.1875) with 0 in Hinv by lra. rewrite exp_0 in Hinv.
  pose proof (exp_pos 0.1875). nra.
Qed.

Lemma replay_normal_cdf_above (x : R) : 0.25 < x -> 0.6 < Replay.normal_cdf x.
Proof.
  intros Hx. unfold Replay.normal_cdf. rewrite Rabs_pos_eq by lra.
  assert (Hy : x / (2 * (1 + x)) * (2 * (1 + x)) = x) by (field; lra).
  set (y := x / (2 * (1 + x))) in *. nra.
Qed.

Lemma replay_normal_cdf_origin : Replay.normal_cdf 0 = 1 / 2.
Proof. unfold Replay.normal_cdf. lra. Qed.

Lemma pump_probabilities {E : Collaborators} (pga : R) :
  state_probabilities pga pump_damage_state_params 0 [] =
  [ ("Minor"%string, 1 - lognorm_cdf pga 0.75 0.15 - 0);
    ("Moderate"%string,
     1 - lognorm_cdf pga 0.65 0.36 - (1 - lognorm_cdf pga 0.75 0.15));
    ("Extensive"%string,
     1 - lognorm_cdf pga 0.65 0.77 - (1 - lognorm_cdf pga 0.65 0.36));
    ("Complete"%string,
     1 - lognorm_cdf pga 0.8 1.5 - (1 - lognorm_cdf pga 0.65 0.77)) ].
Proof. reflexivity. Qed.

(** At intensity 0.36, the median of the pumps' "Moderate" curve, the
    cumulative probability is below 0.4 after "Minor" and is one half after
    "Moderate", so the draw 0.4 selects "Moderate". (With the normal
    distribution function itself the two values are about 0.12 and one half,
    and the draw selects the same state.) *)
Lemma replay_samples_moderate :
  @determine_pump_damage_state Replay.collaborators 0.36 [0.4] =
  ("Moderate"%string, []).
Proof.
  unfold determine_pump_damage_state, determine_damage_state.
  rewrite pump_probabilities.
  unfold random_uniform. cbn [random_random Replay.collaborators Replay.next_uniform].
  rewrite replay_unit_draw by lra.
  assert (Hminor : 0.6 < @lognorm_cdf Replay.collaborators 0.36 0.75 0.15).
  { unfold lognorm_cdf. destruct (Rle_dec 0.36 0); [lra |].
    cbn [ndtr Replay.collaborators]. apply replay_normal_cdf_above.
    replace (0.36 / 0.15) with 2.4 by lra.
    pose proof ln_lower_bound. lra. }
  assert (Hmoderate : @lognorm_cdf Replay.collaborators 0.36 0.65 0.36 = 1 / 2).
  { unfold lognorm_cdf. destruct (Rle_dec 0.36 0); [lra |].
    cbn [ndtr Replay.collaborators].
    replace (0.36 / 0.36) with 1 by lra. rewrite ln_1.
    replace (0 / 0.65) with 0 by lra. apply replay_normal_cdf_origin. }
  rewrite Hmoderate. cbn [select_state].
  destruct (Rle_dec _ _) as [H | _]; [lra |].
  destruct (Rle_dec _ _) as [_ | H]; [reflexivity | lra].
Qed.

Lemma failure_probability_below (rate len : R) :
  0 <= rate * len -> 1 - exp (- rate * len) <= rate * len.
Proof.
  intros _. pose proof (exp_ineq1_le (- rate * len)). lra.
Qed.

Lemma replay_num_damages :
  @num_damages Replay.collaborators [(0%Z, 0.0001)]
    (link_length (Replay.network 10)) (Replay.mkTape [0.9] [3%Z]) =
  inr ([(0%Z, 3%Z)], Replay.mkTape [0.9] []).
Proof.
  unfold num_damages. cbn [for_each]. unfold num_damages_step.
  change (iloc (link_length (Replay.network 10)) 0)
    with (@inr exn R (1000 * 0.3048)).
  cbn [Py.bind]. rewrite poisson_draw_accepts by lra. reflexivity.
Qed.

Lemma replay_failure_probability :
  failure_probability [(0%Z, 0.0001)] (link_length (Replay.network 10)) 0 =
  inr (1 - exp (- (0.0001) * (1000 * 0.3048))).
Proof. reflexivity. Qed.

Lemma replay_pipe_not_failed :
  ~ 0.9 < 1 - exp (- (0.0001) * (1000 * 0.3048)).
Proof.
  pose proof (failure_probability_below 0.0001 (1000 * 0.3048)). lra.
Qed.

Lemma replay_failed_items (area : R) :
  @failed_items Replay.collaborators [(0%Z, 0.0001)]
    (link_length (Replay.network 10)) [(0%Z, area)]
    (Replay.mkTape [0.9] []) = [].
Proof.
  cbn [failed_items]. rewrite replay_failure_probability.
  cbn [np_random_uniform Replay.collaborators]. unfold Replay.uniform.
  cbn [Replay.uniforms Replay.next_uniform]. rewrite replay_unit_draw by lra.
  destruct (Rlt_dec _ _) as [H | _]; [| reflexivity].
  exfalso. exact (replay_pipe_not_failed H).
Qed.

Lemma replay_pipeline_run :
  @damage_pipelines Replay.collaborators [(0%Z, 0.0001)] (Replay.network 10)
    (Replay.mkTape [0.9] [3%Z]) =
  inr (Replay.network 10, Replay.mkTape [] []).
Proof.
  unfold damage_pipelines. rewrite replay_num_damages. cbn [Py.bind].
  assert (Hd : diameters (Replay.network 10) = inr [(0%Z, 0.3)]) by reflexivity.
  rewrite Hd. cbn [Py.bind].
  assert (Ho : orifice_areas (areas [(0%Z, 0.3)]) (leaks_breaks [(0%Z, 3%Z)]) =
               inr [(0%Z, orifice_area (fst (split_damage 3)) (snd (split_damage 3))
                            (cross_section 0.3))]) by reflexivity.
  rewrite Ho. cbn [Py.bind for_each]. unfold leak_step.
  rewrite replay_failure_probability. cbn [Py.bind].
  cbn [np_random_uniform Replay.collaborators]. unfold Replay.uniform.
  cbn [Replay.uniforms Replay.counts Replay.next_uniform].
  rewrite replay_unit_draw by lra.
  destruct (Rlt_dec _ _) as [H | _]; [| reflexivity].
  exfalso. exact (replay_pipe_not_failed H).
Qed.

Lemma names_where_nodup {A : Type} (p : A -> bool) (reg : list (string * A)) :
  NoDup (map fst reg) -> NoDup (names_where p reg).
Proof.
  unfold names_where. induction reg as [| [k v] rest IH]; simpl; intros Hnd.
  - constructor.
  - inversion Hnd as [| ? ? Hnotin Hnd']; subst.
    destruct (p v); simpl; [| apply IH; exact Hnd'].
    constructor; [| apply IH; exact Hnd'].
    intros Hin. apply Hnotin. apply (names_where_in p rest k Hin).
Qed.

Section PumpReport.
Context {E : Collaborators}.

Lemma sampled_pump_states_names (pumps_pga : list (string * R))
    (names : list string) (s : py_rng) (n ds : string) :
  In (n, ds) (sampled_pump_states pumps_pga names s) -> In n names.
Proof.
  revert s. induction names as [| a rest IH]; intros s; simpl; [auto |].
  destruct (determine_pump_damage_state _ s) as [ds0 s0].
  intros [Heq | Hin]; [injection Heq as <- _; auto | right; eauto].
Qed.

(** The level of a sampled state is what the pump loop records and what
    the serviceability map reports, whatever the simulation returned. *)
Lemma sampled_pump_run (wn : WaterNetworkModel)
    (pumps_pga : list (string * R)) (s : py_rng) (pump_name ds : string) :
  well_formed wn ->
  In (pump_name, ds) (sampled_pump_states pumps_pga (pump_name_list wn) s) ->
  exists pp s',
    damage_pumps pumps_pga wn s = inr (wn, pp, s') /\
    dict_find String.eqb pp pump_name =
      Some (dict_get String.eqb pump_operational_levels ds 1.0) /\
    forall wn' results levels,
      well_formed wn' -> pump_name_list wn' = pump_name_list wn ->
      levels_cover_tanks wn' levels ->
      exists m,
        serviceability wn' results levels pp = inr m /\
        dict_find String.eqb m pump_name =
          Some (Finite (dict_get String.eqb pump_operational_levels ds 1.0)).
Proof.
  intros Hwf Hsampled.
  destruct (damage_pumps_run pumps_pga wn s) as (pp & s' & Hrun & Hcov & _ & Hsam).
  exists pp, s'. split; [exact Hrun |].
  assert (Hpp : dict_find String.eqb pp pump_name =
                Some (dict_get String.eqb pump_operational_levels ds 1.0)).
  { apply Hsam; [| exact Hsampled]. apply names_where_nodup. apply Hwf. }
  split; [exact Hpp |].
  intros wn' results levels Hwf' Hnames Hlevels.
  assert (Hcov' : performance_covers_pumps wn' pp).
  { intros p Hp. rewrite Hnames in Hp. apply Hcov. exact Hp. }
  destruct (serviceability_succeeds wn' results levels pp Hwf' Hlevels Hcov')
    as [m Hm].
  exists m. split; [exact Hm |].
  assert (Hin : In pump_name (pump_name_list wn')).
  { rewrite Hnames. eapply sampled_pump_states_names. exact Hsampled. }
  destruct (serviceability_pump_entry wn' results levels pp pump_name m Hin Hm)
    as (v & Hv & Hentry).
  rewrite Hpp in Hv. injection Hv as <-. exact Hentry.
Qed.
End PumpReport.

Lemma table_level_unit (v : R) : table_level v -> 0 <= v <= 1.
Proof. unfold table_level. intros [-> | [-> | [-> | [-> | ->]]]]; lra. Qed.

(** C6: a pump whose sampled damage state is "Moderate" gets the operational
    level 0.8 exactly; the pump loop records it, and the serviceability map
    reports that same value for the pump whatever the simulation returned. *)
Theorem moderate_pump_reports_its_level {E : Collaborators}
    (wn : WaterNetworkModel) (pumps_pga : list (string * R)) (s : py_rng)
    (pump_name : string) :
  well_formed wn ->
  In (pump_name, "Moderate"%string)
     (sampled_pump_states pumps_pga (pump_name_list wn) s) ->
  dict_get String.eqb pump_operational_levels "Moderate"%string 1.0 = 0.8 /\
  exists pp s',
    damage_pumps pumps_pga wn s = inr (wn, pp, s') /\
    dict_find String.eqb pp pump_name = Some 0.8 /\
    forall wn' results levels,
      well_formed wn' -> pump_name_list wn' = pump_name_list wn ->
      levels_cover_tanks wn' levels ->
      exists m,
        serviceability wn' results levels pp = inr m /\
        dict_find String.eqb m pump_name = Some (Finite 0.8).
Proof.
  intros Hwf Hsampled. split; [apply pump_level_moderate |].
  exact (sampled_pump_run wn pumps_pga s pump_name "Moderate"%string
           Hwf Hsampled).
Qed.

Lemma replay_sampled_moderate :
  In ("P2"%string, "Moderate"%string)
     (@sampled_pump_states Replay.collaborators [("P2"%string, 0.36)]
        (pump_name_list (Replay.network 10)) [0.4]).
Proof.
  change (pump_name_list (Replay.network 10)) with ["P2"%string].
  cbn [sampled_pump_states].
  change (dict_get String.eqb [("P2"%string, 0.36)] "P2"%string 0) with 0.36.
  rewrite replay_samples_moderate. left. reflexivity.
Qed.

Lemma moderate_pump_reports_its_level_witness :
  well_formed (Replay.network 10) /\
  In ("P2"%string, "Moderate"%string)
     (@sampled_pump_states Replay.collaborators [("P2"%string, 0.36)]
        (pump_name_list (Replay.network 10)) [0.4]) /\
  dict_get String.eqb pump_operational_levels "Moderate"%string 1.0 = 0.8 /\
  exists pp s',
    @damage_pumps Replay.collaborators [("P2"%string, 0.36)]
      (Replay.network 10) [0.4] = inr (Replay.network 10, pp, s') /\
    dict_find String.eqb pp "P2"%string = Some 0.8 /\
    forall wn' results levels,
      well_formed wn' ->
      pump_name_list wn' = pump_name_list (Replay.network 10) ->
      levels_cover_tanks wn' levels ->
      exists m,
        @serviceability Replay.collaborators wn' results levels pp = inr m /\
        dict_find String.eqb m "P2"%string = Some (Finite 0.8).
Proof.
  split; [apply replay_network_well_formed |].
  split; [apply replay_sampled_moderate |].
  apply (@moderate_pump_reports_its_level Replay.collaborators
           (Replay.network 10) [("P2"%string, 0.36)] [0.4] "P2"%string).
  - apply replay_network_well_formed.
  - apply replay_sampled_moderate.
Defined.

(** C5, as amended: the value the serviceability map holds for a pump is
    one of the five levels of the table, 1.0, 0.9, 0.8, 0.6 or 0.0, and so
    lies between 0 and 1. *)
Theorem pump_serviceability_is_a_table_level {E : Collaborators}
    (wn wn0 wn' : WaterNetworkModel) (pumps_pga : list (string * R))
    (s s' : py_rng) (pp : list (string * R)) (results : SimulationResults)
    (levels : list (string * R)) (m : list (string * quotient))
    (pump_name : string) :
  damage_pumps pumps_pga wn s = inr (wn0, pp, s') ->
  serviceability wn' results levels pp = inr m ->
  In pump_name (pump_name_list wn') ->
  exists v, dict_find String.eqb m pump_name = Some (Finite v) /\
            (v = 1.0 \/ v = 0.9 \/ v = 0.8 \/ v = 0.6 \/ v = 0.0) /\
            0 <= v <= 1.
Proof.
  intros Hpumps Hserv Hin.
  destruct (damage_pumps_run pumps_pga wn s) as (pp0 & s0 & Hrun & _ & Hval & _).
  rewrite Hrun in Hpumps. injection Hpumps as _ <- _.
  destruct (serviceability_pump_entry wn' results levels pp0 pump_name m Hin Hserv)
    as (v & Hv & Hentry).
  exists v. split; [exact Hentry |].
  pose proof (Hval pump_name v Hv) as Ht.
  split; [exact Ht | apply table_level_unit; exact Ht].
Qed.

Lemma replay_damage_pumps :
  @damage_pumps Replay.collaborators [("P2"%string, 0.36)]
    (Replay.network 10) [0.4] =
  inr (Replay.network 10, [("P2"%string, 0.8)], []).
Proof.
  unfold damage_pumps.
  change (pump_name_list (Replay.network 10)) with ["P2"%string].
  cbn [for_each]. unfold pump_step.
  change (get_link (Replay.network 10) "P2"%string)
    with (@inr exn Link (LPump (mkPump 1))).
  cbn [Py.bind].
  change (dict_get String.eqb [("P2"%string, 0.36)] "P2"%string 0) with 0.36.
  rewrite replay_samples_moderate. reflexivity.
Qed.

Lemma replay_mean_one : mean [1] = 1.
Proof. unfold mean. simpl. lra. Qed.

Lemma replay_serviceability (level performance : R) :
  level <> 0 ->
  @serviceability Replay.collaborators (Replay.network 10) Replay.results
    [("T1"%string, level)] [("P2"%string, performance)] =
  inr [ ("J1"%string, Finite (mean [1] / mean [1]));
        ("T1"%string, Finite ((mean [1] - 100) / level));
        ("P2"%string, Finite performance) ].
Proof.
  intros Hlevel. unfold serviceability.
  change (node_name_list (Replay.network 10)) with ["J1"%string; "T1"%string].
  change (pump_name_list (Replay.network 10)) with ["P2"%string].
  cbn [for_each]. unfold node_step.
  change (name_in "J1" (tank_name_list (Replay.network 10))) with false.
  change (name_in "J1" (junction_name_list (Replay.network 10))) with true.
  change (name_in "T1" (tank_name_list (Replay.network 10))) with true.
  cbn [expected_demand Replay.collaborators Replay.results node_demand node_head].
  destruct (Req_dec_T (mean [1]) 0) as [H | _];
    [rewrite replay_mean_one in H; lra |].
  cbn [Py.bind].
  change (get_node (Replay.network 10) "T1"%string)
    with (@inr exn Node (NTank (mkTank 10 100))).
  cbn [Py.bind node_elevation tank_elevation Py.ret].
  unfold np_divide.
  destruct (Req_dec_T (mean [1]) 0) as [H | _];
    [rewrite replay_mean_one in H; lra |].
  change (dict_getitem String.eqb [("T1"%string, level)] "T1"%string)
    with (@inr exn R level).
  cbn [Py.bind].
  destruct (Req_dec_T level 0) as [H | _]; [contradiction |].
  reflexivity.
Qed.

(** C5 as stated fails: in this run the pump P2 is sampled "Moderate" and
    the serviceability map holds 0.8 for it, which is neither 0 nor 1. *)
Lemma pump_serviceability_not_binary :
  @damage_pumps Replay.collaborators [("P2"%string, 0.36)]
    (Replay.network 10) [0.4] =
    inr (Replay.network 10, [("P2"%string, 0.8)], []) /\
  @serviceability Replay.collaborators (Replay.network 10) Replay.results
    [("T1"%string, 10)] [("P2"%string, 0.8)] =
    inr [ ("J1"%string, Finite (mean [1] / mean [1]));
          ("T1"%string, Finite ((mean [1] - 100) / 10));
          ("P2"%string, Finite 0.8) ] /\
  0.8 <> 0 /\ 0.8 <> 1.
Proof.
  split; [apply replay_damage_pumps |].
  split; [apply replay_serviceability; lra |].
  split; lra.
Qed.

Lemma pump_serviceability_is_a_table_level_witness :
  @damage_pumps Replay.collaborators [("P2"%string, 0.36)]
    (Replay.network 10) [0.4] =
    inr (Replay.network 10, [("P2"%string, 0.8)], []) /\
  @serviceability Replay.collaborators (Replay.network 10) Replay.results
    [("T1"%string, 10)] [("P2"%string, 0.8)] =
    inr [ ("J1"%string, Finite (mean [1] / mean [1]));
          ("T1"%string, Finite ((mean [1] - 100) / 10));
          ("P2"%string, Finite 0.8) ] /\
  In "P2"%string (pump_name_list (Replay.network 10)) /\
  exists v,
    dict_find String.eqb
      [ ("J1"%string, Finite (mean [1] / mean [1]));
        ("T1"%string, Finite ((mean [1] - 100) / 10));
        ("P2"%string, Finite 0.8) ] "P2"%string = Some (Finite v) /\
    (v = 1.0 \/ v = 0.9 \/ v = 0.8 \/ v = 0.6 \/ v = 0.0) /\ 0 <= v <= 1.
Proof.
  split; [apply replay_damage_pumps |].
  split; [apply replay_serviceability; lra |].
  split; [left; reflexivity |].
  apply (@pump_serviceability_is_a_table_level Replay.collaborators
           (Replay.network 10) (Replay.network 10) (Replay.network 10)
           [("P2"%string, 0.36)] [0.4] [] [("P2"%string, 0.8)] Replay.results
           [("T1"%string, 10)] _ "P2"%string).
  - apply replay_damage_pumps.
  - apply replay_serviceability. lra.
  - left. reflexivity.
Defined.

Lemma np_divide_by_zero (a : R) : np_divide a 0 = NotFinite.
Proof.
  unfold np_divide. destruct (Req_dec_T 0 0) as [_ | H]; [reflexivity | lra].
Qed.

(** C3, on the code: for a tank whose original level is zero the node loop
    neither raises nor skips. It divides, and the tank is in the
    serviceability map with a value that is not finite. *)
Theorem zero_level_tank_is_divided {E : Collaborators}
    (wn : WaterNetworkModel) (results : SimulationResults)
    (levels pump_performance : list (string * R))
    (sv : list (string * quotient)) (tank_name : string) :
  well_formed wn ->
  levels_cover_tanks wn levels ->
  performance_covers_pumps wn pump_performance ->
  In tank_name (tank_name_list wn) ->
  ~ In tank_name (pump_name_list wn) ->
  dict_find String.eqb levels tank_name = Some 0 ->
  node_step wn results levels tank_name sv =
    inr (dict_set String.eqb sv tank_name NotFinite) /\
  exists m,
    serviceability wn results levels pump_performance = inr m /\
    dict_find String.eqb m tank_name = Some NotFinite.
Proof.
  intros Hwf Hlevels Hpumps Htank Hnotpump Hzero.
  assert (Hstep : forall sv0,
             node_step wn results levels tank_name sv0 =
             inr (dict_set String.eqb sv0 tank_name NotFinite)).
  { intros sv0.
    destruct (node_step_of_tank wn results levels tank_name 0 sv0 Hwf Htank Hzero)
      as (t & _ & Hs).
    rewrite Hs, np_divide_by_zero. reflexivity. }
  split; [apply Hstep |].
  destruct (serviceability_succeeds wn results levels pump_performance
              Hwf Hlevels Hpumps) as [m Hm].
  exists m. split; [exact Hm |].
  unfold serviceability in Hm. apply bind_inr in Hm as (after & Hnodes & Hloop).
  rewrite (pump_serviceability_loop_frame pump_performance tank_name
             (pump_name_list wn) Hnotpump after m Hloop).
  apply (node_loop_entry wn results levels tank_name NotFinite
           (node_name_list wn)) with (sv := []); [| | exact Hstep | exact Hnodes].
  - apply Hwf.
  - apply (names_where_in is_tank). exact Htank.
Qed.

Lemma replay_levels_cover (level v : R) :
  levels_cover_tanks (Replay.network level) [("T1"%string, v)].
Proof.
  intros t [<- | []]. exists v. reflexivity.
Qed.

Lemma replay_performance_covers (level v : R) :
  performance_covers_pumps (Replay.network level) [("P2"%string, v)].
Proof.
  intros p [<- | []]. exists v. reflexivity.
Qed.

Lemma zero_level_tank_is_divided_witness :
  well_formed (Replay.network 0) /\
  levels_cover_tanks (Replay.network 0) [("T1"%string, 0)] /\
  performance_covers_pumps (Replay.network 0) [("P2"%string, 1.0)] /\
  In "T1"%string (tank_name_list (Replay.network 0)) /\
  ~ In "T1"%string (pump_name_list (Replay.network 0)) /\
  dict_find String.eqb [("T1"%string, 0)] "T1"%string = Some 0 /\
  @node_step Replay.collaborators (Replay.network 0) Replay.results
    [("T1"%string, 0)] "T1"%string [] =
    inr (dict_set String.eqb [] "T1"%string NotFinite) /\
  exists m,
    @serviceability Replay.collaborators (Replay.network 0) Replay.results
      [("T1"%string, 0)] [("P2"%string, 1.0)] = inr m /\
    dict_find String.eqb m "T1"%string = Some NotFinite.
Proof.
  assert (Hnot : ~ In "T1"%string (pump_name_list (Replay.network 0))).
  { simpl. intuition discriminate. }
  split; [apply replay_network_well_formed |].
  split; [apply replay_levels_cover |].
  split; [apply replay_performance_covers |].
  split; [left; reflexivity |].
  split; [exact Hnot |].
  split; [reflexivity |].
  apply (@zero_level_tank_is_divided Replay.collaborators (Replay.network 0)
           Replay.results [("T1"%string, 0)] [("P2"%string, 1.0)] []
           "T1"%string).
  - apply replay_network_well_formed.
  - apply replay_levels_cover.
  - apply replay_performance_covers.
  - left. reflexivity.
  - exact Hnot.
  - reflexivity.
Defined.

(** The sibling branch: a junction whose required demand is zero is
    skipped. *)
Lemma zero_demand_junction_is_skipped {E : Collaborators}
    (wn : WaterNetworkModel) (results : SimulationResults)
    (levels : list (string * R)) (sv : list (string * quotient))
    (name : string) :
  ~ In name (tank_name_list wn) -> In name (junction_name_list wn) ->
  mean (expected_demand wn name) = 0 ->
  node_step wn results levels name sv = inr sv.
Proof.
  intros Hnt Hj Hzero. unfold node_step.
  destruct (name_in name (tank_name_list wn)) eqn:Ht.
  - apply name_in_true in Ht. contradiction.
  - apply name_in_true in Hj. rewrite Hj.
    destruct (Req_dec_T _ 0); [reflexivity | contradiction].
Qed.

(** The whole notebook: the pipeline cell runs on the network the tank loop
    left (the pump loop in between changes nothing), and every pump of the
    network handed to the simulator is reported with a level of the table. *)
Lemma notebook_pump_values {E : Collaborators} (wn : WaterNetworkModel)
    (tanks_pga pumps_pga : list (string * R)) (RR : list (Z * R))
    (s_py : py_rng) (s_np : np_rng) (m : list (string * quotient)) :
  notebook wn tanks_pga pumps_pga RR s_py s_np = inr m ->
  exists wn1 wn3 s_py1,
    damage_tanks tanks_pga wn s_py = inr (wn1, s_py1) /\
    res_fst (damage_pipelines RR wn1 s_np) = inr wn3 /\
    forall p, In p (pump_name_list wn3) ->
      exists v, dict_find String.eqb m p = Some (Finite v) /\ table_level v.
Proof.
  intros Hrun. unfold notebook in Hrun.
  apply bind_inr in Hrun as (levels & _ & Hrun).
  apply bind_inr in Hrun as ([wn1 s_py1] & Htanks & Hrun).
  apply bind_inr in Hrun as ([[wn2 pp] s_py2] & Hpumps & Hrun).
  apply bind_inr in Hrun as ([wn3 s_np1] & Hpipes & Hrun).
  apply bind_inr in Hrun as (results & _ & Hserv).
  destruct (damage_pumps_run pumps_pga wn1 s_py1)
    as (pp0 & s0 & Hrun0 & _ & Hval & _).
  rewrite Hrun0 in Hpumps. injection Hpumps as <- <- _.
  exists wn1, wn3, s_py1. split; [exact Htanks |].
  split; [rewrite Hpipes; reflexivity |].
  intros p Hp.
  destruct (serviceability_pump_entry wn3 results levels pp0 p m Hp Hserv)
    as (v & Hv & Hentry).
  exists v. split; [exact Hentry | exact (Hval p v Hv)].
Qed.


Lemma dict_get_missing {V : Type} (d : list (string * V)) (k : string)
    (default : V) :
  dict_find String.eqb d k = None -> dict_get String.eqb d k default = default.
Proof. intros H. unfold dict_get. rewrite H. reflexivity. Qed.


Lemma replay_samples_minor (params : list (string * (R * R))) (pga x : R) :
  pga <= 0 ->
  @state_probabilities Replay.collaborators 0 params 0 [] =
    [("Minor"%string, 1 - 0 - 0); ("Moderate"%string, 1 - 0 - (1 - 0));
     ("Extensive"%string, 1 - 0 - (1 - 0));
     ("Complete"%string, 1 - 0 - (1 - 0))] ->
  @determine_damage_state Replay.collaborators params pga [x] =
  ("Minor"%string, []).
Proof.
  intros Hpga Hprob.
  pose proof (@nonpositive_samples_minor Replay.collaborators replay_laws
                params pga [x] Hpga Hprob) as Hfst.
  unfold determine_damage_state in *.
  unfold random_uniform in *.
  cbn [random_random Replay.collaborators Replay.next_uniform] in *.
  cbn [fst] in Hfst. rewrite Hfst. reflexivity.
Qed.

(** C4 as stated fails: at intensity -1 both samplers return a damage
    state, and the tank loop fed that intensity runs to the end. *)
Lemma negative_intensity_returns_a_state :
  @determine_tank_damage_state Replay.collaborators (-1) [0.5] =
    ("Minor"%string, []) /\
  @determine_pump_damage_state Replay.collaborators (-1) [0.5] =
    ("Minor"%string, []) /\
  @damage_tanks Replay.collaborators [("T1"%string, -1)] (Replay.network 10)
    [0.5] =
    inr (set_init_level (Replay.network 10) "T1"%string (10 * 0.9), []).
Proof.
  assert (Htank : @determine_tank_damage_state Replay.collaborators (-1) [0.5] =
                  ("Minor"%string, [])).
  { apply replay_samples_minor; [lra | apply tank_probabilities_at_zero]. }
  split; [exact Htank |]. split.
  - apply replay_samples_minor; [lra | apply pump_probabilities_at_zero].
  - unfold damage_tanks.
    change (tank_name_list (Replay.network 10)) with ["T1"%string].
    cbn [for_each]. unfold tank_step.
    change (get_node (Replay.network 10) "T1"%string)
      with (@inr exn Node (NTank (mkTank 10 100))).
    cbn [Py.bind].
    change (dict_get String.eqb [("T1"%string, -1)] "T1"%string 0) with (-1).
    rewrite Htank. reflexivity.
Qed.

Lemma negative_intensity_is_read_as_zero_witness :
  -1 < 0 /\
  @determine_tank_damage_state Replay.collaborators (-1) [0.5] =
    @determine_tank_damage_state Replay.collaborators 0 [0.5] /\
  @determine_pump_damage_state Replay.collaborators (-1) [0.5] =
    @determine_pump_damage_state Replay.collaborators 0 [0.5].
Proof.
  split; [lra |].
  apply (@negative_intensity_is_read_as_zero Replay.collaborators (-1) [0.5]).
  lra.
Defined.

(** C2 as stated fails: in this run pipe 0 is not marked failed (its
    uniform draw, 0.9, is not below its failure probability), yet a Poisson
    count, 3, was drawn for it and the generator moved on. The network comes
    back as it was. *)
Lemma poisson_count_drawn_for_unfailed_pipe :
  @num_damages Replay.collaborators [(0%Z, 0.0001)]
    (link_length (Replay.network 10)) (Replay.mkTape [0.9] [3%Z]) =
    inr ([(0%Z, 3%Z)], Replay.mkTape [0.9] []) /\
  (forall area,
     @failed_items Replay.collaborators [(0%Z, 0.0001)]
       (link_length (Replay.network 10)) [(0%Z, area)]
       (Replay.mkTape [0.9] []) = []) /\
  @damage_pipelines Replay.collaborators [(0%Z, 0.0001)] (Replay.network 10)
    (Replay.mkTape [0.9] [3%Z]) =
    inr (Replay.network 10, Replay.mkTape [] []).
Proof.
  split; [apply replay_num_damages |].
  split; [apply replay_failed_items | apply replay_pipeline_run].
Qed.

Lemma replay_first_pipe_failed :
  0.01 < 1 - exp (- (0.0001) * (1000 * 0.3048)).
Proof.
  pose proof (exp_ineq1_le (0.0001 * (1000 * 0.3048))) as Hlow.
  pose proof (exp_plus (0.0001 * (1000 * 0.3048))
                (- (0.0001) * (1000 * 0.3048))) as Hinv.
  replace (0.0001 * (1000 * 0.3048) + - (0.0001) * (1000 * 0.3048))
    with 0 in Hinv by lra.
  rewrite exp_0 in Hinv.
  pose proof (exp_pos (- (0.0001) * (1000 * 0.3048))) as Hp.
  set (a := exp (- (0.0001) * (1000 * 0.3048))) in *.
  set (b := exp (0.0001 * (1000 * 0.3048))) in *. nra.
Qed.

Lemma replay_second_pipe_not_failed :
  ~ 0.9 < 1 - exp (- (0.0001) * (2000 * 0.3048)).
Proof.
  pose proof (exp_ineq1_le (- (0.0001) * (2000 * 0.3048))). lra.
Qed.

Lemma replay_twin_num_damages :
  @num_damages Replay.collaborators [(0%Z, 0.0001); (1%Z, 0.0001)]
    (link_length Replay.twin_network) (Replay.mkTape [0.01; 0.9] [3%Z; 25%Z]) =
  inr ([(0%Z, 3%Z); (1%Z, 25%Z)], Replay.mkTape [0.01; 0.9] []).
Proof.
  unfold num_damages. cbn [for_each]. unfold num_damages_step.
  change (iloc (link_length Replay.twin_network) 0)
    with (@inr exn R (1000 * 0.3048)).
  change (iloc (link_length Replay.twin_network) 1)
    with (@inr exn R (2000 * 0.3048)).
  cbn [Py.bind]. rewrite poisson_draw_accepts by lra.
  cbn [Py.bind Py.ret poisson_rvs Replay.collaborators Replay.poisson
         Replay.counts Replay.uniforms].
  rewrite poisson_draw_accepts by lra. reflexivity.
Qed.

Lemma replay_twin_run :
  @damage_pipelines Replay.collaborators [(0%Z, 0.0001); (1%Z, 0.0001)]
    Replay.twin_network (Replay.mkTape [0.01; 0.9] [3%Z; 25%Z]) =
  inr (mkNetwork
         [ ("J1"%string, NJunction (mkJunction 50 None));
           ("T1"%string, NTank (mkTank 10 100));
           ("Leak_0"%string,
            NJunction
              (mkJunction 0
                 (Some (orifice_area (fst (split_damage 3))
                          (snd (split_damage 3)) (cross_section 0.3),
                        leak_start_time, leak_end_time)))) ]
         [ ("0"%string, LPipe (mkPipe (1000 * 0.5) 0.3));
           ("1"%string, LPipe (mkPipe 2000 0.3));
           ("P2"%string, LPump (mkPump 1));
           ("0_A"%string, LPipe (mkPipe (1000 * 0.5) 0.3)) ],
       Replay.mkTape [] []).
Proof.
  unfold damage_pipelines. rewrite replay_twin_num_damages. cbn [Py.bind].
  assert (Hd : diameters Replay.twin_network = inr [(0%Z, 0.3); (1%Z, 0.3)])
    by reflexivity.
  rewrite Hd. cbn [Py.bind].
  assert (Ho : orifice_areas (areas [(0%Z, 0.3); (1%Z, 0.3)])
                 (leaks_breaks [(0%Z, 3%Z); (1%Z, 25%Z)]) =
               inr [(0%Z, orifice_area (fst (split_damage 3))
                            (snd (split_damage 3)) (cross_section 0.3));
                    (1%Z, orifice_area (fst (split_damage 25))
                            (snd (split_damage 25)) (cross_section 0.3))])
    by reflexivity.
  rewrite Ho. cbn [Py.bind for_each]. unfold leak_step.
  assert (Hp0 : failure_probability [(0%Z, 0.0001); (1%Z, 0.0001)]
                  (link_length Replay.twin_network) 0 =
                inr (1 - exp (- (0.0001) * (1000 * 0.3048)))) by reflexivity.
  assert (Hp1 : failure_probability [(0%Z, 0.0001); (1%Z, 0.0001)]
                  (link_length Replay.twin_network) 1 =
                inr (1 - exp (- (0.0001) * (2000 * 0.3048)))) by reflexivity.
  rewrite Hp0, Hp1. cbn [Py.bind].
  cbn [np_random_uniform Replay.collaborators]. unfold Replay.uniform.
  cbn [Replay.uniforms Replay.counts Replay.next_uniform].
  rewrite !replay_unit_draw by lra.
  match goal with
  | |- context [Rlt_dec 0.01 ?pf] => destruct (Rlt_dec 0.01 pf) as [_ | H]
  end; [| exfalso; exact (H replay_first_pipe_failed)].
  assert (Hi : @insert_leak Replay.collaborators 0
                 (orifice_area (fst (split_damage 3)) (snd (split_damage 3))
                    (cross_section 0.3)) Replay.twin_network =
               inr (mkNetwork
         [ ("J1"%string, NJunction (mkJunction 50 None));
           ("T1"%string, NTank (mkTank 10 100));
           ("Leak_0"%string,
            NJunction
              (mkJunction 0
                 (Some (orifice_area (fst (split_damage 3))
                          (snd (split_damage 3)) (cross_section 0.3),
                        leak_start_time, leak_end_time)))) ]
         [ ("0"%string, LPipe (mkPipe (1000 * 0.5) 0.3));
           ("1"%string, LPipe (mkPipe 2000 0.3));
           ("P2"%string, LPump (mkPump 1));
           ("0_A"%string, LPipe (mkPipe (1000 * 0.5) 0.3)) ]))
    by reflexivity.
  rewrite Hi. cbn [Py.bind Py.ret].
  cbn [Replay.uniforms Replay.counts Replay.next_uniform].
  rewrite replay_unit_draw by lra.
  match goal with
  | |- context [Rlt_dec 0.9 ?pf] => destruct (Rlt_dec 0.9 pf) as [H | _]
  end; [exfalso; exact (replay_second_pipe_not_failed H) | reflexivity].
Qed.

Lemma leaks_only_at_failed_pipes_witness :
  @damage_pipelines Replay.collaborators [(0%Z, 0.0001); (1%Z, 0.0001)]
    Replay.twin_network (Replay.mkTape [0.01; 0.9] [3%Z; 25%Z]) =
    inr ((mkNetwork
         [ ("J1"%string, NJunction (mkJunction 50 None));
           ("T1"%string, NTank (mkTank 10 100));
           ("Leak_0"%string,
            NJunction
              (mkJunction 0
                 (Some (orifice_area (fst (split_damage 3))
                          (snd (split_damage 3)) (cross_section 0.3),
                        leak_start_time, leak_end_time)))) ]
         [ ("0"%string, LPipe (mkPipe (1000 * 0.5) 0.3));
           ("1"%string, LPipe (mkPipe 2000 0.3));
           ("P2"%string, LPump (mkPump 1));
           ("0_A"%string, LPipe (mkPipe (1000 * 0.5) 0.3)) ]),
         Replay.mkTape [] []) /\
  exists damages s1 ds oas,
    @num_damages Replay.collaborators [(0%Z, 0.0001); (1%Z, 0.0001)]
      (link_length Replay.twin_network) (Replay.mkTape [0.01; 0.9] [3%Z; 25%Z]) = inr (damages, s1) /\
    map fst (fst (@poisson_draws Replay.collaborators (link_length Replay.twin_network)
                    [(0%Z, 0.0001); (1%Z, 0.0001)] (Replay.mkTape [0.01; 0.9] [3%Z; 25%Z]))) =
      map fst [(0%Z, 0.0001); (1%Z, 0.0001)] /\
    snd (@poisson_draws Replay.collaborators (link_length Replay.twin_network)
           [(0%Z, 0.0001); (1%Z, 0.0001)] (Replay.mkTape [0.01; 0.9] [3%Z; 25%Z])) = s1 /\
    (forall i pipe rate,
       nth_error [(0%Z, 0.0001); (1%Z, 0.0001)] i = Some (pipe, rate) ->
       exists len s0,
         iloc (link_length Replay.twin_network) pipe = inr len /\ 0 <= rate * len /\
         nth_error
           (fst (@poisson_draws Replay.collaborators (link_length Replay.twin_network)
                   [(0%Z, 0.0001); (1%Z, 0.0001)] (Replay.mkTape [0.01; 0.9] [3%Z; 25%Z]))) i =
         Some (pipe, fst (Replay.poisson (rate * len) s0))) /\
    (forall pipe, In pipe (map fst [(0%Z, 0.0001); (1%Z, 0.0001)]) ->
       exists damage,
         dict_find Z.eqb damages pipe = Some damage /\
         dict_find Z.eqb
           (rev (fst (@poisson_draws Replay.collaborators (link_length Replay.twin_network)
                        [(0%Z, 0.0001); (1%Z, 0.0001)] (Replay.mkTape [0.01; 0.9] [3%Z; 25%Z])))) pipe = Some damage) /\
    diameters Replay.twin_network = inr ds /\
    orifice_areas (areas ds) (leaks_breaks damages) = inr oas /\
    (forall pipe area, In (pipe, area) oas ->
       exists damage d,
         dict_find Z.eqb damages pipe = Some damage /\
         dict_find Z.eqb ds pipe = Some d /\
         area = orifice_area (fst (split_damage damage))
                  (snd (split_damage damage)) (cross_section d)) /\
    for_each
      (@leak_step Replay.collaborators [(0%Z, 0.0001); (1%Z, 0.0001)] (link_length Replay.twin_network))
      oas (Replay.twin_network, s1) =
      inr ((mkNetwork
         [ ("J1"%string, NJunction (mkJunction 50 None));
           ("T1"%string, NTank (mkTank 10 100));
           ("Leak_0"%string,
            NJunction
              (mkJunction 0
                 (Some (orifice_area (fst (split_damage 3))
                          (snd (split_damage 3)) (cross_section 0.3),
                        leak_start_time, leak_end_time)))) ]
         [ ("0"%string, LPipe (mkPipe (1000 * 0.5) 0.3));
           ("1"%string, LPipe (mkPipe 2000 0.3));
           ("P2"%string, LPump (mkPump 1));
           ("0_A"%string, LPipe (mkPipe (1000 * 0.5) 0.3)) ]),
           Replay.mkTape [] []) /\
    @insert_leaks Replay.collaborators
      (@failed_items Replay.collaborators [(0%Z, 0.0001); (1%Z, 0.0001)] (link_length Replay.twin_network) oas s1)
      Replay.twin_network =
      inr (mkNetwork
         [ ("J1"%string, NJunction (mkJunction 50 None));
           ("T1"%string, NTank (mkTank 10 100));
           ("Leak_0"%string,
            NJunction
              (mkJunction 0
                 (Some (orifice_area (fst (split_damage 3))
                          (snd (split_damage 3)) (cross_section 0.3),
                        leak_start_time, leak_end_time)))) ]
         [ ("0"%string, LPipe (mkPipe (1000 * 0.5) 0.3));
           ("1"%string, LPipe (mkPipe 2000 0.3));
           ("P2"%string, LPump (mkPump 1));
           ("0_A"%string, LPipe (mkPipe (1000 * 0.5) 0.3)) ]) /\
    (forall pipe area pf wn0 s0,
       failure_probability [(0%Z, 0.0001); (1%Z, 0.0001)] (link_length Replay.twin_network) pipe = inr pf ->
       ~ fst (Replay.uniform s0) < pf ->
       @leak_step Replay.collaborators [(0%Z, 0.0001); (1%Z, 0.0001)] (link_length Replay.twin_network) (pipe, area) (wn0, s0) =
       inr (wn0, snd (Replay.uniform s0))).
Proof.
  split; [apply replay_twin_run |].
  apply (@leaks_only_at_failed_pipes Replay.collaborators [(0%Z, 0.0001); (1%Z, 0.0001)]
           Replay.twin_network _ (Replay.mkTape [0.01; 0.9] [3%Z; 25%Z]) (Replay.mkTape [] [])).
  apply replay_twin_run.
Defined.

(** * Further properties *)

(** ** The samplers *)

Section DictAppend.
Context {K V : Type}.
Variable eqb : K -> K -> bool.
Hypothesis eqb_eq : forall a b, eqb a b = true <-> a = b.

Lemma dict_set_new (d : list (K * V)) (k : K) (v : V) :
  ~ In k (map fst d) -> dict_set eqb d k v = d ++ [(k, v)].
Proof.
  induction d as [| [k' v'] rest IH]; simpl; intros Hk; [reflexivity |].
  rewrite (eqb_neq eqb eqb_eq) by (intros ->; apply Hk; left; reflexivity).
  f_equal. apply IH. intros H. apply Hk. right. exact H.
Qed.

Lemma dict_find_some_in (d : list (K * V)) (k : K) (v : V) :
  dict_find eqb d k = Some v -> In (k, v) d.
Proof.
  induction d as [| [k' v'] rest IH]; simpl; [discriminate |].
  destruct (eqb k' k) eqn:Heq.
  - intros [= <-]. apply eqb_eq in Heq. subst k'. left. reflexivity.
  - intros H. right. exact (IH H).
Qed.
End DictAppend.

Section SamplerFacts.
Context {E : Collaborators}.

Lemma probability_steps_keys (pga : R) (params : list (string * (R * R)))
    (prev : R) :
  map fst (probability_steps pga params prev) = map fst params.
Proof.
  revert prev. induction params as [| [state [median beta]] rest IH];
    intros prev; simpl; [reflexivity | f_equal; apply IH].
Qed.

Lemma state_probabilities_steps (pga : R) (params : list (string * (R * R))) :
  NoDup (map fst params) ->
  forall prev acc,
    (forall k, In k (map fst params) -> ~ In k (map fst acc)) ->
    state_probabilities pga params prev acc =
    acc ++ probability_steps pga params prev.
Proof.
  induction params as [| [state [median beta]] rest IH];
    intros Hnd prev acc Hfresh; simpl.
  - rewrite app_nil_r. reflexivity.
  - inversion Hnd as [| ? ? Hnotin Hnd']; subst.
    rewrite (dict_set_new String.eqb string_eqb_eq)
      by (apply Hfresh; left; reflexivity).
    rewrite IH; [rewrite <- app_assoc; reflexivity | exact Hnd' |].
    intros k Hk Hin. rewrite map_app in Hin. apply in_app_or in Hin.
    destruct Hin as [Hin | [<- | []]].
    + apply (Hfresh k); [right; exact Hk | exact Hin].
    + contradiction.
Qed.

Lemma select_state_steps (pga u : R) (params : list (string * (R * R)))
    (prev : R) :
  select_state u (probability_steps pga params prev) prev "None"%string =
  first_exceeding pga u params.
Proof.
  revert prev. induction params as [| [state [median beta]] rest IH];
    intros prev; simpl; [reflexivity |].
  destruct (Rle_dec u (prev + (1 - lognorm_cdf pga beta median - prev)))
    as [H1 | H1];
    destruct (Rle_dec u (1 - lognorm_cdf pga beta median)) as [H2 | H2];
    try reflexivity; try (exfalso; lra).
  replace (prev + (1 - lognorm_cdf pga beta median - prev))
    with (1 - lognorm_cdf pga beta median) by lra.
  apply IH.
Qed.

Lemma determine_damage_state_first_exceeding
    (params : list (string * (R * R))) (pga : R) (s : py_rng) :
  NoDup (map fst params) ->
  fst (determine_damage_state params pga s) =
  first_exceeding pga (fst (random_uniform 0 1 s)) params.
Proof.
  intros Hnd. unfold determine_damage_state.
  rewrite (state_probabilities_steps pga params Hnd 0 [])
    by (intros k _ []).
  destruct (random_uniform 0 1 s) as [u s']. cbn [fst app].
  apply select_state_steps.
Qed.

Lemma fragility_tables_distinct :
  NoDup (map fst tanks_damage_state_params) /\
  NoDup (map fst pump_damage_state_params).
Proof.
  split; simpl; repeat constructor; simpl; intuition discriminate.
Qed.

(** What the two loops of a sampler compute together: the cumulative
    probability after a state is that state's exceedance probability, so the
    sampler returns the first state of its table, in table order, whose
    exceedance probability [1 - lognorm.cdf] is at least the draw, and
    "None" when no state has one. *)
Theorem sampler_returns_first_exceeded_state (pga : R) (s : py_rng) :
  fst (determine_tank_damage_state pga s) =
    first_exceeding pga (fst (random_uniform 0 1 s))
      tanks_damage_state_params /\
  fst (determine_pump_damage_state pga s) =
    first_exceeding pga (fst (random_uniform 0 1 s))
      pump_damage_state_params.
Proof.
  split; apply determine_damage_state_first_exceeding;
    apply fragility_tables_distinct.
Qed.

Lemma first_exceeding_label (pga u : R) (params : list (string * (R * R))) :
  first_exceeding pga u params = "None"%string \/
  In (first_exceeding pga u params) (map fst params).
Proof.
  induction params as [| [state [median beta]] rest IH]; simpl; [auto |].
  destruct (Rle_dec u _); [right; left; reflexivity |].
  destruct IH as [IH | IH]; [left; exact IH | right; right; exact IH].
Qed.

(** Whatever the intensity and the draw, the sampled state is a key of the
    table of operational levels: the default of [.get(damage_state, 1.0)] in
    the tank loop and in the pump loop is never used. *)
Theorem sampled_state_is_in_the_level_table (pga : R) (s : py_rng) :
  (exists v,
     dict_find String.eqb tank_operational_levels
       (fst (determine_tank_damage_state pga s)) = Some v /\ table_level v) /\
  (exists v,
     dict_find String.eqb pump_operational_levels
       (fst (determine_pump_damage_state pga s)) = Some v /\ table_level v).
Proof.
  destruct fragility_tables_distinct as [Hdt Hdp].
  pose proof (determine_damage_state_first_exceeding
                tanks_damage_state_params pga s Hdt) as Ht.
  pose proof (determine_damage_state_first_exceeding
                pump_damage_state_params pga s Hdp) as Hp.
  fold (determine_tank_damage_state pga s) in Ht.
  fold (determine_pump_damage_state pga s) in Hp.
  unfold table_level. split.
  - rewrite Ht.
    pose proof (first_exceeding_label pga (fst (random_uniform 0 1 s))
                  tanks_damage_state_params) as Hl.
    set (st := first_exceeding _ _ tanks_damage_state_params) in *.
    clearbody st.
    simpl in Hl. destruct Hl as [-> | [<- | [<- | [<- | [<- | []]]]]];
      (eexists; split; [reflexivity | auto 6]).
  - rewrite Hp.
    pose proof (first_exceeding_label pga (fst (random_uniform 0 1 s))
                  pump_damage_state_params) as Hl.
    set (st := first_exceeding _ _ pump_damage_state_params) in *.
    clearbody st.
    simpl in Hl. destruct Hl as [-> | [<- | [<- | [<- | [<- | []]]]]];
      (eexists; split; [reflexivity | auto 6]).
Qed.
End SamplerFacts.

Lemma tank_level_in_table (damage_state : string) :
  table_level (dict_get String.eqb tank_operational_levels damage_state 1.0).
Proof.
  unfold table_level, dict_get, tank_operational_levels. cbn [dict_find].
  repeat match goal with
         | |- context [String.eqb ?a damage_state] =>
             destruct (String.eqb a damage_state)
         end; auto 6.
Qed.

Lemma set_init_level_lookup (wn : WaterNetworkModel) (name : string) (v : R)
    (t : Tank) :
  dict_find String.eqb (nodes wn) name = Some (NTank t) ->
  dict_find String.eqb (nodes (set_init_level wn name v)) name =
    Some (NTank (mkTank v (tank_elevation t))) /\
  forall other, other <> name ->
    dict_find String.eqb (nodes (set_init_level wn name v)) other =
    dict_find String.eqb (nodes wn) other.
Proof.
  intros Hfind. unfold set_init_level. rewrite Hfind. simpl. split.
  - apply (dict_find_set_same String.eqb string_eqb_eq).
  - intros other Hne.
    apply (dict_find_set_other String.eqb string_eqb_eq). congruence.
Qed.

Section TankLoopEffect.
Context {E : Collaborators}.
Variable tanks_pga : list (string * R).

Lemma tank_loop_effect (names : list string) :
  NoDup names ->
  forall wn s,
    well_formed wn ->
    (forall n, In n names -> In n (tank_name_list wn)) ->
    exists wn' s',
      for_each (tank_step tanks_pga) names (wn, s) = inr (wn', s') /\
      links wn' = links wn /\
      map fst (nodes wn') = map fst (nodes wn) /\
      (forall name, ~ In name names ->
         dict_find String.eqb (nodes wn') name =
         dict_find String.eqb (nodes wn) name) /\
      (forall name t, In name names ->
         dict_find String.eqb (nodes wn) name = Some (NTank t) ->
         exists v, table_level v /\
           dict_find String.eqb (nodes wn') name =
           Some (NTank (mkTank (init_level t * v) (tank_elevation t)))).
Proof.
  induction names as [| name rest IH]; intros Hnd wn s Hwf Hsub.
  - exists wn, s. simpl. repeat split; auto. intros ? ? [].
  - inversion Hnd as [| ? ? Hnotin Hnd']; subst.
    destruct (tank_step_runs tanks_pga wn name s Hwf
                (Hsub name (or_introl eq_refl))) as (t & Ht & Hstep).
    cbn [for_each]. rewrite Hstep. cbn [Py.bind].
    set (v := dict_get String.eqb tank_operational_levels
                (fst (determine_tank_damage_state
                        (dict_get String.eqb tanks_pga name 0) s)) 1.0) in *.
    set (s1 := snd (determine_tank_damage_state
                      (dict_get String.eqb tanks_pga name 0) s)) in *.
    set (wn1 := set_init_level wn name (init_level t * v)) in *.
    assert (Hfind : dict_find String.eqb (nodes wn) name = Some (NTank t)).
    { unfold get_node, dict_getitem in Ht.
      destruct (dict_find String.eqb (nodes wn) name); [| discriminate].
      injection Ht as ->. reflexivity. }
    destruct (set_init_level_keeps wn name (init_level t * v))
      as (Hk & Htl & Hl).
    destruct (set_init_level_lookup wn name (init_level t * v) t Hfind)
      as [Hsame Hother].
    fold wn1 in Hk, Htl, Hl, Hsame, Hother.
    assert (Hwf1 : well_formed wn1).
    { unfold well_formed. rewrite Hk, Hl. exact Hwf. }
    destruct (IH Hnd' wn1 s1 Hwf1) as (wn' & s' & Hrun & Hlinks & Hkeys & Hout & Hin).
    { intros n Hn. rewrite Htl. apply Hsub. right. exact Hn. }
    exists wn', s'. split; [exact Hrun |].
    split; [rewrite Hlinks; exact Hl |].
    split; [rewrite Hkeys; exact Hk |]. split.
    + intros n Hn. rewrite Hout by (intros H; apply Hn; right; exact H).
      apply Hother. intros ->. apply Hn. left. reflexivity.
    + intros n t0 [<- | Hn] Hn0.
      * rewrite Hfind in Hn0. injection Hn0 as <-.
        exists v. split; [apply tank_level_in_table |].
        rewrite (Hout name Hnotin). exact Hsame.
      * apply (Hin n t0 Hn). rewrite Hother; [exact Hn0 |].
        intros ->. contradiction.
Qed.
End TankLoopEffect.

(** On a well-formed network the tank loop runs to the end and changes
    nothing but the initial levels of the tanks: every tank keeps its
    elevation and has its initial level multiplied, once, by a level of the
    table; the other nodes, the node names and the links are as before. *)
Theorem tank_loop_scales_initial_levels {E : Collaborators}
    (tanks_pga : list (string * R)) (wn : WaterNetworkModel) (s : py_rng) :
  well_formed wn ->
  exists wn' s',
    damage_tanks tanks_pga wn s = inr (wn', s') /\
    links wn' = links wn /\
    map fst (nodes wn') = map fst (nodes wn) /\
    (forall name n,
       dict_find String.eqb (nodes wn) name = Some n -> is_tank n = false ->
       dict_find String.eqb (nodes wn') name = Some n) /\
    (forall name t,
       dict_find String.eqb (nodes wn) name = Some (NTank t) ->
       exists v, table_level v /\
         dict_find String.eqb (nodes wn') name =
         Some (NTank (mkTank (init_level t * v) (tank_elevation t)))).
Proof.
  intros Hwf.
  destruct (tank_loop_effect tanks_pga (tank_name_list wn)
              (names_where_nodup is_tank (nodes wn) (proj1 Hwf)) wn s Hwf
              (fun n H => H))
    as (wn' & s' & Hrun & Hlinks & Hkeys & Hout & Hin).
  exists wn', s'. split; [exact Hrun |]. split; [exact Hlinks |].
  split; [exact Hkeys |]. split.
  - intros name n Hfind Hnt. rewrite Hout; [exact Hfind |].
    intros Hin'. destruct Hwf as [Hnd _].
    destruct (names_where_find is_tank (nodes wn) name Hnd Hin')
      as (a & Ha & Hp).
    rewrite Hfind in Ha. injection Ha as <-. congruence.
  - intros name t Hfind. apply Hin; [| exact Hfind].
    unfold tank_name_list, names_where. apply in_map_iff.
    exists (name, NTank t). split; [reflexivity |].
    apply filter_In. split; [| reflexivity].
    apply (dict_find_some_in String.eqb string_eqb_eq). exact Hfind.
Qed.

Lemma find_in_names_where {A : Type} (p : A -> bool)
    (reg : list (string * A)) (name : string) (a : A) :
  dict_find String.eqb reg name = Some a -> p a = true ->
  In name (names_where p reg).
Proof.
  intros Hfind Hp. unfold names_where. apply in_map_iff.
  exists (name, a). split; [reflexivity |].
  apply filter_In. split; [| exact Hp].
  apply (dict_find_some_in String.eqb string_eqb_eq). exact Hfind.
Qed.

Lemma find_not_in_names_where {A : Type} (p : A -> bool)
    (reg : list (string * A)) (name : string) (a : A) :
  NoDup (map fst reg) ->
  dict_find String.eqb reg name = Some a -> p a = false ->
  ~ In name (names_where p reg).
Proof.
  intros Hnd Hfind Hp Hin.
  destruct (names_where_find p reg name Hnd Hin) as (b & Hb & Hpb).
  rewrite Hfind in Hb. injection Hb as <-. congruence.
Qed.

Lemma name_in_false (name : string) (l : list string) :
  ~ In name l -> name_in name l = false.
Proof.
  intros Hn. destruct (name_in name l) eqn:H; [| reflexivity].
  apply name_in_true in H. contradiction.
Qed.

Section OriginalLevels.
Variable wn : WaterNetworkModel.
Hypothesis Hwf : well_formed wn.

Lemma original_levels_loop (names : list string) :
  (forall n, In n names -> In n (tank_name_list wn)) ->
  forall acc,
    exists levels,
      for_each (original_tank_levels_step wn) names acc = inr levels /\
      (forall name, ~ In name names ->
         dict_find String.eqb levels name = dict_find String.eqb acc name) /\
      (forall name t, In name names ->
         dict_find String.eqb (nodes wn) name = Some (NTank t) ->
         dict_find String.eqb levels name = Some (init_level t)).
Proof.
  induction names as [| name rest IH]; intros Hsub acc.
  - exists acc. simpl. repeat split; auto. intros ? ? [].
  - destruct (tank_node_found wn name Hwf (Hsub name (or_introl eq_refl)))
      as [t Ht].
    assert (Hfind : dict_find String.eqb (nodes wn) name = Some (NTank t)).
    { unfold get_node, dict_getitem in Ht.
      destruct (dict_find String.eqb (nodes wn) name); [| discriminate].
      injection Ht as ->. reflexivity. }
    cbn [for_each]. unfold original_tank_levels_step at 1.
    rewrite Ht. cbn [Py.bind node_init_level Py.ret].
    destruct (IH (fun n H => Hsub n (or_intror H))
                 (dict_set String.eqb acc name (init_level t)))
      as (levels & Hrun & Hout & Hin).
    exists levels. split; [exact Hrun |]. split.
    + intros n Hn. rewrite Hout by (intros H; apply Hn; right; exact H).
      apply (dict_find_set_other String.eqb string_eqb_eq).
      intros ->. apply Hn. left. reflexivity.
    + intros n t0 Hn Hn0.
      destruct (in_dec string_dec n rest) as [Hr | Hr];
        [apply (Hin n t0 Hr Hn0) |].
      destruct Hn as [<- | Hn]; [| contradiction].
      rewrite Hfind in Hn0. injection Hn0 as <-.
      rewrite (Hout name Hr).
      apply (dict_find_set_same String.eqb string_eqb_eq).
Qed.
End OriginalLevels.

(** On a well-formed network [original_tank_levels] is built without an
    exception; looking a name up in it gives the initial level of the tank of
    that name, and nothing for any other name. *)
Theorem original_tank_levels_records_every_tank (wn : WaterNetworkModel) :
  well_formed wn ->
  exists levels,
    original_tank_levels wn = inr levels /\
    levels_cover_tanks wn levels /\
    forall name,
      dict_find String.eqb levels name =
      match dict_find String.eqb (nodes wn) name with
      | Some (NTank t) => Some (init_level t)
      | _ => None
      end.
Proof.
  intros Hwf.
  destruct (original_levels_loop wn Hwf (tank_name_list wn) (fun n H => H) [])
    as (levels & Hrun & Hout & Hin).
  exists levels. split; [exact Hrun |].
  assert (Hall : forall name,
             dict_find String.eqb levels name =
             match dict_find String.eqb (nodes wn) name with
             | Some (NTank t) => Some (init_level t)
             | _ => None
             end).
  { intros name.
    destruct (dict_find String.eqb (nodes wn) name) as [[j | t |] |] eqn:Hfind.
    - rewrite Hout; [reflexivity |].
      apply (find_not_in_names_where is_tank (nodes wn) name _ (proj1 Hwf) Hfind).
      reflexivity.
    - apply Hin; [| exact Hfind].
      apply (find_in_names_where is_tank (nodes wn) name _ Hfind). reflexivity.
    - rewrite Hout; [reflexivity |].
      apply (find_not_in_names_where is_tank (nodes wn) name _ (proj1 Hwf) Hfind).
      reflexivity.
    - rewrite Hout; [reflexivity |].
      intros Hn. apply names_where_in in Hn.
      destruct (dict_find_in_keys String.eqb string_eqb_eq (nodes wn) name Hn)
        as [v Hv].
      congruence. }
  split; [| exact Hall].
  intros t Ht. destruct (tank_node_found wn t Hwf Ht) as [tk Htk].
  unfold get_node, dict_getitem in Htk. rewrite Hall.
  destruct (dict_find String.eqb (nodes wn) t) as [[j | t0 |] |];
    try discriminate. eauto.
Qed.

Section ServiceabilityMap.
Context {E : Collaborators}.
Variable wn : WaterNetworkModel.
Variable results : SimulationResults.
Variable levels : list (string * R).
Variable pump_performance : list (string * R).

Lemma node_loop_skip (name : string) (names : list string) :
  (In name names ->
   forall sv, node_step wn results levels name sv = inr sv) ->
  forall sv m,
    for_each (node_step wn results levels) names sv = inr m ->
    dict_find String.eqb m name = dict_find String.eqb sv name.
Proof.
  intros Hskip sv m Hrun.
  apply (for_each_invariant
           (fun d => dict_find String.eqb d name = dict_find String.eqb sv name)
           (node_step wn results levels) names) with (st := sv);
    [| reflexivity | exact Hrun].
  intros a st st' Ha Hst Hbody.
  destruct (string_dec a name) as [-> | Hne].
  - rewrite (Hskip Ha) in Hbody. injection Hbody as <-. exact Hst.
  - rewrite (node_step_other wn results levels name a st st' Hne Hbody).
    exact Hst.
Qed.

Lemma serviceability_node_entry (name : string) (q : option quotient) :
  well_formed wn -> levels_cover_tanks wn levels ->
  performance_covers_pumps wn pump_performance ->
  ~ In name (pump_name_list wn) ->
  (forall m0, for_each (node_step wn results levels) (node_name_list wn) [] =
              inr m0 -> dict_find String.eqb m0 name = q) ->
  exists m,
    serviceability wn results levels pump_performance = inr m /\
    dict_find String.eqb m name = q.
Proof.
  intros Hwf Hlev Hpp Hnp Hnode.
  destruct (serviceability_succeeds wn results levels pump_performance
              Hwf Hlev Hpp) as [m Hm].
  exists m. split; [exact Hm |].
  unfold serviceability in Hm. apply bind_inr in Hm as (after & Hnodes & Hloop).
  rewrite (pump_serviceability_loop_frame pump_performance name
             (pump_name_list wn) Hnp after m Hloop).
  apply Hnode. exact Hnodes.
Qed.
End ServiceabilityMap.

Lemma np_divide_finite (a b : R) : b <> 0 -> np_divide a b = Finite (a / b).
Proof.
  intros Hb. unfold np_divide. destruct (Req_dec_T b 0); [contradiction |].
  reflexivity.
Qed.

(** For a tank whose recorded original level is not zero, the
    serviceability map holds (mean simulated head - elevation) / original
    level. *)
Theorem tank_serviceability_is_level_ratio {E : Collaborators}
    (wn : WaterNetworkModel) (results : SimulationResults)
    (levels pump_performance : list (string * R)) (name : string)
    (t : Tank) (original : R) :
  well_formed wn ->
  levels_cover_tanks wn levels ->
  performance_covers_pumps wn pump_performance ->
  dict_find String.eqb (nodes wn) name = Some (NTank t) ->
  ~ In name (pump_name_list wn) ->
  dict_find String.eqb levels name = Some original ->
  original <> 0 ->
  exists m,
    serviceability wn results levels pump_performance = inr m /\
    dict_find String.eqb m name =
    Some (Finite ((mean (node_head results name) - tank_elevation t)
                  / original)).
Proof.
  intros Hwf Hlev Hpp Hfind Hnp Horig Hnz.
  apply serviceability_node_entry; try assumption.
  intros m0 Hnodes.
  assert (Htank : In name (tank_name_list wn)).
  { apply (find_in_names_where is_tank (nodes wn) name _ Hfind). reflexivity. }
  apply (node_loop_entry wn results levels name _ (node_name_list wn))
    with (sv := []); [apply Hwf | | | exact Hnodes].
  - apply (names_where_in is_tank). exact Htank.
  - intros sv.
    destruct (node_step_of_tank wn results levels name original sv
                Hwf Htank Horig) as (t0 & Ht0 & Hstep).
    unfold get_node, dict_getitem in Ht0. rewrite Hfind in Ht0.
    injection Ht0 as <-. rewrite Hstep, np_divide_finite by exact Hnz.
    reflexivity.
Qed.

(** For a junction, the serviceability map holds mean satisfied demand /
    mean required demand when the required demand is not zero, and has no
    entry for the junction when it is zero. *)
Theorem junction_serviceability_is_demand_ratio {E : Collaborators}
    (wn : WaterNetworkModel) (results : SimulationResults)
    (levels pump_performance : list (string * R)) (name : string)
    (j : Junction) :
  well_formed wn ->
  levels_cover_tanks wn levels ->
  performance_covers_pumps wn pump_performance ->
  dict_find String.eqb (nodes wn) name = Some (NJunction j) ->
  ~ In name (pump_name_list wn) ->
  exists m,
    serviceability wn results levels pump_performance = inr m /\
    (mean (expected_demand wn name) = 0 ->
     dict_find String.eqb m name = None) /\
    (mean (expected_demand wn name) <> 0 ->
     dict_find String.eqb m name =
     Some (Finite (mean (node_demand results name)
                   / mean (expected_demand wn name)))).
Proof.
  intros Hwf Hlev Hpp Hfind Hnp.
  assert (Hnt : name_in name (tank_name_list wn) = false).
  { apply name_in_false.
    apply (find_not_in_names_where is_tank (nodes wn) name _ (proj1 Hwf) Hfind).
    reflexivity. }
  assert (Hj : name_in name (junction_name_list wn) = true).
  { apply name_in_true.
    apply (find_in_names_where is_junction (nodes wn) name _ Hfind).
    reflexivity. }
  destruct (Req_dec_T (mean (expected_demand wn name)) 0) as [Hz | Hnz].
  - destruct (serviceability_node_entry wn results levels pump_performance
                name None Hwf Hlev Hpp Hnp) as (m & Hm & Hentry).
    + intros m0 Hnodes.
      rewrite (node_loop_skip wn results levels name (node_name_list wn))
        with (sv := []) (m := m0); [reflexivity | | exact Hnodes].
      intros _ sv. unfold node_step. rewrite Hnt, Hj.
      destruct (Req_dec_T _ 0); [reflexivity | contradiction].
    + exists m. split; [exact Hm |]. split; [intros _; exact Hentry |].
      intros H. contradiction.
  - destruct (serviceability_node_entry wn results levels pump_performance
                name
                (Some (Finite (mean (node_demand results name)
                               / mean (expected_demand wn name))))
                Hwf Hlev Hpp Hnp) as (m & Hm & Hentry).
    + intros m0 Hnodes.
      apply (node_loop_entry wn results levels name _ (node_name_list wn))
        with (sv := []); [apply Hwf | | | exact Hnodes].
      * unfold node_name_list. apply in_map_iff. exists (name, NJunction j).
        split; [reflexivity |].
        apply (dict_find_some_in String.eqb string_eqb_eq). exact Hfind.
      * intros sv. unfold node_step. rewrite Hnt, Hj.
        destruct (Req_dec_T _ 0); [contradiction |].
        rewrite np_divide_finite by assumption. reflexivity.
    + exists m. split; [exact Hm |]. split; [intros H; contradiction |].
      intros _. exact Hentry.
Qed.

(** A name that is neither a tank, nor a junction, nor a pump of the
    network (a reservoir, for one) has no entry in the serviceability map. *)
Theorem serviceability_reports_only_tanks_junctions_pumps
    {E : Collaborators}
    (wn : WaterNetworkModel) (results : SimulationResults)
    (levels pump_performance : list (string * R)) (name : string)
    (m : list (string * quotient)) :
  serviceability wn results levels pump_performance = inr m ->
  ~ In name (tank_name_list wn) ->
  ~ In name (junction_name_list wn) ->
  ~ In name (pump_name_list wn) ->
  dict_find String.eqb m name = None.
Proof.
  intros Hm Hnt Hnj Hnp.
  unfold serviceability in Hm. apply bind_inr in Hm as (after & Hnodes & Hloop).
  rewrite (pump_serviceability_loop_frame pump_performance name
             (pump_name_list wn) Hnp after m Hloop).
  rewrite (node_loop_skip wn results levels name (node_name_list wn))
    with (sv := []) (m := after); [reflexivity | | exact Hnodes].
  intros _ sv. unfold node_step.
  rewrite (name_in_false _ _ Hnt), (name_in_false _ _ Hnj). reflexivity.
Qed.

Lemma cross_section_positive (d : R) : 0 < d -> 0 < cross_section d.
Proof.
  intros Hd. unfold cross_section. pose proof PI_RGT_0.
  apply Rmult_lt_0_compat; [lra |]. apply pow_lt. lra.
Qed.

Lemma split_damage_values (count : Z) :
  (0 <= count)%Z ->
  split_damage count = ((85 * count / 100)%Z, (15 * count / 100)%Z).
Proof.
  intros Hc. unfold split_damage.
  pose proof (scaled_floor 85 count ltac:(lia) Hc) as H85.
  pose proof (scaled_floor 15 count ltac:(lia) Hc) as H15.
  assert (Hc' : 0 <= IZR count) by (apply IZR_le; exact Hc).
  rewrite (py_int_floor (0.85 * IZR count) (85 * count / 100)) by lra.
  rewrite (py_int_floor (0.15 * IZR count) (15 * count / 100)) by lra.
  reflexivity.
Qed.

(** The leak/break split of a damage count of 0 or 1 is (0, 0): the orifice
    area of such a pipe is zero, and it is zero for no larger count. *)
Theorem orifice_is_zero_up_to_one_damage (count : Z) (d : R) :
  (0 <= count)%Z -> 0 < d ->
  (orifice_area (fst (split_damage count)) (snd (split_damage count))
     (cross_section d) = 0 <-> (count <= 1)%Z).
Proof.
  intros Hc Hd. rewrite split_damage_values by exact Hc. cbn [fst snd].
  pose proof (cross_section_positive d Hd) as HA.
  set (A := cross_section d) in *.
  unfold orifice_area, py_min.
  split.
  - intros H0. destruct (Z_le_gt_dec count 1) as [Hle | Hgt]; [exact Hle |].
    exfalso.
    assert (Hl : (1 <= 85 * count / 100)%Z)
      by (apply Z.div_le_lower_bound; lia).
    assert (Hb : (0 <= 15 * count / 100)%Z) by (apply Z.div_pos; lia).
    apply IZR_le in Hl. apply IZR_le in Hb.
    destruct (Rlt_dec _ _); [lra |]. nra.
  - intros Hle.
    assert (Hl : (85 * count / 100 = 0)%Z) by (apply Z.div_small; lia).
    assert (Hb : (15 * count / 100 = 0)%Z) by (apply Z.div_small; lia).
    rewrite Hl, Hb. destruct (Rlt_dec _ _); lra.
Qed.

(** The cap of the orifice area is reached from 20 damages on, and not
    before: the orifice area is the full cross-section exactly when the
    damage count is at least 20. *)
Theorem orifice_is_full_bore_from_twenty_damages (count : Z) (d : R) :
  (0 <= count)%Z -> 0 < d ->
  (orifice_area (fst (split_damage count)) (snd (split_damage count))
     (cross_section d) = cross_section d <-> (20 <= count)%Z).
Proof.
  intros Hc Hd. rewrite split_damage_values by exact Hc. cbn [fst snd].
  pose proof (cross_section_positive d Hd) as HA.
  set (A := cross_section d) in *.
  unfold orifice_area, py_min.
  split.
  - intros Hfull. destruct (Z_le_gt_dec 20 count) as [Hge | Hlt]; [exact Hge |].
    exfalso.
    assert (Hl : (85 * count / 100 <= 16)%Z)
      by (apply Z.lt_succ_r; apply Z.div_lt_upper_bound; lia).
    assert (Hb : (15 * count / 100 <= 2)%Z)
      by (apply Z.lt_succ_r; apply Z.div_lt_upper_bound; lia).
    apply IZR_le in Hl. apply IZR_le in Hb.
    destruct (Rlt_dec _ _); nra.
  - intros Hge.
    assert (Hl : (17 <= 85 * count / 100)%Z)
      by (apply Z.div_le_lower_bound; lia).
    assert (Hb : (3 <= 15 * count / 100)%Z)
      by (apply Z.div_le_lower_bound; lia).
    apply IZR_le in Hl. apply IZR_le in Hb.
    destruct (Rlt_dec _ _); [reflexivity | nra].
Qed.


(** ** Names and positions *)

Lemma int_of_str_py_str (n : Z) : int_of_str (py_str n) = inr n.
Proof.
  unfold int_of_str, py_str. rewrite NilZero.isi.
  - rewrite DecimalZ.of_to. reflexivity.
  - destruct n; simpl; try discriminate.
    intros [= H]. exact (Unsigned.to_uint_nonnil _ H).
  - destruct n; simpl; try discriminate.
    intros [= H]. exact (Unsigned.to_uint_nonnil _ H).
Qed.

Lemma py_str_injective (p q : Z) : py_str p = py_str q -> p = q.
Proof.
  intros H. pose proof (int_of_str_py_str p) as Hp.
  rewrite H, int_of_str_py_str in Hp. injection Hp as <-. reflexivity.
Qed.

Lemma length_append (a b : string) :
  String.length (a ++ b) = (String.length a + String.length b)%nat.
Proof.
  induction a as [| c a IH]; simpl; [reflexivity | rewrite IH; reflexivity].
Qed.

Lemma append_suffix_injective (a b t : string) :
  (a ++ t)%string = (b ++ t)%string -> a = b.
Proof.
  revert b. induction a as [| c a IH]; intros [| c' b] H; simpl in H.
  - reflexivity.
  - exfalso. apply (f_equal String.length) in H. simpl in H.
    rewrite length_append in H. lia.
  - exfalso. apply (f_equal String.length) in H. simpl in H.
    rewrite length_append in H. lia.
  - injection H as -> H. f_equal. apply IH. exact H.
Qed.

(** [int(str(p))] is [p], and the names built for the leak node and for the
    new pipe, "Leak_<p>" and "<p>_A", differ for different pipes. *)
Theorem pipe_names_round_trip (p q : Z) :
  int_of_str (py_str p) = inr p /\
  (("Leak_" ++ py_str p)%string = ("Leak_" ++ py_str q)%string -> p = q) /\
  ((py_str p ++ "_A")%string = (py_str q ++ "_A")%string -> p = q).
Proof.
  split; [apply int_of_str_py_str |]. split.
  - intros H. apply py_str_injective. simpl in H. congruence.
  - intros H. apply py_str_injective.
    apply (append_suffix_injective _ _ "_A"). exact H.
Qed.



Section Positions.
Context {E : Collaborators}.
Variable lengths : list R.


End Positions.


(** When every repair rate is zero the failure probability of every pipe is
    zero and no draw is below it: the pipeline cell hands back the network it
    was given. *)
Theorem zero_repair_rate_never_fails {E : Collaborators}
    `{L : !CollaboratorsLaws E} (RR : list (Z * R))
    (wn wn' : WaterNetworkModel) (s s' : np_rng) :
  (forall pipe rate, In (pipe, rate) RR -> rate = 0) ->
  damage_pipelines RR wn s = inr (wn', s') ->
  wn' = wn.
Proof.
  intros Hzero Hrun. unfold damage_pipelines in Hrun.
  apply bind_inr in Hrun as ([damages s1] & _ & Hrun).
  apply bind_inr in Hrun as (ds & _ & Hrun).
  apply bind_inr in Hrun as (oas & _ & Hrun).
  change wn' with (fst (wn', s')).
  apply (for_each_invariant
           (fun st : WaterNetworkModel * np_rng => fst st = wn)
           (leak_step RR (link_length wn)) oas) with (st := (wn, s1));
    [| reflexivity | exact Hrun].
  intros [pipe area] [wn0 s0] st' _ Hst Hstep. cbn [fst] in Hst. subst wn0.
  unfold leak_step in Hstep. apply bind_inr in Hstep as (pf & Hpf & Hstep).
  unfold failure_probability in Hpf.
  apply bind_inr in Hpf as (rate & Hrate & Hpf).
  apply bind_inr in Hpf as (len & _ & Hpf). injection Hpf as <-.
  unfold dict_getitem in Hrate.
  destruct (dict_find Z.eqb RR pipe) as [r |] eqn:Hfind; [| discriminate].
  injection Hrate as <-.
  apply (dict_find_some_in Z.eqb Z.eqb_eq) in Hfind.
  rewrite (Hzero pipe r Hfind) in Hstep.
  replace (- 0 * len) with 0 in Hstep by lra. rewrite exp_0 in Hstep.
  pose proof (np_random_uniform_range s0) as Hu.
  destruct (np_random_uniform s0) as [u s2]. cbn [fst] in Hu.
  destruct (Rlt_dec u (1 - 1)) as [Hlt | _]; [lra |].
  injection Hstep as <-. reflexivity.
Qed.

Lemma orifice_areas_missing_area (ar : list (Z * R))
    (items : list (Z * (Z * Z))) :
  (exists pipe, In pipe (map fst items) /\ dict_find Z.eqb ar pipe = None) ->
  forall acc, for_each (orifice_areas_step ar) items acc = inl KeyError.
Proof.
  induction items as [| [pipe [leaks breaks]] rest IH]; intros (p & Hin & Hp) acc.
  - destruct Hin.
  - cbn [for_each]. unfold orifice_areas_step at 1. unfold dict_getitem.
    destruct (dict_find Z.eqb ar pipe) as [area |] eqn:Harea;
      [| reflexivity].
    cbn [Py.bind Py.ret]. apply IH. exists p. split; [| exact Hp].
    simpl in Hin. destruct Hin as [Heq | Hin]; [congruence | exact Hin].
Qed.

Lemma areas_lookup (ds : list (Z * R)) (pipe : Z) :
  dict_find Z.eqb (areas ds) pipe =
  option_map cross_section (dict_find Z.eqb ds pipe).
Proof.
  unfold areas. induction ds as [| [k d] rest IH]; simpl; [reflexivity |].
  destruct (Z.eqb k pipe); [reflexivity | exact IH].
Qed.

(** When [RR] rates a pipe number for which [diameters] has no entry, the
    pipeline cell raises [KeyError] (at [areas[pipe]]) before any pipe is
    split. *)
Theorem rated_pipe_without_diameter_raises_key_error {E : Collaborators}
    (RR : list (Z * R)) (wn : WaterNetworkModel) (s s1 : np_rng)
    (damages : list (Z * Z)) (ds : list (Z * R)) (pipe : Z) :
  num_damages RR (link_length wn) s = inr (damages, s1) ->
  diameters wn = inr ds ->
  In pipe (map fst RR) ->
  dict_find Z.eqb ds pipe = None ->
  damage_pipelines RR wn s = inl KeyError.
Proof.
  intros Hnd Hds Hin Hmissing. unfold damage_pipelines.
  rewrite Hnd. cbn [Py.bind]. rewrite Hds. cbn [Py.bind].
  unfold orifice_areas. rewrite orifice_areas_missing_area; [reflexivity |].
  exists pipe. split.
  - rewrite leaks_breaks_keys.
    destruct (num_damages_loop (link_length wn) RR _ _ _ _ Hnd) as [_ Hkeys].
    apply Hkeys. left. exact Hin.
  - rewrite areas_lookup, Hmissing. reflexivity.
Qed.

Lemma tank_loop_scales_initial_levels_witness :
  well_formed (Replay.network 10) /\
  exists wn' s',
    @damage_tanks Replay.collaborators [("T1"%string, 0.3)]
      (Replay.network 10) [0.5] = inr (wn', s') /\
    links wn' = links (Replay.network 10) /\
    map fst (nodes wn') = map fst (nodes (Replay.network 10)) /\
    (forall name n,
       dict_find String.eqb (nodes (Replay.network 10)) name = Some n ->
       is_tank n = false ->
       dict_find String.eqb (nodes wn') name = Some n) /\
    (forall name t,
       dict_find String.eqb (nodes (Replay.network 10)) name =
         Some (NTank t) ->
       exists v, table_level v /\
         dict_find String.eqb (nodes wn') name =
         Some (NTank (mkTank (init_level t * v) (tank_elevation t)))).
Proof.
  split; [apply replay_network_well_formed |].
  apply (@tank_loop_scales_initial_levels Replay.collaborators
           [("T1"%string, 0.3)] (Replay.network 10) [0.5]).
  apply replay_network_well_formed.
Defined.

Lemma original_tank_levels_records_every_tank_witness :
  well_formed (Replay.network 10) /\
  exists levels,
    original_tank_levels (Replay.network 10) = inr levels /\
    levels_cover_tanks (Replay.network 10) levels /\
    forall name,
      dict_find String.eqb levels name =
      match dict_find String.eqb (nodes (Replay.network 10)) name with
      | Some (NTank t) => Some (init_level t)
      | _ => None
      end.
Proof.
  split; [apply replay_network_well_formed |].
  apply (original_tank_levels_records_every_tank (Replay.network 10)).
  apply replay_network_well_formed.
Defined.

Lemma replay_not_a_pump (level : R) (name : string) :
  name <> "P2"%string -> ~ In name (pump_name_list (Replay.network level)).
Proof. intros Hne [H | []]. apply Hne. symmetry. exact H. Qed.

Lemma tank_serviceability_is_level_ratio_witness :
  well_formed (Replay.network 10) /\
  levels_cover_tanks (Replay.network 10) [("T1"%string, 10)] /\
  performance_covers_pumps (Replay.network 10) [("P2"%string, 0.8)] /\
  dict_find String.eqb (nodes (Replay.network 10)) "T1"%string =
    Some (NTank (mkTank 10 100)) /\
  ~ In "T1"%string (pump_name_list (Replay.network 10)) /\
  dict_find String.eqb [("T1"%string, 10)] "T1"%string = Some 10 /\
  10 <> 0 /\
  exists m,
    @serviceability Replay.collaborators (Replay.network 10) Replay.results
      [("T1"%string, 10)] [("P2"%string, 0.8)] = inr m /\
    dict_find String.eqb m "T1"%string =
    Some (Finite ((mean (node_head Replay.results "T1"%string) -
                   tank_elevation (mkTank 10 100)) / 10)).
Proof.
  assert (Hnp : ~ In "T1"%string (pump_name_list (Replay.network 10)))
    by (apply replay_not_a_pump; discriminate).
  split; [apply replay_network_well_formed |].
  split; [apply replay_levels_cover |].
  split; [apply replay_performance_covers |].
  split; [reflexivity |]. split; [exact Hnp |]. split; [reflexivity |].
  split; [lra |].
  apply (@tank_serviceability_is_level_ratio Replay.collaborators
           (Replay.network 10) Replay.results [("T1"%string, 10)]
           [("P2"%string, 0.8)] "T1"%string (mkTank 10 100) 10).
  - apply replay_network_well_formed.
  - apply replay_levels_cover.
  - apply replay_performance_covers.
  - reflexivity.
  - exact Hnp.
  - reflexivity.
  - lra.
Defined.

Lemma junction_serviceability_is_demand_ratio_witness :
  well_formed (Replay.network 10) /\
  levels_cover_tanks (Replay.network 10) [("T1"%string, 10)] /\
  performance_covers_pumps (Replay.network 10) [("P2"%string, 0.8)] /\
  dict_find String.eqb (nodes (Replay.network 10)) "J1"%string =
    Some (NJunction (mkJunction 50 None)) /\
  ~ In "J1"%string (pump_name_list (Replay.network 10)) /\
  exists m,
    @serviceability Replay.collaborators (Replay.network 10) Replay.results
      [("T1"%string, 10)] [("P2"%string, 0.8)] = inr m /\
    (mean (@expected_demand Replay.collaborators (Replay.network 10)
             "J1"%string) = 0 ->
     dict_find String.eqb m "J1"%string = None) /\
    (mean (@expected_demand Replay.collaborators (Replay.network 10)
             "J1"%string) <> 0 ->
     dict_find String.eqb m "J1"%string =
     Some (Finite (mean (node_demand Replay.results "J1"%string)
                   / mean (@expected_demand Replay.collaborators
                             (Replay.network 10) "J1"%string)))).
Proof.
  assert (Hnp : ~ In "J1"%string (pump_name_list (Replay.network 10)))
    by (apply replay_not_a_pump; discriminate).
  split; [apply replay_network_well_formed |].
  split; [apply replay_levels_cover |].
  split; [apply replay_performance_covers |].
  split; [reflexivity |]. split; [exact Hnp |].
  apply (@junction_serviceability_is_demand_ratio Replay.collaborators
           (Replay.network 10) Replay.results [("T1"%string, 10)]
           [("P2"%string, 0.8)] "J1"%string (mkJunction 50 None)).
  - apply replay_network_well_formed.
  - apply replay_levels_cover.
  - apply replay_performance_covers.
  - reflexivity.
  - exact Hnp.
Defined.

Lemma serviceability_reports_only_tanks_junctions_pumps_witness :
  @serviceability Replay.collaborators (Replay.network 10) Replay.results
    [("T1"%string, 10)] [("P2"%string, 0.8)] =
    inr [ ("J1"%string, Finite (mean [1] / mean [1]));
          ("T1"%string, Finite ((mean [1] - 100) / 10));
          ("P2"%string, Finite 0.8) ] /\
  ~ In "0"%string (tank_name_list (Replay.network 10)) /\
  ~ In "0"%string (junction_name_list (Replay.network 10)) /\
  ~ In "0"%string (pump_name_list (Replay.network 10)) /\
  dict_find String.eqb
    [ ("J1"%string, Finite (mean [1] / mean [1]));
      ("T1"%string, Finite ((mean [1] - 100) / 10));
      ("P2"%string, Finite 0.8) ] "0"%string = None.
Proof.
  assert (Ht : ~ In "0"%string (tank_name_list (Replay.network 10)))
    by (simpl; intuition discriminate).
  assert (Hj : ~ In "0"%string (junction_name_list (Replay.network 10)))
    by (simpl; intuition discriminate).
  assert (Hp : ~ In "0"%string (pump_name_list (Replay.network 10)))
    by (simpl; intuition discriminate).
  split; [apply replay_serviceability; lra |].
  split; [exact Ht |]. split; [exact Hj |]. split; [exact Hp |].
  apply (@serviceability_reports_only_tanks_junctions_pumps
           Replay.collaborators (Replay.network 10) Replay.results
           [("T1"%string, 10)] [("P2"%string, 0.8)] "0"%string).
  - apply replay_serviceability. lra.
  - exact Ht.
  - exact Hj.
  - exact Hp.
Defined.


Lemma orifice_is_zero_up_to_one_damage_witness :
  (0 <= 1)%Z /\ 0 < 0.3 /\
  (orifice_area (fst (split_damage 1)) (snd (split_damage 1))
     (cross_section 0.3) = 0 <-> (1 <= 1)%Z).
Proof.
  split; [lia |]. split; [lra |].
  apply (orifice_is_zero_up_to_one_damage 1 0.3); [lia | lra].
Defined.

Lemma orifice_is_full_bore_from_twenty_damages_witness :
  (0 <= 20)%Z /\ 0 < 0.3 /\
  (orifice_area (fst (split_damage 20)) (snd (split_damage 20))
     (cross_section 0.3) = cross_section 0.3 <-> (20 <= 20)%Z).
Proof.
  split; [lia |]. split; [lra |].
  apply (orifice_is_full_bore_from_twenty_damages 20 0.3); [lia | lra].
Defined.

Lemma replay_single_draw (pipe : Z) (rate len : R) (k : Z) (us : list R)
    (lengths : list R) :
  iloc lengths pipe = inr len -> 0 <= rate * len -> (0 <= k)%Z ->
  @num_damages Replay.collaborators [(pipe, rate)] lengths
    (Replay.mkTape us [k]) =
  inr ([(pipe, k)], Replay.mkTape us []).
Proof.
  intros Hlen Hmean Hk. unfold num_damages. cbn [for_each].
  unfold num_damages_step. rewrite Hlen. cbn [Py.bind].
  rewrite poisson_draw_accepts by exact Hmean.
  cbn [Py.bind Py.ret poisson_rvs Replay.collaborators].
  unfold Replay.poisson. cbn [Replay.counts Replay.uniforms].
  rewrite Z.max_r by exact Hk. reflexivity.
Qed.

Lemma replay_zero_rate_run :
  @damage_pipelines Replay.collaborators [(0%Z, 0)] (Replay.network 10)
    (Replay.mkTape [0.9] [0%Z]) =
  inr (Replay.network 10, Replay.mkTape [] []).
Proof.
  unfold damage_pipelines.
  assert (Hn : @num_damages Replay.collaborators [(0%Z, 0)]
                 (link_length (Replay.network 10)) (Replay.mkTape [0.9] [0%Z]) =
               inr ([(0%Z, 0%Z)], Replay.mkTape [0.9] []))
    by (apply (replay_single_draw 0 0 (1000 * 0.3048));
        [reflexivity | lra | lia]).
  rewrite Hn. cbn [Py.bind].
  assert (Hd : diameters (Replay.network 10) = inr [(0%Z, 0.3)]) by reflexivity.
  rewrite Hd. cbn [Py.bind].
  assert (Ho : orifice_areas (areas [(0%Z, 0.3)]) (leaks_breaks [(0%Z, 0%Z)]) =
               inr [(0%Z, orifice_area (fst (split_damage 0))
                            (snd (split_damage 0)) (cross_section 0.3))])
    by reflexivity.
  rewrite Ho. cbn [Py.bind for_each]. unfold leak_step.
  assert (Hp : failure_probability [(0%Z, 0)]
                 (link_length (Replay.network 10)) 0 =
               inr (1 - exp (- 0 * (1000 * 0.3048)))) by reflexivity.
  rewrite Hp. cbn [Py.bind].
  cbn [np_random_uniform Replay.collaborators]. unfold Replay.uniform.
  cbn [Replay.uniforms Replay.counts Replay.next_uniform].
  rewrite replay_unit_draw by lra.
  destruct (Rlt_dec _ _) as [H | _]; [| reflexivity].
  exfalso. replace (- 0 * (1000 * 0.3048)) with 0 in H by lra.
  rewrite exp_0 in H. lra.
Qed.

Lemma zero_repair_rate_never_fails_witness :
  (forall pipe rate, In (pipe, rate) [(0%Z, 0)] -> rate = 0) /\
  @damage_pipelines Replay.collaborators [(0%Z, 0)] (Replay.network 10)
    (Replay.mkTape [0.9] [0%Z]) =
    inr (Replay.network 10, Replay.mkTape [] []) /\
  Replay.network 10 = Replay.network 10.
Proof.
  assert (Hz : forall (pipe : Z) (rate : R),
             In (pipe, rate) [(0%Z, 0)] -> rate = 0).
  { intros pipe rate [H | []]. injection H as _ <-. reflexivity. }
  split; [exact Hz |]. split; [apply replay_zero_rate_run |].
  apply (@zero_repair_rate_never_fails Replay.collaborators replay_laws
           [(0%Z, 0)] (Replay.network 10) (Replay.network 10)
           (Replay.mkTape [0.9] [0%Z]) (Replay.mkTape [] []) Hz).
  apply replay_zero_rate_run.
Defined.

Lemma rated_pipe_without_diameter_raises_key_error_witness :
  @num_damages Replay.collaborators [((-1)%Z, 0.0001)]
    (link_length (Replay.network 10)) (Replay.mkTape [0.9] [3%Z]) =
    inr ([((-1)%Z, 3%Z)], Replay.mkTape [0.9] []) /\
  diameters (Replay.network 10) = inr [(0%Z, 0.3)] /\
  In (-1)%Z (map fst [((-1)%Z, 0.0001)]) /\
  dict_find Z.eqb [(0%Z, 0.3)] (-1)%Z = None /\
  @damage_pipelines Replay.collaborators [((-1)%Z, 0.0001)]
    (Replay.network 10) (Replay.mkTape [0.9] [3%Z]) = inl KeyError.
Proof.
  assert (Hn : @num_damages Replay.collaborators [((-1)%Z, 0.0001)]
                 (link_length (Replay.network 10))
                 (Replay.mkTape [0.9] [3%Z]) =
               inr ([((-1)%Z, 3%Z)], Replay.mkTape [0.9] []))
    by (apply (replay_single_draw (-1) 0.0001 (1000 * 0.3048));
        [reflexivity | lra | lia]).
  split; [exact Hn |]. split; [reflexivity |].
  split; [left; reflexivity |]. split; [reflexivity |].
  apply (@rated_pipe_without_diameter_raises_key_error Replay.collaborators
           [((-1)%Z, 0.0001)] (Replay.network 10) (Replay.mkTape [0.9] [3%Z])
           (Replay.mkTape [0.9] []) [((-1)%Z, 3%Z)] [(0%Z, 0.3)] (-1)%Z);
    [exact Hn | reflexivity | left; reflexivity | reflexivity].
Defined.

Section Diameters.
Variable wn : WaterNetworkModel.
Hypothesis Hwf : well_formed wn.

Lemma pipe_link_found (name : string) :
  In name (pipe_name_list wn) ->
  exists p, dict_find String.eqb (links wn) name = Some (LPipe p).
Proof.
  intros Hin. destruct Hwf as [_ Hnd].
  destruct (names_where_find is_pipe (links wn) name Hnd Hin) as (l & Hl & Hp).
  destruct l as [p | p |]; try discriminate. eauto.
Qed.

Lemma diameters_loop (names : list string) :
  (forall n, In n names -> In n (pipe_name_list wn)) ->
  (forall n, In n names -> exists k, n = py_str k) ->
  forall acc,
    exists ds,
      for_each (diameters_step wn) names acc = inr ds /\
      (forall k, ~ In (py_str k) names ->
         dict_find Z.eqb ds k = dict_find Z.eqb acc k) /\
      (forall k p, In (py_str k) names ->
         dict_find String.eqb (links wn) (py_str k) = Some (LPipe p) ->
         dict_find Z.eqb ds k = Some (diameter p)).
Proof.
  induction names as [| name rest IH]; intros Hsub Hnum acc.
  - exists acc. simpl. repeat split; auto. intros ? ? [].
  - destruct (Hnum name (or_introl eq_refl)) as [k0 ->].
    destruct (pipe_link_found (py_str k0) (Hsub _ (or_introl eq_refl)))
      as [p0 Hp0].
    cbn [for_each]. unfold diameters_step at 1.
    rewrite int_of_str_py_str. cbn [Py.bind].
    unfold get_link, dict_getitem. rewrite Hp0.
    cbn [Py.bind Py.ret link_diameter].
    destruct (IH (fun n H => Hsub n (or_intror H))
                 (fun n H => Hnum n (or_intror H))
                 (dict_set Z.eqb acc k0 (diameter p0)))
      as (ds & Hrun & Hout & Hin).
    exists ds. split; [exact Hrun |]. split.
    + intros k Hk. rewrite Hout by (intros H; apply Hk; right; exact H).
      apply (dict_find_set_other Z.eqb Z.eqb_eq).
      intros ->. apply Hk. left. reflexivity.
    + intros k p Hk Hp.
      destruct (in_dec string_dec (py_str k) rest) as [Hr | Hr];
        [apply (Hin k p Hr Hp) |].
      destruct Hk as [Heq | Hk]; [| contradiction].
      apply py_str_injective in Heq. subst k0.
      rewrite Hp0 in Hp. injection Hp as <-.
      rewrite (Hout k Hr). apply (dict_find_set_same Z.eqb Z.eqb_eq).
Qed.
End Diameters.

(** On a well-formed network whose pipes are all named by numerals,
    [diameters] is built without an exception and holds, under the number of
    each pipe, the diameter of that pipe, [areas] holds its cross-section,
    and no other number has an entry. *)
Theorem diameters_are_keyed_by_pipe_number (wn : WaterNetworkModel) :
  well_formed wn ->
  (forall name, In name (pipe_name_list wn) -> exists k, name = py_str k) ->
  exists ds,
    diameters wn = inr ds /\
    (forall k p,
       dict_find String.eqb (links wn) (py_str k) = Some (LPipe p) ->
       dict_find Z.eqb ds k = Some (diameter p) /\
       dict_find Z.eqb (areas ds) k = Some (PI * (diameter p / 2) ^ 2)) /\
    (forall k, ~ In (py_str k) (pipe_name_list wn) ->
       dict_find Z.eqb ds k = None).
Proof.
  intros Hwf Hnum.
  destruct (diameters_loop wn Hwf (pipe_name_list wn) (fun n H => H) Hnum [])
    as (ds & Hrun & Hout & Hin).
  exists ds. split; [exact Hrun |]. split.
  - intros k p Hp.
    assert (Hd : dict_find Z.eqb ds k = Some (diameter p)).
    { apply Hin; [| exact Hp].
      apply (find_in_names_where is_pipe (links wn) _ _ Hp). reflexivity. }
    split; [exact Hd |]. rewrite areas_lookup, Hd. reflexivity.
  - intros k Hk. rewrite (Hout k Hk). reflexivity.
Qed.

Lemma diameters_are_keyed_by_pipe_number_witness :
  well_formed (Replay.network 10) /\
  (forall name, In name (pipe_name_list (Replay.network 10)) ->
     exists k, name = py_str k) /\
  exists ds,
    diameters (Replay.network 10) = inr ds /\
    (forall k p,
       dict_find String.eqb (links (Replay.network 10)) (py_str k) =
         Some (LPipe p) ->
       dict_find Z.eqb ds k = Some (diameter p) /\
       dict_find Z.eqb (areas ds) k = Some (PI * (diameter p / 2) ^ 2)) /\
    (forall k, ~ In (py_str k) (pipe_name_list (Replay.network 10)) ->
       dict_find Z.eqb ds k = None).
Proof.
  assert (Hnum : forall name, In name (pipe_name_list (Replay.network 10)) ->
                   exists k, name = py_str k).
  { intros name [<- | []]. exists 0%Z. reflexivity. }
  split; [apply replay_network_well_formed |]. split; [exact Hnum |].
  apply (diameters_are_keyed_by_pipe_number (Replay.network 10)
           (replay_network_well_formed 10) Hnum).
Defined.

(** The levels recorded before the tank loop are the divisors of the tank
    ratios computed after it: for a tank whose initial level is not zero the
    serviceability map holds (mean simulated head - elevation) / the initial
    level the tank had before the loop scaled it. *)
Theorem tank_ratio_divides_by_the_level_before_damage {E : Collaborators}
    (wn : WaterNetworkModel) (tanks_pga pumps_pga : list (string * R))
    (s : py_rng) (results : SimulationResults) (name : string) (t : Tank) :
  well_formed wn ->
  dict_find String.eqb (nodes wn) name = Some (NTank t) ->
  ~ In name (pump_name_list wn) ->
  init_level t <> 0 ->
  exists levels wn1 s1 pp s2 m,
    original_tank_levels wn = inr levels /\
    damage_tanks tanks_pga wn s = inr (wn1, s1) /\
    damage_pumps pumps_pga wn1 s1 = inr (wn1, pp, s2) /\
    serviceability wn1 results levels pp = inr m /\
    dict_find String.eqb m name =
    Some (Finite ((mean (node_head results name) - tank_elevation t)
                  / init_level t)).
Proof.
  intros Hwf Hfind Hnp Hnz.
  destruct (original_levels_loop wn Hwf (tank_name_list wn) (fun n H => H) [])
    as (levels & Hlev & _ & Hlin).
  destruct (tank_loop_effect tanks_pga (tank_name_list wn)
              (names_where_nodup is_tank (nodes wn) (proj1 Hwf)) wn s Hwf
              (fun n H => H))
    as (wn1 & s1 & Htanks & Hlinks & Hkeys & _ & Hscaled).
  destruct (damage_tanks_succeeds tanks_pga wn s Hwf)
    as (wn1' & s1' & Htanks' & Hwf1 & Hnames & _).
  unfold damage_tanks in Htanks'. rewrite Htanks in Htanks'.
  injection Htanks' as <- <-.
  destruct (damage_pumps_run pumps_pga wn1 s1)
    as (pp & s2 & Hpumps & Hcov & _ & _).
  assert (Htank : In name (tank_name_list wn)).
  { apply (find_in_names_where is_tank (nodes wn) name _ Hfind). reflexivity. }
  destruct (Hscaled name t Htank Hfind) as (v & _ & Hfind1).
  assert (Hcover : levels_cover_tanks wn1 levels).
  { intros n Hn. rewrite Hnames in Hn.
    destruct (tank_node_found wn n Hwf Hn) as [tn Htn].
    unfold get_node, dict_getitem in Htn.
    destruct (dict_find String.eqb (nodes wn) n) as [nd |] eqn:Hnd;
      [| discriminate].
    injection Htn as ->. exists (init_level tn). apply (Hlin n tn Hn Hnd). }
  assert (Hnp1 : ~ In name (pump_name_list wn1)).
  { unfold pump_name_list. rewrite Hlinks. exact Hnp. }
  assert (Hserv :
            exists m,
              serviceability wn1 results levels pp = inr m /\
              dict_find String.eqb m name =
              Some (Finite ((mean (node_head results name) -
                             tank_elevation
                               (mkTank (init_level t * v) (tank_elevation t)))
                            / init_level t))).
  { apply serviceability_node_entry; try assumption.
    intros m0 Hnodes.
    assert (Htank1 : In name (tank_name_list wn1))
      by (rewrite Hnames; exact Htank).
    apply (node_loop_entry wn1 results levels name _ (node_name_list wn1))
      with (sv := []); [apply Hwf1 | | | exact Hnodes].
    - apply (names_where_in is_tank). exact Htank1.
    - intros sv.
      destruct (node_step_of_tank wn1 results levels name (init_level t) sv
                  Hwf1 Htank1 (Hlin name t Htank Hfind)) as (t0 & Ht0 & Hstep).
      unfold get_node, dict_getitem in Ht0. rewrite Hfind1 in Ht0.
      injection Ht0 as <-. rewrite Hstep, np_divide_finite by exact Hnz.
      reflexivity. }
  destruct Hserv as (m & Hm & Hentry).
  exists levels, wn1, s1, pp, s2, m.
  split; [exact Hlev |]. split; [exact Htanks |]. split; [exact Hpumps |].
  split; [exact Hm | exact Hentry].
Qed.

Lemma tank_ratio_divides_by_the_level_before_damage_witness :
  well_formed (Replay.network 10) /\
  dict_find String.eqb (nodes (Replay.network 10)) "T1"%string =
    Some (NTank (mkTank 10 100)) /\
  ~ In "T1"%string (pump_name_list (Replay.network 10)) /\
  init_level (mkTank 10 100) <> 0 /\
  exists levels wn1 s1 pp s2 m,
    original_tank_levels (Replay.network 10) = inr levels /\
    @damage_tanks Replay.collaborators [("T1"%string, 0.3)]
      (Replay.network 10) [0.5; 0.4] = inr (wn1, s1) /\
    @damage_pumps Replay.collaborators [("P2"%string, 0.36)] wn1 s1 =
      inr (wn1, pp, s2) /\
    @serviceability Replay.collaborators wn1 Replay.results levels pp =
      inr m /\
    dict_find String.eqb m "T1"%string =
    Some (Finite ((mean (node_head Replay.results "T1"%string) -
                   tank_elevation (mkTank 10 100))
                  / init_level (mkTank 10 100))).
Proof.
  assert (Hnp : ~ In "T1"%string (pump_name_list (Replay.network 10)))
    by (apply replay_not_a_pump; discriminate).
  assert (Hnz : init_level (mkTank 10 100) <> 0) by (simpl; lra).
  split; [apply replay_network_well_formed |]. split; [reflexivity |].
  split; [exact Hnp |]. split; [exact Hnz |].
  apply (@tank_ratio_divides_by_the_level_before_damage Replay.collaborators
           (Replay.network 10) [("T1"%string, 0.3)] [("P2"%string, 0.36)]
           [0.5; 0.4] Replay.results "T1"%string (mkTank 10 100)
           (replay_network_well_formed 10) eq_refl Hnp Hnz).
Defined.

(** ** Intensities the map does not list *)

Section SampledLevels.
Context {E : Collaborators}.

(** The level the tank loop applies to a tank is the level of the state
    sampled at the tank's intensity, from the generator state the loop had
    when it reached the tank. *)
Lemma tank_loop_sampled_levels (tanks_pga : list (string * R))
    (names : list string) :
  NoDup names ->
  forall wn s,
    well_formed wn ->
    (forall n, In n names -> In n (tank_name_list wn)) ->
    exists wn' s',
      for_each (tank_step tanks_pga) names (wn, s) = inr (wn', s') /\
      (forall name, ~ In name names ->
         dict_find String.eqb (nodes wn') name =
         dict_find String.eqb (nodes wn) name) /\
      (forall name t, In name names ->
         dict_find String.eqb (nodes wn) name = Some (NTank t) ->
         exists s0,
           dict_find String.eqb (nodes wn') name =
           Some (NTank
                   (mkTank
                      (init_level t *
                       dict_get String.eqb tank_operational_levels
                         (fst (determine_tank_damage_state
                                 (dict_get String.eqb tanks_pga name 0) s0))
                         1.0)
                      (tank_elevation t)))).
Proof.
  induction names as [| name rest IH]; intros Hnd wn s Hwf Hsub.
  - exists wn, s. simpl. repeat split; auto. intros ? ? [].
  - inversion Hnd as [| ? ? Hnotin Hnd']; subst.
    destruct (tank_step_runs tanks_pga wn name s Hwf
                (Hsub name (or_introl eq_refl))) as (t & Ht & Hstep).
    cbn [for_each]. rewrite Hstep. cbn [Py.bind].
    set (v := dict_get String.eqb tank_operational_levels
                (fst (determine_tank_damage_state
                        (dict_get String.eqb tanks_pga name 0) s)) 1.0) in *.
    set (s1 := snd (determine_tank_damage_state
                      (dict_get String.eqb tanks_pga name 0) s)) in *.
    set (wn1 := set_init_level wn name (init_level t * v)) in *.
    assert (Hfind : dict_find String.eqb (nodes wn) name = Some (NTank t)).
    { unfold get_node, dict_getitem in Ht.
      destruct (dict_find String.eqb (nodes wn) name); [| discriminate].
      injection Ht as ->. reflexivity. }
    destruct (set_init_level_keeps wn name (init_level t * v))
      as (Hk & Htl & Hl).
    destruct (set_init_level_lookup wn name (init_level t * v) t Hfind)
      as [Hsame Hother].
    fold wn1 in Hk, Htl, Hl, Hsame, Hother.
    assert (Hwf1 : well_formed wn1).
    { unfold well_formed. rewrite Hk, Hl. exact Hwf. }
    destruct (IH Hnd' wn1 s1 Hwf1) as (wn' & s' & Hrun & Hout & Hin).
    { intros n Hn. rewrite Htl. apply Hsub. right. exact Hn. }
    exists wn', s'. split; [exact Hrun |]. split.
    + intros n Hn. rewrite Hout by (intros H; apply Hn; right; exact H).
      apply Hother. intros ->. apply Hn. left. reflexivity.
    + intros n t0 [<- | Hn] Hn0.
      * rewrite Hfind in Hn0. injection Hn0 as <-.
        exists s. rewrite (Hout name Hnotin). exact Hsame.
      * apply (Hin n t0 Hn). rewrite Hother; [exact Hn0 |].
        intros ->. contradiction.
Qed.

Lemma sampled_pump_states_cover (pumps_pga : list (string * R))
    (names : list string) (s : py_rng) (n : string) :
  In n names ->
  exists s0,
    In (n, fst (determine_pump_damage_state
                  (dict_get String.eqb pumps_pga n 0) s0))
       (sampled_pump_states pumps_pga names s).
Proof.
  revert s. induction names as [| a rest IH]; intros s Hin; [destruct Hin |].
  cbn [sampled_pump_states].
  destruct (determine_pump_damage_state
              (dict_get String.eqb pumps_pga a 0) s) as [ds s1] eqn:Hd.
  destruct Hin as [-> | Hin].
  - exists s. left. rewrite Hd. reflexivity.
  - destruct (IH s1 Hin) as [s0 H]. exists s0. right. exact H.
Qed.
End SampledLevels.

(** C10: for a tank or a pump that the intensity map does not list, the
    loop body raises nothing: it samples the damage state at intensity zero
    and applies the resulting operational level, which is then what the
    network holds as the tank's initial level (the old level times the level
    of the sampled state) and what [pump_performance] holds for the pump;
    both loops run to the end, and the same is true of what they leave. *)
Theorem missing_intensity_defaults_to_zero {E : Collaborators}
    (wn : WaterNetworkModel) (tanks_pga pumps_pga : list (string * R)) :
  well_formed wn ->
  (forall tank_name s,
     In tank_name (tank_name_list wn) ->
     dict_find String.eqb tanks_pga tank_name = None ->
     exists t, get_node wn tank_name = inr (NTank t) /\
       tank_step tanks_pga tank_name (wn, s) =
       inr (set_init_level wn tank_name
              (init_level t *
               dict_get String.eqb tank_operational_levels
                 (fst (determine_tank_damage_state 0 s)) 1.0),
            snd (determine_tank_damage_state 0 s)) /\
       dict_find String.eqb
         (nodes (set_init_level wn tank_name
                   (init_level t *
                    dict_get String.eqb tank_operational_levels
                      (fst (determine_tank_damage_state 0 s)) 1.0)))
         tank_name =
       Some (NTank
               (mkTank
                  (init_level t *
                   dict_get String.eqb tank_operational_levels
                     (fst (determine_tank_damage_state 0 s)) 1.0)
                  (tank_elevation t)))) /\
  (forall pump_name pump_performance s,
     In pump_name (pump_name_list wn) ->
     dict_find String.eqb pumps_pga pump_name = None ->
     pump_step pumps_pga pump_name (wn, pump_performance, s) =
     inr (wn,
          dict_set String.eqb pump_performance pump_name
            (dict_get String.eqb pump_operational_levels
               (fst (determine_pump_damage_state 0 s)) 1.0),
          snd (determine_pump_damage_state 0 s)) /\
     dict_find String.eqb
       (dict_set String.eqb pump_performance pump_name
          (dict_get String.eqb pump_operational_levels
             (fst (determine_pump_damage_state 0 s)) 1.0))
       pump_name =
     Some (dict_get String.eqb pump_operational_levels
             (fst (determine_pump_damage_state 0 s)) 1.0)) /\
  (forall s, exists wn' s',
     damage_tanks tanks_pga wn s = inr (wn', s') /\
     forall tank_name t,
       dict_find String.eqb (nodes wn) tank_name = Some (NTank t) ->
       dict_find String.eqb tanks_pga tank_name = None ->
       exists s0,
         dict_find String.eqb (nodes wn') tank_name =
         Some (NTank
                 (mkTank
                    (init_level t *
                     dict_get String.eqb tank_operational_levels
                       (fst (determine_tank_damage_state 0 s0)) 1.0)
                    (tank_elevation t)))) /\
  (forall s, exists pp s',
     damage_pumps pumps_pga wn s = inr (wn, pp, s') /\
     forall pump_name,
       In pump_name (pump_name_list wn) ->
       dict_find String.eqb pumps_pga pump_name = None ->
       exists s0,
         dict_find String.eqb pp pump_name =
         Some (dict_get String.eqb pump_operational_levels
                 (fst (determine_pump_damage_state 0 s0)) 1.0)).
Proof.
  intros Hwf. split; [| split; [| split]].
  - intros tank_name s Hin Hmissing.
    destruct (tank_step_runs tanks_pga wn tank_name s Hwf Hin) as (t & Ht & Hstep).
    exists t. split; [exact Ht |].
    rewrite (dict_get_missing tanks_pga tank_name 0 Hmissing) in Hstep.
    split; [exact Hstep |].
    apply set_init_level_lookup.
    unfold get_node, dict_getitem in Ht.
    destruct (dict_find String.eqb (nodes wn) tank_name); [| discriminate].
    injection Ht as ->. reflexivity.
  - intros pump_name pp s Hin Hmissing.
    destruct (get_link_of_pump wn pump_name Hin) as [l Hl].
    split; [| apply (dict_find_set_same String.eqb string_eqb_eq)].
    unfold pump_step. rewrite Hl. cbn [Py.bind].
    rewrite (dict_get_missing pumps_pga pump_name 0 Hmissing).
    destruct (determine_pump_damage_state 0 s) as [ds s']. reflexivity.
  - intros s.
    destruct (tank_loop_sampled_levels tanks_pga (tank_name_list wn)
                (names_where_nodup is_tank (nodes wn) (proj1 Hwf)) wn s Hwf
                (fun n H => H)) as (wn' & s' & Hrun & _ & Hin).
    exists wn', s'. split; [exact Hrun |].
    intros tank_name t Hfind Hmissing.
    destruct (Hin tank_name t) as [s0 Hs0]; [| exact Hfind |].
    + apply (find_in_names_where is_tank (nodes wn) tank_name _ Hfind).
      reflexivity.
    + exists s0.
      rewrite (dict_get_missing tanks_pga tank_name 0 Hmissing) in Hs0.
      exact Hs0.
  - intros s.
    destruct (damage_pumps_run pumps_pga wn s) as (pp & s' & Hrun & _ & _ & Hsam).
    exists pp, s'. split; [exact Hrun |].
    intros pump_name Hin Hmissing.
    destruct (sampled_pump_states_cover pumps_pga (pump_name_list wn) s
                pump_name Hin) as [s0 Hs0].
    exists s0.
    rewrite (dict_get_missing pumps_pga pump_name 0 Hmissing) in Hs0.
    apply Hsam; [| exact Hs0].
    apply names_where_nodup. apply Hwf.
Qed.

Lemma missing_intensity_defaults_to_zero_witness :
  well_formed (Replay.network 10) /\
  (forall tank_name s,
     In tank_name (tank_name_list (Replay.network 10)) ->
     dict_find String.eqb (@nil (string * R)) tank_name = None ->
     exists t, get_node (Replay.network 10) tank_name = inr (NTank t) /\
       @tank_step Replay.collaborators [] tank_name (Replay.network 10, s) =
       inr (set_init_level (Replay.network 10) tank_name
              (init_level t *
               dict_get String.eqb tank_operational_levels
                 (fst (@determine_tank_damage_state Replay.collaborators 0 s))
                 1.0),
            snd (@determine_tank_damage_state Replay.collaborators 0 s)) /\
       dict_find String.eqb
         (nodes (set_init_level (Replay.network 10) tank_name
                   (init_level t *
                    dict_get String.eqb tank_operational_levels
                      (fst (@determine_tank_damage_state
                              Replay.collaborators 0 s)) 1.0)))
         tank_name =
       Some (NTank
               (mkTank
                  (init_level t *
                   dict_get String.eqb tank_operational_levels
                     (fst (@determine_tank_damage_state
                             Replay.collaborators 0 s)) 1.0)
                  (tank_elevation t)))) /\
  (forall pump_name pump_performance s,
     In pump_name (pump_name_list (Replay.network 10)) ->
     dict_find String.eqb (@nil (string * R)) pump_name = None ->
     @pump_step Replay.collaborators [] pump_name
       (Replay.network 10, pump_performance, s) =
     inr (Replay.network 10,
          dict_set String.eqb pump_performance pump_name
            (dict_get String.eqb pump_operational_levels
               (fst (@determine_pump_damage_state Replay.collaborators 0 s))
               1.0),
          snd (@determine_pump_damage_state Replay.collaborators 0 s)) /\
     dict_find String.eqb
       (dict_set String.eqb pump_performance pump_name
          (dict_get String.eqb pump_operational_levels
             (fst (@determine_pump_damage_state Replay.collaborators 0 s))
             1.0))
       pump_name =
     Some (dict_get String.eqb pump_operational_levels
             (fst (@determine_pump_damage_state Replay.collaborators 0 s))
             1.0)) /\
  (forall s, exists wn' s',
     @damage_tanks Replay.collaborators [] (Replay.network 10) s =
       inr (wn', s') /\
     forall tank_name t,
       dict_find String.eqb (nodes (Replay.network 10)) tank_name =
         Some (NTank t) ->
       dict_find String.eqb (@nil (string * R)) tank_name = None ->
       exists s0,
         dict_find String.eqb (nodes wn') tank_name =
         Some (NTank
                 (mkTank
                    (init_level t *
                     dict_get String.eqb tank_operational_levels
                       (fst (@determine_tank_damage_state
                               Replay.collaborators 0 s0)) 1.0)
                    (tank_elevation t)))) /\
  (forall s, exists pp s',
     @damage_pumps Replay.collaborators [] (Replay.network 10) s =
       inr (Replay.network 10, pp, s') /\
     forall pump_name,
       In pump_name (pump_name_list (Replay.network 10)) ->
       dict_find String.eqb (@nil (string * R)) pump_name = None ->
       exists s0,
         dict_find String.eqb pp pump_name =
         Some (dict_get String.eqb pump_operational_levels
                 (fst (@determine_pump_damage_state
                         Replay.collaborators 0 s0)) 1.0)).
Proof.
  split; [apply replay_network_well_formed |].
  apply (@missing_intensity_defaults_to_zero Replay.collaborators
           (Replay.network 10) [] []).
  apply replay_network_well_formed.
Defined.
